(** * ChargeLab: the stoichiometry and magnetic-field calculators

    A shallow embedding of [ChemistryCalculator] (chemistry.js) and
    [MagneticFieldCalculator] (physics module) and the properties of their
    [calculate] methods.

    JavaScript numbers are IEEE-754 binary64 values; they are modelled by
    Rocq's primitive [float], whose operations are the binary64 operations
    (round to nearest, ties to even), so that overflow to [infinity],
    underflow and [nan] behave in the model as they do in the program.

    The file has three parts: the two calculators as they are written
    (state is passed explicitly: [calculate] takes the calculator and
    returns the updated calculator and the result; the clock is an
    argument, the number-to-text conversions of the host a class); facts
    about rounding in binary64, derived from the specification of the
    [float] operations on [spec_float]; and the properties of the two
    engines, claim by claim.

    Around the two engines the first part also has what uses them: the
    links ([toURLParams], [fromURLParams], [DeepLinking.generateURL]), the
    parts of the two calculator pages that read the input elements and
    store the result, the two labs and the scenario manager of
    simulations.js, and [AppState] of main.js with the storage.  A query
    string is represented by its list of pairs and a stored text by the
    value [JSON.parse] gives for it; what the pages write to the document
    is left out, the three attributes of the document element apart.  The
    properties of these come last, after those of the claims. *)

From Stdlib Require Import Floats ZArith QArith Qabs String List Bool Lia.
Import ListNotations.

Set Warnings "-inexact-float".

Local Open Scope float_scope.

(* ================================================================== *)
(** * JavaScript values used by the calculators *)
(* ================================================================== *)

Module JS.

(** [ToBoolean] on a number: [+0], [-0] and [NaN] are falsy. *)
Definition truthy (x : float) : bool := negb (is_zero x || is_nan x).

(** [x || d] where [x] is a number or [undefined] ([None]). *)
Definition or_else (x : option float) (d : float) : float :=
  match x with
  | Some v => if truthy v then v else d
  | None => d
  end.

(** [x || null]. *)
Definition or_null (x : option float) : option float :=
  match x with
  | Some v => if truthy v then Some v else None
  | None => None
  end.

(** [x || d] on strings: the empty string is falsy. *)
Definition str_or_else (x : option string) (d : string) : string :=
  match x with
  | Some EmptyString => d
  | Some s => s
  | None => d
  end.

(** [Math.PI], the binary64 number nearest to pi. *)
Definition PI : float := 0x1.921fb54442d18p+1.

End JS.

(** The number-to-text conversions of the host ([Number.prototype.toFixed],
    [Number.prototype.toExponential] and the conversion used by template
    literals).  They are pure functions of the number; the calculators only
    paste their output into the work steps. *)
Class NumberFormat := {
  toFixed : float -> nat -> string;
  toExponential : float -> nat -> string;
  toString : float -> string
}.

(** One entry of [workSteps]. *)
Record WorkStep := {
  title : string;
  description : string;
  calculations : list string
}.

(** The text-to-number conversions of the host ([parseFloat] and
    [parseInt] on a string); both give [NaN] on a text that does not start
    with a number. *)
Class NumberParse := {
  parseFloatText : string -> float;
  parseIntText : string -> float
}.

(** [parseFloat(x)] and [parseInt(x)] where [x] is a string or [undefined]
    ([None]): [undefined] is read as the text ["undefined"], which is not a
    number. *)
Definition parseFloat {prs : NumberParse} (x : option string) : float :=
  match x with
  | Some s => parseFloatText s
  | None => nan
  end.

Definition parseInt {prs : NumberParse} (x : option string) : float :=
  match x with
  | Some s => parseIntText s
  | None => nan
  end.

(** [URLSearchParams]: the list of name-value pairs of a query string.  A
    query string is represented by the list [new URLSearchParams(text)]
    parses it to, which is the list [toString()] was given. *)
Module URLSearchParams.
Definition t : Type := list (string * string).

(** [get(name)]: the value of the first pair called [name]. *)
Fixpoint get (name : string) (params : t) : option string :=
  match params with
  | [] => None
  | (k, v) :: rest => if String.eqb k name then Some v else get name rest
  end.

(** [has(name)]. *)
Definition has (name : string) (params : t) : bool :=
  match get name params with
  | Some _ => true
  | None => false
  end.

(** [delete(name)]. *)
Definition delete (name : string) (params : t) : t :=
  filter (fun kv => negb (String.eqb (fst kv) name)) params.

(** [set(name, value)]: the first pair called [name] takes the value and
    the other pairs of that name are removed; without such a pair, one is
    appended. *)
Fixpoint set (name value : string) (params : t) : t :=
  match params with
  | [] => [(name, value)]
  | (k, v) :: rest =>
      if String.eqb k name then (name, value) :: delete name rest
      else (k, v) :: set name value rest
  end.
End URLSearchParams.

(** The [params] object handed to [fromURLParams]: a plain object with
    string values, its own properties in insertion order (the order of an
    object whose property names are not array indices, as is the case for
    the names of the parameters). *)
Module JSObject.
Definition t : Type := list (string * string).

(** [object[name]], [None] for [undefined]. *)
Fixpoint prop (name : string) (object : t) : option string :=
  match object with
  | [] => None
  | (k, v) :: rest => if String.eqb k name then Some v else prop name rest
  end.

(** [object[name] = value]. *)
Fixpoint assign (name value : string) (object : t) : t :=
  match object with
  | [] => [(name, value)]
  | (k, v) :: rest =>
      if String.eqb k name then (k, value) :: rest
      else (k, v) :: assign name value rest
  end.

(** [Object.fromEntries(params)]: a later pair of the same name overwrites
    an earlier one. *)
Definition fromEntries (params : URLSearchParams.t) : t :=
  fold_left (fun object kv => assign (fst kv) (snd kv) object) params [].
End JSObject.

(* ================================================================== *)
(** * chemistry.js *)
(* ================================================================== *)

Module CHEMISTRY_CONSTANTS.
Definition MOLAR_MASS_ZN : float := 65.38.
Definition MOLAR_MASS_MNO2 : float := 86.936.
Definition MOLAR_MASS_ZNO : float := 81.38.
Definition MOLAR_MASS_MN2O3 : float := 157.87.
Definition FARADAY : float := 96485.
Definition DEFAULT_VOLTAGE : float := 1.5.
Definition DEFAULT_ELECTRONS : float := 2.
Module STOICH.
Definition ZN : float := 1.
Definition MNO2 : float := 2.
Definition ZNO : float := 1.
Definition MN2O3 : float := 1.
End STOICH.
End CHEMISTRY_CONSTANTS.

(** The two reagents; [limitingReagent] and [excessReagent] hold one of the
    two labels ['Zn'] and ['MnO₂']. *)
Inductive Reagent := Zn | MnO2.

Definition reagentLabel (r : Reagent) : string :=
  match r with
  | Zn => "Zn"
  | MnO2 => "MnO₂"
  end.

Module ChemistryCalculator.

(** The [options] object given to the constructor: a field is a number or
    missing. *)
Module Options.
Record t := {
  molarMassZn : option float;
  molarMassMnO2 : option float;
  electronsPerReaction : option float;
  cellVoltage : option float;
  massZn : option float;
  massMnO2 : option float;
  resistance : option float
}.
End Options.

(** [results.inputs]. *)
Module Inputs.
Record t := {
  massZn : float;
  massMnO2 : float;
  molarMassZn : float;
  molarMassMnO2 : float;
  electronsPerReaction : float;
  cellVoltage : float;
  resistance : option float
}.
End Inputs.

(** [results]; [None] in the last three number fields is [null]. *)
Record ReactionResult := {
  inputs : Inputs.t;
  molesZn : float;
  molesMnO2 : float;
  limitingReagent : Reagent;
  excessReagent : Reagent;
  molesReacting : float;
  excessMoles : float;
  massZnO : float;
  massMn2O3 : float;
  totalElectrons : float;
  chargeQ : float;
  energyJ : float;
  energyWh : float;
  current : option float;
  runtimeHours : option float;
  runtimeMinutes : option float;
  timestamp : string;
  reaction : string
}.

(** The calculator object ([this]). *)
Record t := {
  molarMassZn : float;
  molarMassMnO2 : float;
  electronsPerReaction : float;
  cellVoltage : float;
  massZn : float;
  massMnO2 : float;
  resistance : option float;
  results : option ReactionResult;
  workSteps : list WorkStep
}.

Definition constructor (options : Options.t) : t :=
  {| molarMassZn :=
       JS.or_else (Options.molarMassZn options) CHEMISTRY_CONSTANTS.MOLAR_MASS_ZN;
     molarMassMnO2 :=
       JS.or_else (Options.molarMassMnO2 options) CHEMISTRY_CONSTANTS.MOLAR_MASS_MNO2;
     electronsPerReaction :=
       JS.or_else (Options.electronsPerReaction options)
                  CHEMISTRY_CONSTANTS.DEFAULT_ELECTRONS;
     cellVoltage :=
       JS.or_else (Options.cellVoltage options) CHEMISTRY_CONSTANTS.DEFAULT_VOLTAGE;
     massZn := JS.or_else (Options.massZn options) 0;
     massMnO2 := JS.or_else (Options.massMnO2 options) 0;
     resistance := JS.or_null (Options.resistance options);
     results := None;
     workSteps := [] |}.

(** [this.resistance && this.resistance > 0]. *)
Definition hasLoad (resistance : option float) : option float :=
  match resistance with
  | Some r => if JS.truthy r && (0 <? r) then Some r else None
  | None => None
  end.

Section Calculate.
Context {fmt : NumberFormat}.
Local Open Scope string_scope.

(** [calculate()]: the first argument is the value of
    [new Date().toISOString()] at the call; the result is the updated
    calculator and the returned [results] object. *)
Definition calculate (now : string) (this : t) : t * ReactionResult :=
  (* Step 1: moles from mass *)
  let molesZn := (massZn this / molarMassZn this)%float in
  let molesMnO2 := (massMnO2 this / molarMassMnO2 this)%float in
  let step1 :=
    {| title := "Convert mass to moles";
       description := "Using n = m/M where n is moles, m is mass, M is molar mass";
       calculations :=
         [ "n(Zn) = " ++ toString (massZn this) ++ " g ÷ "
             ++ toString (molarMassZn this) ++ " g/mol = "
             ++ toFixed molesZn 6 ++ " mol";
           "n(MnO₂) = " ++ toString (massMnO2 this) ++ " g ÷ "
             ++ toString (molarMassMnO2 this) ++ " g/mol = "
             ++ toFixed molesMnO2 6 ++ " mol" ] |} in
  (* Step 2: limiting reagent *)
  let requiredMnO2ForZn := (molesZn * CHEMISTRY_CONSTANTS.STOICH.MNO2)%float in
  let requiredZnForMnO2 := (molesMnO2 / CHEMISTRY_CONSTANTS.STOICH.MNO2)%float in
  let '(limitingReagent, excessReagent, molesReacting, excessMoles) :=
    if (molesMnO2 <? requiredMnO2ForZn)%float then
      (MnO2, Zn,
       (molesMnO2 / CHEMISTRY_CONSTANTS.STOICH.MNO2)%float,
       (molesZn - requiredZnForMnO2)%float)
    else
      (Zn, MnO2, molesZn, (molesMnO2 - requiredMnO2ForZn)%float) in
  let step2 :=
    {| title := "Identify limiting reagent";
       description :=
         "Compare mole ratio to stoichiometric requirements (1 Zn : 2 MnO₂)";
       calculations :=
         [ "MnO₂ required for all Zn = " ++ toFixed molesZn 6 ++ " × 2 = "
             ++ toFixed requiredMnO2ForZn 6 ++ " mol";
           "MnO₂ available = " ++ toFixed molesMnO2 6 ++ " mol";
           (if (molesMnO2 <? requiredMnO2ForZn)%float
            then "MnO₂ < required" else "MnO₂ ≥ required")
             ++ " → " ++ reagentLabel limitingReagent ++ " is limiting";
           "Excess " ++ reagentLabel excessReagent ++ " = "
             ++ toFixed excessMoles 6 ++ " mol" ] |} in
  (* Step 3: electrons transferred *)
  let totalElectrons := (electronsPerReaction this * molesReacting)%float in
  let step3 :=
    {| title := "Calculate electrons transferred";
       description :=
         "Each reaction unit transfers " ++ toString (electronsPerReaction this)
           ++ " electrons";
       calculations :=
         [ "Moles of reaction = " ++ toFixed molesReacting 6 ++ " mol";
           "Total electron-moles = " ++ toString (electronsPerReaction this)
             ++ " × " ++ toFixed molesReacting 6 ++ " = "
             ++ toFixed totalElectrons 6 ++ " mol e⁻" ] |} in
  (* Step 4: charge *)
  let chargeQ := (totalElectrons * CHEMISTRY_CONSTANTS.FARADAY)%float in
  let step4 :=
    {| title := "Calculate total charge";
       description := "Using Q = n × F where F is Faraday constant (96485 C/mol)";
       calculations :=
         [ "Q = " ++ toFixed totalElectrons 6 ++ " mol × "
             ++ toString CHEMISTRY_CONSTANTS.FARADAY ++ " C/mol";
           "Q = " ++ toFixed chargeQ 2 ++ " C" ] |} in
  (* Step 5: energy *)
  let energyJ := (cellVoltage this * chargeQ)%float in
  let energyWh := (energyJ / 3600)%float in
  let step5 :=
    {| title := "Calculate theoretical energy";
       description :=
         "Using E = V × Q with cell voltage = " ++ toString (cellVoltage this) ++ " V";
       calculations :=
         [ "E = " ++ toString (cellVoltage this) ++ " V × "
             ++ toFixed chargeQ 2 ++ " C";
           "E = " ++ toFixed energyJ 2 ++ " J";
           "E = " ++ toFixed energyJ 2 ++ " ÷ 3600 = "
             ++ toFixed energyWh 4 ++ " Wh" ] |} in
  (* Step 6: optional current and runtime *)
  let '(current, runtimeHours, runtimeMinutes, step6) :=
    match hasLoad (resistance this) with
    | Some r =>
        let current := (cellVoltage this / r)%float in
        let runtimeHours := (energyWh / (cellVoltage this * current))%float in
        let runtimeMinutes := (runtimeHours * 60)%float in
        (Some current, Some runtimeHours, Some runtimeMinutes,
         [ {| title := "Estimate current and runtime (approximation)";
              description := "With load resistance R = " ++ toString r ++ " Ω";
              calculations :=
                [ "I = V/R = " ++ toString (cellVoltage this) ++ " V ÷ "
                    ++ toString r ++ " Ω = " ++ toFixed current 4 ++ " A";
                  "Power = V × I = " ++ toString (cellVoltage this) ++ " × "
                    ++ toFixed current 4 ++ " = "
                    ++ toFixed (cellVoltage this * current)%float 4 ++ " W";
                  "Runtime = E/P = " ++ toFixed energyWh 4 ++ " Wh ÷ "
                    ++ toFixed (cellVoltage this * current)%float 4 ++ " W";
                  "Runtime = " ++ toFixed runtimeHours 4 ++ " hours = "
                    ++ toFixed runtimeMinutes 2 ++ " minutes";
                  "Note: This is a theoretical estimate assuming constant voltage and no internal resistance." ] |} ])
    | None => (None, None, None, [])
    end in
  (* product masses *)
  let massZnO := (molesReacting * CHEMISTRY_CONSTANTS.MOLAR_MASS_ZNO)%float in
  let massMn2O3 := (molesReacting * CHEMISTRY_CONSTANTS.MOLAR_MASS_MN2O3)%float in
  let res :=
    {| inputs :=
         {| Inputs.massZn := massZn this;
            Inputs.massMnO2 := massMnO2 this;
            Inputs.molarMassZn := molarMassZn this;
            Inputs.molarMassMnO2 := molarMassMnO2 this;
            Inputs.electronsPerReaction := electronsPerReaction this;
            Inputs.cellVoltage := cellVoltage this;
            Inputs.resistance := resistance this |};
       molesZn := molesZn;
       molesMnO2 := molesMnO2;
       limitingReagent := limitingReagent;
       excessReagent := excessReagent;
       molesReacting := molesReacting;
       excessMoles := excessMoles;
       massZnO := massZnO;
       massMn2O3 := massMn2O3;
       totalElectrons := totalElectrons;
       chargeQ := chargeQ;
       energyJ := energyJ;
       energyWh := energyWh;
       current := current;
       runtimeHours := runtimeHours;
       runtimeMinutes := runtimeMinutes;
       timestamp := now;
       reaction := "Zn + 2MnO₂ → ZnO + Mn₂O₃" |} in
  ({| molarMassZn := molarMassZn this;
      molarMassMnO2 := molarMassMnO2 this;
      electronsPerReaction := electronsPerReaction this;
      cellVoltage := cellVoltage this;
      massZn := massZn this;
      massMnO2 := massMnO2 this;
      resistance := resistance this;
      results := Some res;
      workSteps := [step1; step2; step3; step4; step5] ++ step6 |},
   res).

(** [getWorkSteps()]. *)
Definition getWorkSteps (this : t) : list WorkStep := workSteps this.

End Calculate.

Section Links.
Context {fmt : NumberFormat} {prs : NumberParse}.
Local Open Scope string_scope.

(** [ChemistryCalculator.fromURLParams(params)]. *)
Definition fromURLParams (params : JSObject.t) : t :=
  constructor
    {| Options.massZn :=
         Some (JS.or_else (Some (parseFloat (JSObject.prop "massZn" params))) 0);
       Options.massMnO2 :=
         Some (JS.or_else (Some (parseFloat (JSObject.prop "massMnO2" params))) 0);
       Options.molarMassZn :=
         Some (JS.or_else (Some (parseFloat (JSObject.prop "molarMassZn" params)))
                          CHEMISTRY_CONSTANTS.MOLAR_MASS_ZN);
       Options.molarMassMnO2 :=
         Some (JS.or_else (Some (parseFloat (JSObject.prop "molarMassMnO2" params)))
                          CHEMISTRY_CONSTANTS.MOLAR_MASS_MNO2);
       Options.cellVoltage :=
         Some (JS.or_else (Some (parseFloat (JSObject.prop "voltage" params)))
                          CHEMISTRY_CONSTANTS.DEFAULT_VOLTAGE);
       Options.electronsPerReaction :=
         Some (JS.or_else (Some (parseInt (JSObject.prop "electrons" params)))
                          CHEMISTRY_CONSTANTS.DEFAULT_ELECTRONS);
       Options.resistance :=
         JS.or_null (Some (parseFloat (JSObject.prop "resistance" params))) |}.

(** [toURLParams()]; [x !== y] on numbers is the negation of [x =? y]. *)
Definition toURLParams (this : t) : URLSearchParams.t :=
  let params : URLSearchParams.t := [] in
  let params := URLSearchParams.set "massZn" (toString (massZn this)) params in
  let params := URLSearchParams.set "massMnO2" (toString (massMnO2 this)) params in
  let params :=
    if negb (molarMassZn this =? CHEMISTRY_CONSTANTS.MOLAR_MASS_ZN)%float
    then URLSearchParams.set "molarMassZn" (toString (molarMassZn this)) params
    else params in
  let params :=
    if negb (molarMassMnO2 this =? CHEMISTRY_CONSTANTS.MOLAR_MASS_MNO2)%float
    then URLSearchParams.set "molarMassMnO2" (toString (molarMassMnO2 this)) params
    else params in
  let params :=
    if negb (cellVoltage this =? CHEMISTRY_CONSTANTS.DEFAULT_VOLTAGE)%float
    then URLSearchParams.set "voltage" (toString (cellVoltage this)) params
    else params in
  let params :=
    if negb (electronsPerReaction this =? CHEMISTRY_CONSTANTS.DEFAULT_ELECTRONS)%float
    then URLSearchParams.set "electrons" (toString (electronsPerReaction this)) params
    else params in
  let params :=
    match resistance this with
    | Some r =>
        if JS.truthy r then URLSearchParams.set "resistance" (toString r) params
        else params
    | None => params
    end in
  params.

End Links.

End ChemistryCalculator.

Module CHEMISTRY_PRESETS.
Record Preset := { name : string; massZn : float; massMnO2 : float }.
Definition A : Preset := {| name := "Preset A"; massZn := 1.0; massMnO2 := 2.0 |}.
Definition B : Preset := {| name := "Preset B"; massZn := 10.0; massMnO2 := 100.0 |}.
Definition C : Preset := {| name := "Preset C"; massZn := 5.0; massMnO2 := 3.0 |}.

(** The options a preset stands for: its two masses, every other field
    left to the constructor's defaults. *)
Definition options (p : Preset) : ChemistryCalculator.Options.t :=
  {| ChemistryCalculator.Options.molarMassZn := None;
     ChemistryCalculator.Options.molarMassMnO2 := None;
     ChemistryCalculator.Options.electronsPerReaction := None;
     ChemistryCalculator.Options.cellVoltage := None;
     ChemistryCalculator.Options.massZn := Some (massZn p);
     ChemistryCalculator.Options.massMnO2 := Some (massMnO2 p);
     ChemistryCalculator.Options.resistance := None |}.
End CHEMISTRY_PRESETS.

(* ================================================================== *)
(** * The physics module *)
(* ================================================================== *)

Module PHYSICS_CONSTANTS.
(** Permeability of free space (H/m): [4 * Math.PI * 1e-7]. *)
Definition MU_0 : float := 4 * JS.PI * 1e-7.

(** The [PERMEABILITY] table: material key, display name, value. *)
Definition PERMEABILITY : list (string * (string * float)) :=
  [ ("air"%string, ("Air"%string, 1));
    ("ferrite"%string, ("Ferrite"%string, 2000));
    ("steel"%string, ("Steel"%string, 4000)) ].

Definition CONDUCTOR_TYPES : list string :=
  [ "straight-wire"%string; "single-loop"%string; "solenoid"%string ].
End PHYSICS_CONSTANTS.

Module MagneticFieldCalculator.

Module Options.
Record t := {
  conductorType : option string;
  current : option float;
  turns : option float;
  radius : option float;
  length : option float;
  distance : option float;
  material : option string
}.
End Options.

(** [results.inputs]. *)
Module Inputs.
Record t := {
  current : float;
  turns : float;
  radius : float;
  length : float;
  distance : float;
  material : string;
  mu_r : float
}.
End Inputs.

(** [results.constants]. *)
Module Constants.
Record t := { mu_0 : float; mu : float }.
End Constants.

(** [results]. *)
Module Result.
Record t := {
  B : float;
  B_mT : float;
  B_uT : float;
  formula : string;
  description : string;
  conductorType : string;
  inputs : Inputs.t;
  constants : Constants.t;
  timestamp : string
}.
End Result.

Definition FieldResult : Type := Result.t.

(** The calculator object ([this]). *)
Record t := {
  conductorType : string;
  current : float;
  turns : float;
  radius : float;
  length : float;
  distance : float;
  material : string;
  results : option FieldResult;
  workSteps : list WorkStep
}.

Definition constructor (options : Options.t) : t :=
  {| conductorType := JS.str_or_else (Options.conductorType options) "solenoid";
     current := JS.or_else (Options.current options) 1;
     turns := JS.or_else (Options.turns options) 100;
     radius := JS.or_else (Options.radius options) 0.01;
     length := JS.or_else (Options.length options) 0.05;
     distance := JS.or_else (Options.distance options) 0.01;
     material := JS.str_or_else (Options.material options) "air";
     results := None;
     workSteps := [] |}.

(** [PHYSICS_CONSTANTS.PERMEABILITY[key]?.value]: the [value] of the entry
    under [key], [None] ([undefined]) when the table has no such entry.
    (A key inherited from [Object.prototype] yields an object without a
    [value] property, hence [undefined] as well.) *)
Fixpoint lookupValue (key : string) (table : list (string * (string * float)))
  : option float :=
  match table with
  | [] => None
  | (k, (_, v)) :: rest => if String.eqb key k then Some v else lookupValue key rest
  end.

(** [getMu_r()]. *)
Definition getMu_r (this : t) : float :=
  JS.or_else (lookupValue (material this) PHYSICS_CONSTANTS.PERMEABILITY) 1.

(** [this.workSteps.push(step)]. *)
Definition push (step : WorkStep) (this : t) : t :=
  {| conductorType := conductorType this;
     current := current this;
     turns := turns this;
     radius := radius this;
     length := length this;
     distance := distance this;
     material := material this;
     results := results this;
     workSteps := workSteps this ++ [step] |}.

Definition setWorkSteps (steps : list WorkStep) (this : t) : t :=
  {| conductorType := conductorType this;
     current := current this;
     turns := turns this;
     radius := radius this;
     length := length this;
     distance := distance this;
     material := material this;
     results := results this;
     workSteps := steps |}.

Definition setResults (r : FieldResult) (this : t) : t :=
  {| conductorType := conductorType this;
     current := current this;
     turns := turns this;
     radius := radius this;
     length := length this;
     distance := distance this;
     material := material this;
     results := Some r;
     workSteps := workSteps this |}.

Section Calculate.
Context {fmt : NumberFormat}.
Local Open Scope string_scope.

(** [calculateStraightWire(mu_0)]: the updated calculator and [B]. *)
Definition calculateStraightWire (mu_0 : float) (this : t) : t * float :=
  let B := ((mu_0 * current this) / (2 * JS.PI * distance this))%float in
  let this1 :=
    push {| title := "Apply Biot-Savart law for straight wire";
            description :=
              "For an infinitely long straight conductor carrying current I";
            calculations :=
              [ "Formula: B = μ₀ × I / (2πr)";
                "μ₀ = " ++ toExponential mu_0 4 ++ " H/m";
                "I = " ++ toString (current this) ++ " A";
                "r = " ++ toString (distance this * 100)%float ++ " cm = "
                  ++ toString (distance this) ++ " m";
                "B = (" ++ toExponential mu_0 4 ++ " × "
                  ++ toString (current this) ++ ") / (2π × "
                  ++ toString (distance this) ++ ")";
                "B = " ++ toExponential B 4 ++ " T = "
                  ++ toFixed (B * 1e6)%float 2 ++ " μT" ] |} this in
  let this2 :=
    push {| title := "Direction (Right-Hand Rule)";
            description := "Point thumb in direction of current flow";
            calculations :=
              [ "Fingers curl in direction of magnetic field lines";
                "Field forms concentric circles around the wire";
                "Field strength decreases with distance (1/r relationship)" ] |}
         this1 in
  (this2, B).

(** [calculateSingleLoop(mu_0, mu_r)]. *)
Definition calculateSingleLoop (mu_0 mu_r : float) (this : t) : t * float :=
  let B := ((mu_0 * mu_r * turns this * current this) / (2 * radius this))%float in
  let this1 :=
    push {| title := "Calculate field at center of circular coil";
            description :=
              "For " ++ toString (turns this) ++ " turns of radius "
                ++ toString (radius this * 100)%float ++ " cm";
            calculations :=
              [ "Formula: B = μ₀ × μᵣ × N × I / (2r)";
                "μ₀ = " ++ toExponential mu_0 4 ++ " H/m";
                "μᵣ = " ++ toString mu_r ++ " (" ++ material this ++ ")";
                "N = " ++ toString (turns this) ++ " turns";
                "I = " ++ toString (current this) ++ " A";
                "r = " ++ toString (radius this * 100)%float ++ " cm = "
                  ++ toString (radius this) ++ " m";
                "B = (" ++ toExponential mu_0 4 ++ " × " ++ toString mu_r
                  ++ " × " ++ toString (turns this) ++ " × "
                  ++ toString (current this) ++ ") / (2 × "
                  ++ toString (radius this) ++ ")";
                "B = " ++ toExponential B 4 ++ " T = "
                  ++ toFixed (B * 1000)%float 4 ++ " mT" ] |} this in
  let this2 :=
    push {| title := "Direction (Right-Hand Rule for Loops)";
            description := "Curl fingers in direction of current around loop";
            calculations :=
              [ "Thumb points in direction of B-field through center";
                "Field is strongest at the center of the loop";
                "This approximation applies at the exact center only" ] |}
         this1 in
  (this2, B).

(** [calculateSolenoid(mu_0, mu_r)]. *)
Definition calculateSolenoid (mu_0 mu_r : float) (this : t) : t * float :=
  let B := ((mu_0 * mu_r * turns this * current this) / length this)%float in
  let this1 :=
    push {| title := "Apply solenoid formula";
            description :=
              "For solenoid with " ++ toString (turns this) ++ " turns over "
                ++ toString (length this * 100)%float ++ " cm length";
            calculations :=
              [ "Formula: B = μ₀ × μᵣ × N × I / L";
                "μ₀ = " ++ toExponential mu_0 4 ++ " H/m";
                "μᵣ = " ++ toString mu_r ++ " (" ++ material this ++ ")";
                "N = " ++ toString (turns this) ++ " turns";
                "I = " ++ toString (current this) ++ " A";
                "L = " ++ toString (length this * 100)%float ++ " cm = "
                  ++ toString (length this) ++ " m";
                "B = (" ++ toExponential mu_0 4 ++ " × " ++ toString mu_r
                  ++ " × " ++ toString (turns this) ++ " × "
                  ++ toString (current this) ++ ") / "
                  ++ toString (length this);
                "B = " ++ toExponential B 4 ++ " T = "
                  ++ toFixed (B * 1000)%float 4 ++ " mT" ] |} this in
  let this2 :=
    push {| title := "Solenoid field properties";
            description := "Understanding the approximation limits";
            calculations :=
              [ "This formula gives the field at the CENTER of a long solenoid";
                "Accuracy improves when length >> radius";
                "Field is approximately uniform inside, near zero outside";
                "At the ends, B ≈ half the center value" ] |} this1 in
  let this3 :=
    push {| title := "Turns density (n)";
            description := "Alternative formulation using turns per unit length";
            calculations :=
              [ "n = N/L = " ++ toString (turns this) ++ "/"
                  ++ toString (length this) ++ " = "
                  ++ toFixed (turns this / length this)%float 1 ++ " turns/m";
                "B = μ₀ × μᵣ × n × I";
                "This shows B is proportional to turns density, not total turns" ] |}
         this2 in
  (this3, B).

(** [calculate()]; [now] is [new Date().toISOString()] at the call. *)
Definition calculate (now : string) (this : t) : t * FieldResult :=
  let this0 := setWorkSteps [] this in
  let mu_r := getMu_r this0 in
  let mu_0 := PHYSICS_CONSTANTS.MU_0 in
  let mu := (mu_0 * mu_r)%float in
  let '(this1, B, formula, description) :=
    if String.eqb (conductorType this0) "straight-wire" then
      let '(th, B) := calculateStraightWire mu_0 this0 in
      (th, B, "B = μ₀ × I / (2πr)",
       "Magnetic field around an infinite straight conductor")
    else if String.eqb (conductorType this0) "single-loop" then
      let '(th, B) := calculateSingleLoop mu_0 mu_r this0 in
      (th, B, "B ≈ μ₀ × μᵣ × N × I / (2r)",
       "Magnetic field at the center of a circular loop (or coil)")
    else
      (* case 'solenoid': default: *)
      let '(th, B) := calculateSolenoid mu_0 mu_r this0 in
      (th, B, "B = μ₀ × μᵣ × N × I / L",
       "Magnetic field inside a solenoid (center approximation)") in
  let res :=
    {| Result.B := B;
       Result.B_mT := (B * 1000)%float;
       Result.B_uT := (B * 1e6)%float;
       Result.formula := formula;
       Result.description := description;
       Result.conductorType := conductorType this1;
       Result.inputs :=
         {| Inputs.current := current this1;
            Inputs.turns := turns this1;
            Inputs.radius := radius this1;
            Inputs.length := length this1;
            Inputs.distance := distance this1;
            Inputs.material := material this1;
            Inputs.mu_r := mu_r |};
       Result.constants :=
         {| Constants.mu_0 := mu_0; Constants.mu := (mu_0 * mu_r)%float |};
       Result.timestamp := now |} in
  (setResults res this1, res).

Definition getWorkSteps (this : t) : list WorkStep := workSteps this.

End Calculate.

(** [this.distance = d]. *)
Definition setDistance (d : float) (this : t) : t :=
  {| conductorType := conductorType this;
     current := current this;
     turns := turns this;
     radius := radius this;
     length := length this;
     distance := d;
     material := material this;
     results := results this;
     workSteps := workSteps this |}.

(** One entry of the array [calculateAtDistances] returns. *)
Module Sample.
Record t := { distance : float; B : float }.
End Sample.

Section Distances.
Context {fmt : NumberFormat}.

(** The callback of [calculateAtDistances] over the distances from index
    [i] on; [clock k] is [new Date().toISOString()] at the call of
    [calculate] for the entry of index [k]. *)
Fixpoint calculateAtDistancesFrom (clock : nat -> string) (i : nat)
         (distances : list float) (this : t) : t * list Sample.t :=
  match distances with
  | [] => (this, [])
  | d :: rest =>
      let this1 := setDistance d this in
      let '(this2, result) := calculate (clock i) this1 in
      let '(this3, samples) := calculateAtDistancesFrom clock (S i) rest this2 in
      (this3, {| Sample.distance := d; Sample.B := Result.B result |} :: samples)
  end.

(** [calculateAtDistances(distances)]: the calculator after the call and
    the returned array. *)
Definition calculateAtDistances (clock : nat -> string) (distances : list float)
           (this : t) : t * list Sample.t :=
  calculateAtDistancesFrom clock 0 distances this.

End Distances.

Section Links.
Context {fmt : NumberFormat} {prs : NumberParse}.
Local Open Scope string_scope.

(** [MagneticFieldCalculator.fromURLParams(params)]. *)
Definition fromURLParams (params : JSObject.t) : t :=
  constructor
    {| Options.conductorType :=
         Some (JS.str_or_else (JSObject.prop "type" params) "solenoid");
       Options.current :=
         Some (JS.or_else (Some (parseFloat (JSObject.prop "current" params))) 1);
       Options.turns :=
         Some (JS.or_else (Some (parseInt (JSObject.prop "turns" params))) 100);
       Options.radius :=
         Some (JS.or_else (Some (parseFloat (JSObject.prop "radius" params))) 0.01);
       Options.length :=
         Some (JS.or_else (Some (parseFloat (JSObject.prop "length" params))) 0.05);
       Options.distance :=
         Some (JS.or_else (Some (parseFloat (JSObject.prop "distance" params))) 0.01);
       Options.material :=
         Some (JS.str_or_else (JSObject.prop "material" params) "air") |}.

(** [toURLParams()]. *)
Definition toURLParams (this : t) : URLSearchParams.t :=
  let params : URLSearchParams.t := [] in
  let params := URLSearchParams.set "type" (conductorType this) params in
  let params := URLSearchParams.set "current" (toString (current this)) params in
  let params := URLSearchParams.set "turns" (toString (turns this)) params in
  let params := URLSearchParams.set "radius" (toString (radius this)) params in
  let params := URLSearchParams.set "length" (toString (length this)) params in
  let params := URLSearchParams.set "distance" (toString (distance this)) params in
  let params := URLSearchParams.set "material" (material this) params in
  params.

End Links.

End MagneticFieldCalculator.

(* ================================================================== *)
(** * main.js *)
(* ================================================================== *)

(** The values [JSON.parse] returns. *)
Module JSON.

#[warnings="-register-all"]
Inductive t :=
| JNull
| JBool (b : bool)
| JNumber (x : float)
| JString (s : string)
| JArray (items : list t)
| JObject (fields : list (string * t)).

(** [JSON.parse(JSON.stringify(v))]: a number that is not finite comes
    back as [null], the negative zero as [0]; everything else as it is. *)
Fixpoint reparse (v : t) : t :=
  match v with
  | JNumber x =>
      if is_finite x then (if is_zero x then JNumber 0 else JNumber x) else JNull
  | JArray items => JArray (map reparse items)
  | JObject fields =>
      JObject (map (fun kv => let '(k, x) := kv in (k, reparse x)) fields)
  | _ => v
  end.

(** [ToBoolean]. *)
Definition truthy (v : t) : bool :=
  match v with
  | JNull => false
  | JBool b => b
  | JNumber x => JS.truthy x
  | JString EmptyString => false
  | JString _ => true
  | JArray _ | JObject _ => true
  end.

(** [v || d]. *)
Definition or_else (v d : t) : t := if truthy v then v else d.

(** The own property [name] of an object, [None] for [undefined]. *)
Fixpoint lookup (name : string) (fields : list (string * t)) : option t :=
  match fields with
  | [] => None
  | (k, x) :: rest => if String.eqb k name then Some x else lookup name rest
  end.

(** [v.name] for a [v] other than [null]: [undefined] unless [v] is an
    object with that property. *)
Definition prop (name : string) (v : t) : option t :=
  match v with
  | JObject fields => lookup name fields
  | _ => None
  end.

(** A number or [null]. *)
Definition ofNumber (x : option float) : t :=
  match x with
  | Some v => JNumber v
  | None => JNull
  end.

(** [CONFIG.THEMES.includes(v)] and the like: [v] is one of the strings. *)
Definition oneOf (v : t) (strings : list string) : bool :=
  match v with
  | JString s => existsb (String.eqb s) strings
  | _ => false
  end.

(** [String(v)], the text a DOM attribute or a query parameter keeps of
    [v]. *)
Fixpoint toText {fmt : NumberFormat} (v : t) : string :=
  match v with
  | JNull => "null"
  | JBool true => "true"
  | JBool false => "false"
  | JNumber x => toString x
  | JString s => s
  | JArray items =>
      String.concat ","
        (map (fun x => match x with JNull => EmptyString | _ => toText x end) items)
  | JObject _ => "[object Object]"
  end.

End JSON.

(** A URL: what precedes the query, the query and the fragment. *)
Module URL.
Record t := {
  path : string;
  searchParams : URLSearchParams.t;
  hash : string
}.
End URL.

(** [localStorage], as [AppState] uses it: under each key the value that
    [JSON.parse] gives for the text [JSON.stringify] stored there.  [None]
    is a host without usable storage, where each access throws. *)
Module LocalStorage.
Definition t : Type := option (list (string * JSON.t)).

Fixpoint getItem (key : string) (items : list (string * JSON.t)) : option JSON.t :=
  match items with
  | [] => None
  | (k, v) :: rest => if String.eqb k key then Some v else getItem key rest
  end.

Fixpoint setItem (key : string) (value : JSON.t) (items : list (string * JSON.t))
  : list (string * JSON.t) :=
  match items with
  | [] => [(key, value)]
  | (k, v) :: rest =>
      if String.eqb k key then (k, value) :: rest
      else (k, v) :: setItem key value rest
  end.
End LocalStorage.

Module CONFIG.
Local Open Scope string_scope.
Definition STORAGE_PREFIX : string := "chargelab_".
Definition THEMES : list string := [ "dark"; "light"; "high-contrast" ].
Definition TEXT_SIZES : list string := [ "normal"; "large" ].
Definition MODES : list string := [ "chemistry"; "physics" ].
Definition DEFAULT_THEME : string := "dark".
Definition DEFAULT_MODE : string := "chemistry".
End CONFIG.

Module AppState.
Local Open Scope string_scope.

(** [save(key, value)]: an exception of the storage is caught and only
    logged. *)
Definition save (key : string) (value : JSON.t) (storage : LocalStorage.t)
  : LocalStorage.t :=
  match storage with
  | Some items =>
      Some (LocalStorage.setItem (CONFIG.STORAGE_PREFIX ++ key)
              (JSON.reparse value) items)
  | None => None
  end.

(** [load(key)]: [null] for a missing key and when the storage throws. *)
Definition load (key : string) (storage : LocalStorage.t) : JSON.t :=
  match storage with
  | Some items =>
      match LocalStorage.getItem (CONFIG.STORAGE_PREFIX ++ key) items with
      | Some value => value
      | None => JSON.JNull
      end
  | None => JSON.JNull
  end.

(** The fields of [AppState]. *)
Record t := {
  theme : JSON.t;
  textSize : JSON.t;
  mode : JSON.t;
  settingsOpen : bool;
  navOpen : bool
}.

(** The object literal: the state before [init]. *)
Definition initial : t :=
  {| theme := JSON.JString CONFIG.DEFAULT_THEME;
     textSize := JSON.JString "normal";
     mode := JSON.JString CONFIG.DEFAULT_MODE;
     settingsOpen := false;
     navOpen := false |}.

(** What the methods read and write outside [AppState]: the storage, the
    address of the page and the three attributes of the document
    element. *)
Record Page := {
  storage : LocalStorage.t;
  location : URL.t;
  dataTheme : option string;
  dataTextSize : option string;
  dataMode : option string
}.

Section Methods.
Context {fmt : NumberFormat}.

(** [applyTheme()]. *)
Definition applyTheme (this : t) (page : Page) : Page :=
  {| storage := save "theme" (theme this) (storage page);
     location := location page;
     dataTheme := Some (JSON.toText (theme this));
     dataTextSize := dataTextSize page;
     dataMode := dataMode page |}.

(** [applyTextSize()]. *)
Definition applyTextSize (this : t) (page : Page) : Page :=
  {| storage := save "text_size" (textSize this) (storage page);
     location := location page;
     dataTheme := dataTheme page;
     dataTextSize := Some (JSON.toText (textSize this));
     dataMode := dataMode page |}.

(** [updateURL()]: the address becomes the path followed by the query
    with [mode] set; [replaceState] is not given the fragment. *)
Definition updateURL (this : t) (page : Page) : Page :=
  {| storage := storage page;
     location :=
       {| URL.path := URL.path (location page);
          URL.searchParams :=
            URLSearchParams.set "mode" (JSON.toText (mode this))
              (URL.searchParams (location page));
          URL.hash := EmptyString |};
     dataTheme := dataTheme page;
     dataTextSize := dataTextSize page;
     dataMode := dataMode page |}.

(** [applyMode()]. *)
Definition applyMode (this : t) (page : Page) : Page :=
  updateURL this
    {| storage := save "mode" (mode this) (storage page);
       location := location page;
       dataTheme := dataTheme page;
       dataTextSize := dataTextSize page;
       dataMode := Some (JSON.toText (mode this)) |}.

(** [init()]. *)
Definition init (this : t) (page : Page) : t * Page :=
  let theme0 :=
    JSON.or_else (load "theme" (storage page)) (JSON.JString CONFIG.DEFAULT_THEME) in
  let textSize0 :=
    JSON.or_else (load "text_size" (storage page)) (JSON.JString "normal") in
  let mode0 :=
    JSON.or_else (load "mode" (storage page)) (JSON.JString CONFIG.DEFAULT_MODE) in
  let params := URL.searchParams (location page) in
  let mode1 :=
    match URLSearchParams.get "mode" params with
    | Some m => if existsb (String.eqb m) CONFIG.MODES then JSON.JString m else mode0
    | None => mode0
    end in
  let theme1 :=
    match URLSearchParams.get "theme" params with
    | Some m => if existsb (String.eqb m) CONFIG.THEMES then JSON.JString m else theme0
    | None => theme0
    end in
  let this' :=
    {| theme := theme1;
       textSize := textSize0;
       mode := mode1;
       settingsOpen := settingsOpen this;
       navOpen := navOpen this |} in
  (this', applyMode this' (applyTextSize this' (applyTheme this' page))).

(** [setTheme(theme)]. *)
Definition setTheme (value : JSON.t) (this : t) (page : Page) : t * Page :=
  if JSON.oneOf value CONFIG.THEMES then
    let this' :=
      {| theme := value;
         textSize := textSize this;
         mode := mode this;
         settingsOpen := settingsOpen this;
         navOpen := navOpen this |} in
    (this', applyTheme this' page)
  else (this, page).

(** [setTextSize(size)]. *)
Definition setTextSize (value : JSON.t) (this : t) (page : Page) : t * Page :=
  if JSON.oneOf value CONFIG.TEXT_SIZES then
    let this' :=
      {| theme := theme this;
         textSize := value;
         mode := mode this;
         settingsOpen := settingsOpen this;
         navOpen := navOpen this |} in
    (this', applyTextSize this' page)
  else (this, page).

(** [toggleTextSize()]; [this.textSize === 'normal'] holds for that string
    only. *)
Definition toggleTextSize (this : t) (page : Page) : t * Page :=
  setTextSize
    (match textSize this with
     | JSON.JString size =>
         if String.eqb size "normal" then JSON.JString "large"
         else JSON.JString "normal"
     | _ => JSON.JString "normal"
     end) this page.

(** [setMode(mode)]. *)
Definition setMode (value : JSON.t) (this : t) (page : Page) : t * Page :=
  if JSON.oneOf value CONFIG.MODES then
    let this' :=
      {| theme := theme this;
         textSize := textSize this;
         mode := value;
         settingsOpen := settingsOpen this;
         navOpen := navOpen this |} in
    (this', applyMode this' page)
  else (this, page).

End Methods.

End AppState.

Module DeepLinking.
Section Links.
Context {fmt : NumberFormat}.

(** [generateURL(params)] at the address [href]: a parameter that is
    [null] or the empty string is passed over, any other is set on the
    query of the address. *)
Definition generateURL (href : URL.t) (params : list (string * JSON.t)) : URL.t :=
  fold_left
    (fun url kv =>
       let '(key, value) := kv in
       match value with
       | JSON.JNull | JSON.JString EmptyString => url
       | _ =>
           {| URL.path := URL.path url;
              URL.searchParams :=
                URLSearchParams.set key (JSON.toText value) (URL.searchParams url);
              URL.hash := URL.hash url |}
       end)
    params href.

End Links.
End DeepLinking.

Module Utils.
Section Format.
Context {fmt : NumberFormat}.
Local Open Scope string_scope.

(** [formatNumber(value, decimals, unit)] on a number; [Math.abs(value) <
    0.0001 || Math.abs(value) >= 1e6] selects the scientific notation. *)
Definition formatNumber (value : float) (decimals : nat) (unit : string) : string :=
  if is_nan value then "—"
  else if (abs value <? 0.0001)%float || (1e6 <=? abs value)%float then
    toExponential value decimals
      ++ (match unit with EmptyString => "" | _ => " " ++ unit end)
  else
    toFixed value decimals
      ++ (match unit with EmptyString => "" | _ => " " ++ unit end).

End Format.
End Utils.

(* ================================================================== *)
(** * The calculator pages *)
(* ================================================================== *)

Module ChemistryCalculatorUI.
Import ChemistryCalculator.

(** The [value] of each input element of the page; [None] where the page
    has no such element ([this.inputs.massZn?.value] is [undefined]). *)
Module InputValues.
Record t := {
  massZn : option string;
  massMnO2 : option string;
  molarMassZn : option string;
  molarMassMnO2 : option string;
  voltage : option string;
  electrons : option string;
  resistance : option string
}.
End InputValues.

Section Page.
Context {fmt : NumberFormat} {prs : NumberParse}.
Local Open Scope string_scope.

(** The assignments at the head of [calculate()]: the parameters of the
    calculator are read from the input elements. *)
Definition readInputs (inputs : InputValues.t) (calculator : t) : t :=
  {| massZn := JS.or_else (Some (parseFloat (InputValues.massZn inputs))) 0;
     massMnO2 := JS.or_else (Some (parseFloat (InputValues.massMnO2 inputs))) 0;
     molarMassZn :=
       JS.or_else (Some (parseFloat (InputValues.molarMassZn inputs)))
                  CHEMISTRY_CONSTANTS.MOLAR_MASS_ZN;
     molarMassMnO2 :=
       JS.or_else (Some (parseFloat (InputValues.molarMassMnO2 inputs)))
                  CHEMISTRY_CONSTANTS.MOLAR_MASS_MNO2;
     cellVoltage :=
       JS.or_else (Some (parseFloat (InputValues.voltage inputs)))
                  CHEMISTRY_CONSTANTS.DEFAULT_VOLTAGE;
     electronsPerReaction :=
       JS.or_else (Some (parseInt (InputValues.electrons inputs)))
                  CHEMISTRY_CONSTANTS.DEFAULT_ELECTRONS;
     resistance := JS.or_null (Some (parseFloat (InputValues.resistance inputs)));
     results := results calculator;
     workSteps := workSteps calculator |}.

(** The record [storeForPhysics] saves. *)
Definition physicsRecord (results : ReactionResult) : JSON.t :=
  JSON.JObject
    [ ("chargeQ", JSON.JNumber (chargeQ results));
      ("energyWh", JSON.JNumber (energyWh results));
      ("current", JSON.ofNumber (current results));
      ("timestamp", JSON.JString (timestamp results)) ].

(** [storeForPhysics(results)]. *)
Definition storeForPhysics (results : option ReactionResult)
           (storage : LocalStorage.t) : LocalStorage.t :=
  match results with
  | Some r =>
      if JS.truthy (chargeQ r)
      then AppState.save "chemistry_results" (physicsRecord r) storage
      else storage
  | None => storage
  end.

(** [calculate()] on the calculator and the storage: the inputs are read,
    the calculator runs and the result is stored for the physics page.
    ([updateUI], between the two, only writes text to the page.) *)
Definition calculate (now : string) (inputs : InputValues.t) (calculator : t)
           (storage : LocalStorage.t) : t * LocalStorage.t * ReactionResult :=
  let '(calculator', results) :=
    ChemistryCalculator.calculate now (readInputs inputs calculator) in
  (calculator', storeForPhysics (Some results) storage, results).

(** [shareLink()]: the URL handed to the clipboard.  The spread of
    [Object.fromEntries(new URLSearchParams(params))] has the pairs of
    [toURLParams()] with string values. *)
Definition shareLink (href : URL.t) (calculator : t) : URL.t :=
  DeepLinking.generateURL href
    (map (fun kv => (fst kv, JSON.JString (snd kv)))
         (JSObject.fromEntries (toURLParams calculator))).

End Page.
End ChemistryCalculatorUI.

Module PhysicsCalculatorUI.
Import MagneticFieldCalculator.

(** The [value] of each input element; [None] where the page has no such
    element. *)
Module InputValues.
Record t := {
  conductorType : option string;
  current : option string;
  turns : option string;
  radius : option string;
  length : option string;
  distance : option string;
  material : option string
}.
End InputValues.

Section Page.
Context {prs : NumberParse}.
Local Open Scope string_scope.

(** The assignments at the head of [calculate()]: lengths are entered in
    centimetres and kept in metres. *)
Definition readInputs (inputs : InputValues.t) (calculator : t) : t :=
  {| conductorType := JS.str_or_else (InputValues.conductorType inputs) "solenoid";
     current := JS.or_else (Some (parseFloat (InputValues.current inputs))) 1;
     turns := JS.or_else (Some (parseInt (InputValues.turns inputs))) 100;
     radius := (JS.or_else (Some (parseFloat (InputValues.radius inputs))) 1 / 100)%float;
     length := (JS.or_else (Some (parseFloat (InputValues.length inputs))) 5 / 100)%float;
     distance :=
       (JS.or_else (Some (parseFloat (InputValues.distance inputs))) 1 / 100)%float;
     material := JS.str_or_else (InputValues.material inputs) "air";
     results := results calculator;
     workSteps := workSteps calculator |}.

End Page.

Section Share.
Context {fmt : NumberFormat}.

(** [shareLink()]: the URL handed to the clipboard. *)
Definition shareLink (href : URL.t) (calculator : t) : URL.t :=
  DeepLinking.generateURL href
    (map (fun kv => (fst kv, JSON.JString (snd kv)))
         (JSObject.fromEntries (toURLParams calculator))).

End Share.
End PhysicsCalculatorUI.

(* ================================================================== *)
(** * simulations.js *)
(* ================================================================== *)

Module LimitingReagentLab.

(** The numeric fields of the lab. *)
Record t := {
  massZn : float;
  massMnO2 : float;
  molarMassZn : float;
  molarMassMnO2 : float
}.

(** The fields the constructor sets. *)
Definition constructor : t :=
  {| massZn := 5; massMnO2 := 10; molarMassZn := 65.38; molarMassMnO2 := 86.936 |}.

(** What [update()] hands to [renderVisualization] and [renderResults]. *)
Record Rendered := {
  molesZn : float;
  molesMnO2 : float;
  limitingReagent : Reagent;
  znUsed : float;
  mno2Used : float;
  znLeftover : float;
  mno2Leftover : float
}.

(** [update()]; [requiredMnO2 > molesMnO2] is [molesMnO2 < requiredMnO2]. *)
Definition update (this : t) : Rendered :=
  let molesZn := (massZn this / molarMassZn this)%float in
  let molesMnO2 := (massMnO2 this / molarMassMnO2 this)%float in
  let requiredMnO2 := (molesZn * 2)%float in
  let isZnLimiting := (molesMnO2 <? requiredMnO2)%float in
  let limitingReagent := if isZnLimiting then Zn else MnO2 in
  let '(znUsed, mno2Used, znLeftover, mno2Leftover) :=
    if isZnLimiting then
      let mno2Used := molesMnO2 in
      let znUsed := (molesMnO2 / 2)%float in
      (znUsed, mno2Used, (molesZn - znUsed)%float, 0%float)
    else
      let znUsed := molesZn in
      let mno2Used := (molesZn * 2)%float in
      (znUsed, mno2Used, 0%float, (molesMnO2 - mno2Used)%float) in
  {| molesZn := molesZn;
     molesMnO2 := molesMnO2;
     limitingReagent := limitingReagent;
     znUsed := znUsed;
     mno2Used := mno2Used;
     znLeftover := znLeftover;
     mno2Leftover := mno2Leftover |}.

(** The object [saveScenario] makes; [timestamp] is
    [new Date().toISOString()] at the call. *)
Definition scenario (timestamp : string) (this : t) : JSON.t :=
  JSON.JObject
    [ ("massZn"%string, JSON.JNumber (massZn this));
      ("massMnO2"%string, JSON.JNumber (massMnO2 this));
      ("timestamp"%string, JSON.JString timestamp) ].

(** [saveScenario()]: the storage and the returned scenario; the last ten
    scenarios are kept.  [None] when the stored value is not an array and
    [push] throws. *)
Definition saveScenario (timestamp : string) (this : t) (storage : LocalStorage.t)
  : option (LocalStorage.t * JSON.t) :=
  match JSON.or_else (AppState.load "saved_scenarios" storage) (JSON.JArray []) with
  | JSON.JArray saved =>
      let saved' := saved ++ [scenario timestamp this] in
      Some (AppState.save "saved_scenarios"
              (JSON.JArray (skipn (List.length saved' - 10) saved')) storage,
            scenario timestamp this)
  | _ => None
  end.

End LimitingReagentLab.

Module FieldMappingLab.

(** The numeric fields of the lab; [bCenter] is [undefined] ([None]) until
    [calculateFieldMap] has run. *)
Record t := {
  current : float;
  turns : float;
  length : float;
  bCenter : option float
}.

(** The fields the constructor sets. *)
Definition constructor : t :=
  {| current := 2; turns := 100; length := 0.05; bCenter := None |}.

(** [calculateFieldMap()]. *)
Definition calculateFieldMap (this : t) : t :=
  let mu0 := (4 * JS.PI * 1e-7)%float in
  {| current := current this;
     turns := turns this;
     length := length this;
     bCenter := Some ((mu0 * turns this * current this) / length this)%float |}.

End FieldMappingLab.

Module ScenarioManager.
Local Open Scope string_scope.

(** The manager: [this.scenarios], the value [loadScenarios] returned or
    the array the methods have made of it. *)
Record t := { scenarios : JSON.t }.

(** [loadScenarios()]. *)
Definition loadScenarios (storage : LocalStorage.t) : JSON.t :=
  JSON.or_else (AppState.load "saved_scenarios" storage) (JSON.JArray []).

Definition constructor (storage : LocalStorage.t) : t :=
  {| scenarios := loadScenarios storage |}.

(** The object [saveScenario] makes; [id] is [Date.now().toString(36)] and
    [timestamp] is [new Date().toISOString()] at the call. *)
Definition scenario (name data : JSON.t) (id timestamp : string) : JSON.t :=
  JSON.JObject
    [ ("name", name); ("data", data); ("id", JSON.JString id);
      ("timestamp", JSON.JString timestamp) ].

(** [saveScenario(name, data)]: the manager, the storage and the returned
    scenario; [None] when [this.scenarios] is not an array and [push]
    throws. *)
Definition saveScenario (name data : JSON.t) (id timestamp : string) (this : t)
           (storage : LocalStorage.t) : option (t * LocalStorage.t * JSON.t) :=
  match scenarios this with
  | JSON.JArray items =>
      let created := scenario name data id timestamp in
      let this' := {| scenarios := JSON.JArray (items ++ [created]) |} in
      Some (this', AppState.save "saved_scenarios" (scenarios this') storage, created)
  | _ => None
  end.






End ScenarioManager.

(* ================================================================== *)
(** * Vocabulary of the properties *)
(* ================================================================== *)

(** A host whose conversions print nothing: enough to evaluate the numeric
    fields of a result, which never depend on the conversions. *)
Definition blankFormat : NumberFormat :=
  {| toFixed := fun _ _ => EmptyString;
     toExponential := fun _ _ => EmptyString;
     toString := fun _ => EmptyString |}.

Module ChemistrySpec.
Import ChemistryCalculator.

(** A result with its wall-clock [timestamp] replaced. *)
Definition withTimestamp (ts : string) (r : ReactionResult) : ReactionResult :=
  {| inputs := inputs r;
     molesZn := molesZn r;
     molesMnO2 := molesMnO2 r;
     limitingReagent := limitingReagent r;
     excessReagent := excessReagent r;
     molesReacting := molesReacting r;
     excessMoles := excessMoles r;
     massZnO := massZnO r;
     massMn2O3 := massMn2O3 r;
     totalElectrons := totalElectrons r;
     chargeQ := chargeQ r;
     energyJ := energyJ r;
     energyWh := energyWh r;
     current := current r;
     runtimeHours := runtimeHours r;
     runtimeMinutes := runtimeMinutes r;
     timestamp := ts;
     reaction := reaction r |}.

(** A calculator whose [resistance] field has been assigned. *)
Definition setResistance (R : option float) (this : t) : t :=
  {| molarMassZn := molarMassZn this;
     molarMassMnO2 := molarMassMnO2 this;
     electronsPerReaction := electronsPerReaction this;
     cellVoltage := cellVoltage this;
     massZn := massZn this;
     massMnO2 := massMnO2 this;
     resistance := R;
     results := results this;
     workSteps := workSteps this |}.

(** A result whose echo of the [resistance] input has been replaced. *)
Definition withResistanceEcho (R : option float) (r : ReactionResult)
  : ReactionResult :=
  {| inputs :=
       {| Inputs.massZn := Inputs.massZn (inputs r);
          Inputs.massMnO2 := Inputs.massMnO2 (inputs r);
          Inputs.molarMassZn := Inputs.molarMassZn (inputs r);
          Inputs.molarMassMnO2 := Inputs.molarMassMnO2 (inputs r);
          Inputs.electronsPerReaction := Inputs.electronsPerReaction (inputs r);
          Inputs.cellVoltage := Inputs.cellVoltage (inputs r);
          Inputs.resistance := R |};
     molesZn := molesZn r;
     molesMnO2 := molesMnO2 r;
     limitingReagent := limitingReagent r;
     excessReagent := excessReagent r;
     molesReacting := molesReacting r;
     excessMoles := excessMoles r;
     massZnO := massZnO r;
     massMn2O3 := massMn2O3 r;
     totalElectrons := totalElectrons r;
     chargeQ := chargeQ r;
     energyJ := energyJ r;
     energyWh := energyWh r;
     current := current r;
     runtimeHours := runtimeHours r;
     runtimeMinutes := runtimeMinutes r;
     timestamp := timestamp r;
     reaction := reaction r |}.

(** A calculator with the given fields and no result yet. *)
Definition make (mZn mMnO2 MZn MMnO2 n V : float) (R : option float) : t :=
  {| molarMassZn := MZn;
     molarMassMnO2 := MMnO2;
     electronsPerReaction := n;
     cellVoltage := V;
     massZn := mZn;
     massMnO2 := mMnO2;
     resistance := R;
     results := None;
     workSteps := [] |}.
End ChemistrySpec.

Module FieldSpec.
Import MagneticFieldCalculator.

Definition withTimestamp (ts : string) (r : FieldResult) : FieldResult :=
  {| Result.B := Result.B r;
     Result.B_mT := Result.B_mT r;
     Result.B_uT := Result.B_uT r;
     Result.formula := Result.formula r;
     Result.description := Result.description r;
     Result.conductorType := Result.conductorType r;
     Result.inputs := Result.inputs r;
     Result.constants := Result.constants r;
     Result.timestamp := ts |}.

(** A calculator whose [material] field has been assigned. *)
Definition setMaterial (m : string) (this : t) : t :=
  {| conductorType := conductorType this;
     current := current this;
     turns := turns this;
     radius := radius this;
     length := length this;
     distance := distance this;
     material := m;
     results := results this;
     workSteps := workSteps this |}.

(** A calculator with the given fields and no result yet. *)
Definition make (ty : string) (I N r L d : float) (m : string) : t :=
  {| conductorType := ty;
     current := I;
     turns := N;
     radius := r;
     length := L;
     distance := d;
     material := m;
     results := None;
     workSteps := [] |}.

(** The work step titled [ttl], when the list has one. *)
Definition stepTitled (ttl : string) (steps : list WorkStep) : option WorkStep :=
  find (fun s => String.eqb (title s) ttl) steps.

(** The turns-density line of the solenoid trace. *)
Definition turnsDensityLine {fmt : NumberFormat} (this : t) : string :=
  ("n = N/L = " ++ toString (turns this) ++ "/" ++ toString (length this)
     ++ " = " ++ toFixed (turns this / length this)%float 1 ++ " turns/m")%string.
End FieldSpec.

(* ================================================================== *)
(** * Binary64 numbers as integers *)
(* ================================================================== *)

Module Binary64.
Local Open Scope Z_scope.

(** The value of a finite binary64 number in units of [2^-1074] (the
    least positive number): an integer for every valid number; [0] for
    the zeros and, by convention, for infinities and NaN. *)
Definition SF2Z (x : spec_float) : Z :=
  match x with
  | S754_finite s m e => cond_Zopp s (Zpos m * 2 ^ (e + 1074))
  | _ => 0
  end.

(** Zero or finite: neither an infinity nor NaN. *)
Definition SFfinite (x : spec_float) : bool :=
  match x with
  | S754_finite _ _ _ | S754_zero _ => true
  | _ => false
  end.

(** The number of bits [shr] drops when asked to shift by [n]. *)
Definition shift_count (n : Z) : Z := Z.max 0 n.

(** The number of bits the first shift of [binary_round_aux] drops from
    the mantissa [mx] at exponent [ex]. *)
Definition round_shift (mx ex : Z) : Z :=
  shift_count (fexp prec emax (Zdigits2 mx + ex) - ex).

(** Not NaN, and with sign bit [s]. *)
Definition has_sign (s : bool) (x : spec_float) : Prop :=
  match x with
  | S754_nan => False
  | S754_zero s' | S754_infinity s' | S754_finite s' _ _ => s' = s
  end.

(** The number 2. *)
Definition SFtwo : spec_float := S754_finite false 4503599627370496 (-51).

(** The exponent [SFdiv] starts from. *)
Definition div_exponent (m1 e1 m2 e2 : Z) : Z :=
  Z.min (fexp prec emax (Zdigits2 m1 + e1 - (Zdigits2 m2 + e2))) (e1 - e2).
End Binary64.

Module Float64.
Import Binary64.

Definition F2Z (x : float) : Z := SF2Z (Prim2SF x).

(** The exact value of a finite number, as a rational. *)
Definition F2Q (x : float) : Q := Qmake (F2Z x) (2 ^ 1074).

(** A normal number: finite, not zero and not subnormal. *)
Definition is_normal (x : float) : bool :=
  match classify x with
  | PNormal | NNormal => true
  | _ => false
  end.

(** Negative, or the negative zero. *)
Definition negative (x : float) : Prop := (x <? 0) = true \/ x = neg_zero.

(** [x] is [v] up to [tol]: for a figure quoted with [d] decimals, [tol]
    is half a unit of the last decimal. *)
Definition approx (x : float) (v tol : Q) : Prop :=
  (Qabs (F2Q x - v) <= tol)%Q.
End Float64.

(* ================================================================== *)
(** * Inputs used as examples *)
(* ================================================================== *)

Module ChemistryExamples.
Import ChemistryCalculator ChemistrySpec.

(** Both mole counts overflow: [1e308 / 0.5] is [Infinity]. *)
Definition overflowing : t := make 1e308 1e308 0.5 0.5 2 1.5 None.

(** One gram of zinc beside a count of MnO₂ that overflows. *)
Definition abundantMnO2 : t := make 1 1e308 65.38 0.5 2 1.5 None.

(** One mole of zinc and exactly two moles of manganese dioxide. *)
Definition tie : t := make 65.38 173.872 65.38 86.936 2 1.5 None.

(** Preset A with a cell voltage of [5e-324], the least positive number. *)
Definition faintCell : Options.t :=
  {| Options.molarMassZn := None;
     Options.molarMassMnO2 := None;
     Options.electronsPerReaction := None;
     Options.cellVoltage := Some 5e-324;
     Options.massZn := Some 1;
     Options.massMnO2 := Some 2;
     Options.resistance := None |}.

(** Preset A with a load of 10 ohms, and with a resistance of -5. *)
Definition loaded : t := make 1 2 65.38 86.936 2 1.5 (Some 10).
Definition shorted : t := make 1 2 65.38 86.936 2 1.5 (Some (-5)).

(** Preset A with both molar masses given as zero. *)
Definition zeroMolarMass : Options.t :=
  {| Options.molarMassZn := Some 0;
     Options.molarMassMnO2 := Some 0;
     Options.electronsPerReaction := None;
     Options.cellVoltage := None;
     Options.massZn := Some 1;
     Options.massMnO2 := Some 2;
     Options.resistance := None |}.

(** Preset A with a negative molar mass of zinc. *)
Definition negativeMolarMass : Options.t :=
  {| Options.molarMassZn := Some (-65.38);
     Options.molarMassMnO2 := None;
     Options.electronsPerReaction := None;
     Options.cellVoltage := None;
     Options.massZn := Some 1;
     Options.massMnO2 := Some 2;
     Options.resistance := None |}.
End ChemistryExamples.

Module FieldExamples.
Import MagneticFieldCalculator FieldSpec.

Definition solenoidDemo : t := make "solenoid" 2 200 0.01 0.05 0.01 "air".
Definition wireDemo : t := make "straight-wire" 2 100 0.01 0.05 0.01 "steel".
Definition coilDemo : t := make "single-loop" 1 30 0.012 0.05 0.01 "ferrite".
Definition toroidDemo : t := make "toroid" 2 200 0.01 0.05 0.01 "air".
Definition copperDemo : t := make "solenoid" 2 200 0.01 0.05 0.01 "copper".
End FieldExamples.

(* ================================================================== *)
(** * Vocabulary of the properties of the links *)
(* ================================================================== *)

Module ChemistryLinks.
Import ChemistryCalculator.

(** The parameters of a calculator as the [||] guards of the constructor
    leave them: molar masses, electrons and voltage are neither zero nor
    [NaN], a mass is [0] or neither zero nor [NaN], and a resistance is
    [null] or neither zero nor [NaN]. *)
Definition guarded (this : t) : Prop :=
  JS.truthy (molarMassZn this) = true
  /\ JS.truthy (molarMassMnO2 this) = true
  /\ JS.truthy (electronsPerReaction this) = true
  /\ JS.truthy (cellVoltage this) = true
  /\ (massZn this = 0 \/ JS.truthy (massZn this) = true)
  /\ (massMnO2 this = 0 \/ JS.truthy (massMnO2 this) = true)
  /\ match resistance this with
     | Some r => JS.truthy r = true
     | None => True
     end.

(** The calculator with the parameters of [this] and no result yet. *)
Definition fresh (this : t) : t :=
  ChemistrySpec.make (massZn this) (massMnO2 this) (molarMassZn this)
    (molarMassMnO2 this) (electronsPerReaction this) (cellVoltage this)
    (resistance this).

(** The host reads back the numbers it printed for the parameters of
    [this]: [parseFloat(String(x))] is [x], and [parseInt(String(n))] is
    [n] for the number of electrons. *)
Definition readsBack {fmt : NumberFormat} {prs : NumberParse} (this : t) : Prop :=
  parseFloatText (toString (massZn this)) = massZn this
  /\ parseFloatText (toString (massMnO2 this)) = massMnO2 this
  /\ parseFloatText (toString (molarMassZn this)) = molarMassZn this
  /\ parseFloatText (toString (molarMassMnO2 this)) = molarMassMnO2 this
  /\ parseFloatText (toString (cellVoltage this)) = cellVoltage this
  /\ parseIntText (toString (electronsPerReaction this)) = electronsPerReaction this
  /\ match resistance this with
     | Some r => parseFloatText (toString r) = r
     | None => True
     end.

(** The names of the parameters of a link. *)
Definition names : list string :=
  [ "massZn"; "massMnO2"; "molarMassZn"; "molarMassMnO2"; "voltage"; "electrons";
    "resistance" ]%string.

(** The names [toURLParams] leaves out when the calculator has the default
    value (or, for the resistance, none). *)
Definition optionalNames : list string :=
  [ "molarMassZn"; "molarMassMnO2"; "voltage"; "electrons"; "resistance" ]%string.

(** The four settings a link carries only when they differ from the
    default. *)
Inductive Setting := MolarMassZn | MolarMassMnO2 | Voltage | Electrons.

Definition settingName (setting : Setting) : string :=
  match setting with
  | MolarMassZn => "molarMassZn"
  | MolarMassMnO2 => "molarMassMnO2"
  | Voltage => "voltage"
  | Electrons => "electrons"
  end.

Definition settingDefault (setting : Setting) : float :=
  match setting with
  | MolarMassZn => CHEMISTRY_CONSTANTS.MOLAR_MASS_ZN
  | MolarMassMnO2 => CHEMISTRY_CONSTANTS.MOLAR_MASS_MNO2
  | Voltage => CHEMISTRY_CONSTANTS.DEFAULT_VOLTAGE
  | Electrons => CHEMISTRY_CONSTANTS.DEFAULT_ELECTRONS
  end.

Definition settingOf (setting : Setting) (this : t) : float :=
  match setting with
  | MolarMassZn => molarMassZn this
  | MolarMassMnO2 => molarMassMnO2 this
  | Voltage => cellVoltage this
  | Electrons => electronsPerReaction this
  end.

(** The number [fromURLParams] reads from the text of a setting. *)
Definition settingRead {prs : NumberParse} (setting : Setting) (text : string)
  : float :=
  match setting with
  | Electrons => parseIntText text
  | _ => parseFloatText text
  end.

End ChemistryLinks.

Module FieldLinks.
Import MagneticFieldCalculator.

(** The parameters of a calculator as the [||] guards of the constructor
    leave them: no empty text, no number that is zero or [NaN]. *)
Definition guarded (this : t) : Prop :=
  conductorType this <> EmptyString
  /\ material this <> EmptyString
  /\ JS.truthy (current this) = true
  /\ JS.truthy (turns this) = true
  /\ JS.truthy (radius this) = true
  /\ JS.truthy (length this) = true
  /\ JS.truthy (distance this) = true.

(** The calculator with the parameters of [this] and no result yet. *)
Definition fresh (this : t) : t :=
  FieldSpec.make (conductorType this) (current this) (turns this) (radius this)
    (length this) (distance this) (material this).

(** The host reads back the numbers it printed for the parameters of
    [this]; the number of turns goes through [parseInt]. *)
Definition readsBack {fmt : NumberFormat} {prs : NumberParse} (this : t) : Prop :=
  parseFloatText (toString (current this)) = current this
  /\ parseIntText (toString (turns this)) = turns this
  /\ parseFloatText (toString (radius this)) = radius this
  /\ parseFloatText (toString (length this)) = length this
  /\ parseFloatText (toString (distance this)) = distance this.

(** The names of the parameters of a link. *)
Definition names : list string :=
  [ "type"; "current"; "turns"; "radius"; "length"; "distance"; "material" ]%string.

End FieldLinks.

(** A host that prints and reads the numerals of a table, and [NaN]
    for anything else: enough to follow a link through both directions on
    the numbers of the table. *)
Module Numerals.
Local Open Scope string_scope.

Definition table : list (float * string) :=
  [ (0, "0"); (1, "1"); (2, "2"); (1.5, "1.5"); (3, "3"); (5, "5"); (10, "10");
    (30, "30"); (100, "100"); (200, "200"); (0.01, "0.01"); (0.012, "0.012");
    (0.05, "0.05"); (65.38, "65.38"); (86.936, "86.936"); (70, "70") ]%float.

Fixpoint print (x : float) (numerals : list (float * string)) : string :=
  match numerals with
  | [] => "NaN"
  | (y, s) :: rest => if (x =? y)%float then s else print x rest
  end.

Fixpoint read (s : string) (numerals : list (float * string)) : float :=
  match numerals with
  | [] => nan
  | (y, t) :: rest => if String.eqb s t then y else read s rest
  end.

Definition format : NumberFormat :=
  {| toFixed := fun x _ => print x table;
     toExponential := fun x _ => print x table;
     toString := fun x => print x table |}.

Definition parse : NumberParse :=
  {| parseFloatText := fun s => read s table;
     parseIntText := fun s => read s table |}.

End Numerals.

Module LinkSpec.

(** The values a query string gives for [name], in order. *)
Definition values (name : string) (params : URLSearchParams.t) : list string :=
  map snd (filter (fun kv => String.eqb (fst kv) name) params).

(** The parameters [shareLink] hands to [generateURL]. *)
Definition shared (params : URLSearchParams.t) : list (string * JSON.t) :=
  map (fun kv => (fst kv, JSON.JString (snd kv))) (JSObject.fromEntries params).

(** The host prints no number as the empty text. *)
Definition printsText {fmt : NumberFormat} : Prop :=
  forall x : float, toString x <> EmptyString.

End LinkSpec.

Module AppStateSpec.
Import AppState.

(** The three choices are among the values [CONFIG] lists. *)
Definition valid (this : t) : Prop :=
  JSON.oneOf (theme this) CONFIG.THEMES = true
  /\ JSON.oneOf (textSize this) CONFIG.TEXT_SIZES = true
  /\ JSON.oneOf (mode this) CONFIG.MODES = true.

(** A stored choice is missing or among the values [choices]. *)
Definition storedChoice (key : string) (choices : list string)
           (storage : LocalStorage.t) : Prop :=
  load key storage = JSON.JNull \/ JSON.oneOf (load key storage) choices = true.

(** The storage holds no choice that [CONFIG] does not list. *)
Definition storedValid (storage : LocalStorage.t) : Prop :=
  storedChoice "theme" CONFIG.THEMES storage
  /\ storedChoice "text_size" CONFIG.TEXT_SIZES storage
  /\ storedChoice "mode" CONFIG.MODES storage.

(** The document shows the choices of the state. *)
Definition shown {fmt : NumberFormat} (this : t) (page : Page) : Prop :=
  dataTheme page = Some (JSON.toText (theme this))
  /\ dataTextSize page = Some (JSON.toText (textSize this))
  /\ dataMode page = Some (JSON.toText (mode this)).

(** What the user can do after the page has loaded. *)
Inductive Action :=
| SetTheme (value : JSON.t)
| SetTextSize (value : JSON.t)
| ToggleTextSize
| SetMode (value : JSON.t).

Definition run {fmt : NumberFormat} (action : Action) (state : t * Page) : t * Page :=
  match action with
  | SetTheme value => setTheme value (fst state) (snd state)
  | SetTextSize value => setTextSize value (fst state) (snd state)
  | ToggleTextSize => toggleTextSize (fst state) (snd state)
  | SetMode value => setMode value (fst state) (snd state)
  end.

(** The page loads ([init] on the state of the object literal) and the
    actions follow. *)
Definition session {fmt : NumberFormat} (actions : list Action) (page : Page)
  : t * Page :=
  fold_left (fun state action => run action state) actions (init initial page).


(** The choices of the state are those in the storage, when there is
    one. *)
Definition kept (this : t) (page : Page) : Prop :=
  (exists items, storage page = Some items) ->
  load "theme" (storage page) = theme this
  /\ load "text_size" (storage page) = textSize this
  /\ load "mode" (storage page) = mode this.

(** What holds of the state and the page between two actions. *)
Definition settled {fmt : NumberFormat} (state : t * Page) : Prop :=
  valid (fst state) /\ storedValid (storage (snd state))
  /\ shown (fst state) (snd state) /\ kept (fst state) (snd state).





(** The storage, when there is one, holds what [save] has made of the
    choices of the state. *)
Definition saved (this : t) (page : Page) : Prop :=
  (exists items, storage page = Some items) ->
  load "theme" (storage page) = JSON.reparse (theme this)
  /\ load "text_size" (storage page) = JSON.reparse (textSize this)
  /\ load "mode" (storage page) = JSON.reparse (mode this).

End AppStateSpec.

Module PageExamples.
Local Open Scope string_scope.

(** The chemistry form with nothing typed in, and with Preset A, the
    default settings and a load of ten ohms typed in. *)
Definition blankForm : ChemistryCalculatorUI.InputValues.t :=
  {| ChemistryCalculatorUI.InputValues.massZn := None;
     ChemistryCalculatorUI.InputValues.massMnO2 := None;
     ChemistryCalculatorUI.InputValues.molarMassZn := None;
     ChemistryCalculatorUI.InputValues.molarMassMnO2 := None;
     ChemistryCalculatorUI.InputValues.voltage := None;
     ChemistryCalculatorUI.InputValues.electrons := None;
     ChemistryCalculatorUI.InputValues.resistance := None |}.

Definition loadedForm : ChemistryCalculatorUI.InputValues.t :=
  {| ChemistryCalculatorUI.InputValues.massZn := Some "1";
     ChemistryCalculatorUI.InputValues.massMnO2 := Some "2";
     ChemistryCalculatorUI.InputValues.molarMassZn := Some "65.38";
     ChemistryCalculatorUI.InputValues.molarMassMnO2 := Some "86.936";
     ChemistryCalculatorUI.InputValues.voltage := Some "1.5";
     ChemistryCalculatorUI.InputValues.electrons := Some "2";
     ChemistryCalculatorUI.InputValues.resistance := Some "10" |}.

(** The parameters of a link with the texts of [loadedForm]. *)
Definition loadedParams : JSObject.t :=
  [ ("massZn", "1"); ("massMnO2", "2"); ("molarMassZn", "65.38");
    ("molarMassMnO2", "86.936"); ("voltage", "1.5"); ("electrons", "2");
    ("resistance", "10") ].

(** The physics form with nothing typed in. *)
Definition blankFieldForm : PhysicsCalculatorUI.InputValues.t :=
  {| PhysicsCalculatorUI.InputValues.conductorType := None;
     PhysicsCalculatorUI.InputValues.current := None;
     PhysicsCalculatorUI.InputValues.turns := None;
     PhysicsCalculatorUI.InputValues.radius := None;
     PhysicsCalculatorUI.InputValues.length := None;
     PhysicsCalculatorUI.InputValues.distance := None;
     PhysicsCalculatorUI.InputValues.material := None |}.

(** An address without a query, one that selects the physics mode, and
    one that carries a molar mass of zinc of 70 g/mol. *)
Definition plainAddress : URL.t :=
  {| URL.path := "/calculator.html"; URL.searchParams := []; URL.hash := "" |}.

Definition physicsAddress : URL.t :=
  {| URL.path := "/calculator.html";
     URL.searchParams := [ ("mode", "physics") ];
     URL.hash := "" |}.

Definition heavyZincAddress : URL.t :=
  {| URL.path := "/calculator.html";
     URL.searchParams := [ ("massZn", "1"); ("molarMassZn", "70") ];
     URL.hash := "" |}.

(** A page on its first visit, with an empty storage. *)
Definition firstVisit (href : URL.t) : AppState.Page :=
  {| AppState.storage := Some [];
     AppState.location := href;
     AppState.dataTheme := None;
     AppState.dataTextSize := None;
     AppState.dataMode := None |}.



(** A storage holding ten scenarios of the lab. *)
Definition tenScenarios : list (string * JSON.t) :=
  [ ("chargelab_saved_scenarios",
     JSON.JArray
       (repeat (LimitingReagentLab.scenario "t0" LimitingReagentLab.constructor) 10)) ].

End PageExamples.

(* ================================================================== *)
(** * Rounding in binary64

    The operations of [float] are specified by [SFmul], [SFdiv], [SFsub]
    and [SFcompare] on [spec_float]; this part relates what they compute to
    integer arithmetic on mantissas. *)
(* ================================================================== *)

Module Binary64Facts.
Import Binary64.
Local Open Scope Z_scope.

(** Closes [0 < 2 ^ e] when [0 <= e] follows by linear arithmetic. *)
Ltac pow2_pos := apply Z.pow_pos_nonneg; lia.

(** [fexp] of binary64, in closed form. *)
Lemma fexp_eq (e : Z) : fexp prec emax e = Z.max (e - 53) (-1074).
Proof. reflexivity. Qed.

(** ** Number of binary digits *)

Lemma digits2_pos_size (p : positive) : digits2_pos p = Pos.size p.
Proof. induction p; cbn; now rewrite ?IHp. Qed.

Lemma Zdigits2_log2 (m : Z) : 0 < m -> Zdigits2 m = Z.log2 m + 1.
Proof.
  destruct m as [|p|p]; try lia. intros _. cbn.
  rewrite digits2_pos_size. destruct p; cbn; lia.
Qed.

Lemma Zdigits2_nonneg (m : Z) : 0 <= Zdigits2 m.
Proof. destruct m; cbn; lia. Qed.

Lemma Zdigits2_bounds (m : Z) :
  0 < m -> 2 ^ (Zdigits2 m - 1) <= m < 2 ^ Zdigits2 m.
Proof.
  intros H. rewrite Zdigits2_log2 by assumption.
  replace (Z.log2 m + 1 - 1) with (Z.log2 m) by lia.
  replace (Z.log2 m + 1) with (Z.succ (Z.log2 m)) by lia.
  now apply Z.log2_spec.
Qed.

Lemma Zdigits2_unique (m d : Z) :
  2 ^ (d - 1) <= m < 2 ^ d -> 0 < m -> Zdigits2 m = d.
Proof.
  intros H Hm. rewrite Zdigits2_log2 by assumption.
  assert (0 < d).
  { destruct (Z_lt_le_dec 0 d); [assumption|].
    assert (2 ^ d <= 1); [|lia].
    destruct (Z.eq_dec d 0) as [->|]; [reflexivity|].
    rewrite Z.pow_neg_r; lia. }
  assert (Z.log2 m = d - 1); [|lia].
  apply Z.log2_unique; [lia|]. now replace (Z.succ (d - 1)) with d by lia.
Qed.

(** ** Right shifts *)

Lemma iter_pos_nat {A} (f : A -> A) (p : positive) (x : A) :
  SpecFloat.iter_pos f p x = Nat.iter (Pos.to_nat p) f x.
Proof.
  revert x. induction p as [p IH|p IH|]; intros x; cbn [SpecFloat.iter_pos].
  - rewrite !IH, Pos2Nat.inj_xI, <- Nat.iter_succ_r, <- Nat.iter_add.
    f_equal. lia.
  - rewrite !IH, Pos2Nat.inj_xO, <- Nat.iter_add. f_equal. lia.
  - reflexivity.
Qed.

Lemma shr_1_m (r : shr_record) :
  0 <= shr_m r -> shr_m (shr_1 r) = shr_m r / 2.
Proof.
  destruct r as [m b s]. cbn [shr_m]. intros H.
  destruct m as [|[p|p|]|p]; cbn [shr_1 shr_m]; try lia; try reflexivity.
  - rewrite Pos2Z.inj_xI. apply Z.div_unique with 1; lia.
  - rewrite Pos2Z.inj_xO. apply Z.div_unique with 0; lia.
Qed.

Lemma shr_nat_m (n : nat) (r : shr_record) :
  0 <= shr_m r -> shr_m (Nat.iter n shr_1 r) = shr_m r / 2 ^ Z.of_nat n.
Proof.
  intros H. induction n as [|n IH].
  - cbn. now rewrite Z.div_1_r.
  - rewrite Nat.iter_succ, shr_1_m.
    + rewrite IH, Nat2Z.inj_succ, Z.pow_succ_r by lia.
      rewrite Z.div_div by lia. f_equal. lia.
    + rewrite IH. apply Z.div_pos; lia.
Qed.

(** A shift that drops only zero bits of an exact record stays exact. *)
Lemma shr_nat_exact (n : nat) (a : Z) :
  0 <= a ->
  Nat.iter n shr_1 (Build_shr_record (a * 2 ^ Z.of_nat n) false false)
  = Build_shr_record a false false.
Proof.
  intros Ha. revert a Ha. induction n as [|n IH]; intros a Ha.
  - cbn. now rewrite Z.mul_1_r.
  - rewrite Nat.iter_succ_r.
    replace (a * 2 ^ Z.of_nat (S n)) with (2 * (a * 2 ^ Z.of_nat n))
      by (rewrite Nat2Z.inj_succ, Z.pow_succ_r; lia).
    assert (H : 0 <= a * 2 ^ Z.of_nat n) by lia.
    destruct (a * 2 ^ Z.of_nat n) as [|p|p] eqn:E; [| |lia].
    + cbn [Z.mul shr_1 orb]. rewrite <- (IH a Ha), E. reflexivity.
    + cbn [Z.mul Pos.mul shr_1 orb]. rewrite <- (IH a Ha), E. reflexivity.
Qed.

Lemma shr_m_spec (r : shr_record) (e n : Z) :
  0 <= shr_m r ->
  shr_m (fst (shr r e n)) = shr_m r / 2 ^ shift_count n
  /\ snd (shr r e n) = e + shift_count n.
Proof.
  intros H. unfold shr, shift_count. destruct n as [|p|p]; cbn [fst snd].
  - rewrite Z.div_1_r. split; lia.
  - rewrite iter_pos_nat, shr_nat_m, positive_nat_Z by assumption.
    split; [f_equal; f_equal; lia | lia].
  - rewrite Z.div_1_r. split; lia.
Qed.

Lemma shr_exact (a e n : Z) :
  0 <= a ->
  fst (shr (Build_shr_record (a * 2 ^ shift_count n) false false) e n)
  = Build_shr_record a false false.
Proof.
  intros Ha. unfold shr, shift_count. destruct n as [|p|p]; cbn [fst].
  - cbn. now rewrite Z.mul_1_r.
  - rewrite iter_pos_nat.
    replace (Z.max 0 (Z.pos p)) with (Z.of_nat (Pos.to_nat p))
      by (rewrite positive_nat_Z; lia).
    now apply shr_nat_exact.
  - cbn. now rewrite Z.mul_1_r.
Qed.

(** ** Rounding *)

Lemma round_nearest_even_cases (m : Z) (l : location) :
  round_nearest_even m l = m \/ round_nearest_even m l = m + 1.
Proof. destruct l as [|[| |]]; cbn; auto. destruct (Z.even m); auto. Qed.

Lemma Zdigits2_div_pow2 (m k : Z) :
  0 < m -> 0 <= k -> 0 < m / 2 ^ k -> Zdigits2 (m / 2 ^ k) = Zdigits2 m - k.
Proof.
  intros Hm Hk Hq. rewrite !Zdigits2_log2 by assumption.
  rewrite <- Z.shiftr_div_pow2 by assumption.
  rewrite Z.log2_shiftr by assumption.
  assert (k <= Z.log2 m); [|lia].
  apply Z.log2_le_pow2; [assumption|].
  destruct (Z_lt_le_dec m (2 ^ k)); [|assumption].
  rewrite Z.div_small in Hq; lia.
Qed.

Lemma Zdigits2_succ (m : Z) :
  0 <= m ->
  Zdigits2 (m + 1) = Zdigits2 m
  \/ (Zdigits2 (m + 1) = Zdigits2 m + 1 /\ m + 1 = 2 ^ Zdigits2 m).
Proof.
  intros Hm. destruct (Z.eq_dec m 0) as [->|Hz].
  - right. split; reflexivity.
  - assert (Hb := Zdigits2_bounds m ltac:(lia)).
    destruct (Z.eq_dec (m + 1) (2 ^ Zdigits2 m)) as [E|E].
    + right. split; [|assumption].
      apply Zdigits2_unique; [|lia].
      replace (Zdigits2 m + 1 - 1) with (Zdigits2 m) by lia.
      rewrite Z.pow_add_r by (pose proof (Zdigits2_nonneg m); lia). lia.
    + left. apply Zdigits2_unique; lia.
Qed.

Lemma fexp_succ (e : Z) : fexp prec emax (e + 1) <= fexp prec emax e + 1.
Proof. rewrite !fexp_eq. lia. Qed.

Lemma fexp_lower (e : Z) : -1074 <= fexp prec emax e.
Proof. rewrite fexp_eq. lia. Qed.

Lemma round_shift_fits (mx ex : Z) :
  0 <= mx ->
  let k := round_shift mx ex in
  fexp prec emax (Zdigits2 (mx / 2 ^ k) + (ex + k)) <= ex + k
  /\ -1074 <= ex + k.
Proof.
  intros Hmx k. subst k. unfold round_shift, shift_count.
  pose proof (fexp_lower (Zdigits2 mx + ex)) as Hl.
  destruct (Z_le_gt_dec (fexp prec emax (Zdigits2 mx + ex) - ex) 0) as [Hk|Hk].
  - rewrite Z.max_l by assumption. rewrite Z.div_1_r, Z.add_0_r. lia.
  - rewrite Z.max_r by lia.
    set (k := fexp prec emax (Zdigits2 mx + ex) - ex) in *.
    assert (Hq : 0 <= mx / 2 ^ k) by (apply Z.div_pos; lia).
    split; [|lia].
    destruct (Z.eq_dec (mx / 2 ^ k) 0) as [E|E].
    + rewrite E. cbn [Zdigits2]. rewrite fexp_eq. lia.
    + assert (0 < mx).
      { destruct (Z.eq_dec mx 0) as [->|]; [|lia]. now rewrite Z.div_0_l in E by lia. }
      rewrite Zdigits2_div_pow2 by lia.
      replace (Zdigits2 mx - k + (ex + k)) with (Zdigits2 mx + ex) by lia.
      lia.
Qed.

(** What [binary_round_aux] computes, with the two shifts written as
    divisions: [m1] is the truncated mantissa or its successor, it is the
    truncated mantissa when nothing was lost, and the second shift (of at
    most one bit, after a carry) loses nothing. *)
Lemma binary_round_aux_spec (s : bool) (mx ex : Z) (lx : location) :
  0 <= mx ->
  let k := round_shift mx ex in
  let F := mx / 2 ^ k in
  exists m1 k2 : Z,
    (m1 = F \/ m1 = F + 1)
    /\ (lx = loc_Exact -> mx mod 2 ^ k = 0 -> m1 = F)
    /\ (k2 = 0 \/ k2 = 1)
    /\ k2 = round_shift m1 (ex + k)
    /\ m1 / 2 ^ k2 * 2 ^ k2 = m1
    /\ binary_round_aux prec emax s mx ex lx
       = match m1 / 2 ^ k2 with
         | 0 => S754_zero s
         | Zpos p =>
             if ex + k + k2 <=? 971 then S754_finite s p (ex + k + k2)
             else S754_infinity s
         | Zneg _ => S754_nan
         end.
Proof.
  intros Hmx k F.
  unfold binary_round_aux, shr_fexp.
  fold (round_shift mx ex). 
  destruct (shr (shr_record_of_loc mx lx) ex
              (fexp prec emax (Zdigits2 mx + ex) - ex)) as [mrs' e'] eqn:E1.
  assert (Hm0 : shr_m (shr_record_of_loc mx lx) = mx)
    by (destruct lx as [|[| |]]; reflexivity).
  destruct (shr_m_spec (shr_record_of_loc mx lx) ex
              (fexp prec emax (Zdigits2 mx + ex) - ex)) as [Hm He];
    [rewrite Hm0; assumption|].
  rewrite E1, Hm0 in Hm. rewrite E1 in He. cbn [fst snd] in Hm, He.
  fold (round_shift mx ex) in Hm, He. fold k in Hm, He. fold F in Hm.
  set (m1 := round_nearest_even (shr_m mrs') (loc_of_shr_record mrs')).
  assert (HF : 0 <= F) by (apply Z.div_pos; [assumption|unfold k, round_shift, shift_count; lia]).
  assert (Hm1 : m1 = F \/ m1 = F + 1).
  { unfold m1. rewrite <- Hm. apply round_nearest_even_cases. }
  destruct (round_shift_fits mx ex Hmx) as [Hfit Hlow]. fold k in Hfit, Hlow. fold F in Hfit.
  destruct (shr (shr_record_of_loc m1 loc_Exact) e'
              (fexp prec emax (Zdigits2 m1 + e') - e')) as [mrs'' e''] eqn:E2.
  destruct (shr_m_spec (shr_record_of_loc m1 loc_Exact) e'
              (fexp prec emax (Zdigits2 m1 + e') - e')) as [Hm2 He2];
    [cbn; lia|].
  rewrite E2 in Hm2, He2. cbn [fst snd shr_record_of_loc shr_m] in Hm2, He2.
  subst e'. fold (round_shift m1 (ex + k)) in Hm2, He2.
  exists m1, (round_shift m1 (ex + k)).
  assert (Hk2 : round_shift m1 (ex + k) = 0
                \/ (round_shift m1 (ex + k) = 1 /\ m1 = 2 ^ Zdigits2 F /\ 0 < Zdigits2 F)).
  { unfold round_shift, shift_count.
    destruct Hm1 as [->| ->].
    - left. lia.
    - destruct (Zdigits2_succ F HF) as [Hd|[Hd Hp]].
      + left. rewrite Hd. lia.
      + rewrite Hd. pose proof (fexp_succ (Zdigits2 F + (ex + k))) as Hs.
        replace (Zdigits2 F + (ex + k) + 1) with (Zdigits2 F + 1 + (ex + k)) in Hs by lia.
        destruct (Z.eq_dec (Zdigits2 F) 0) as [Hz|Hz].
        * left. rewrite Hz. rewrite fexp_eq. lia.
        * pose proof (Zdigits2_nonneg F).
          destruct (Z_le_gt_dec (fexp prec emax (Zdigits2 F + 1 + (ex + k)) - (ex + k)) 0).
          -- left. lia.
          -- right. repeat split; lia. }
  repeat split.
  - assumption.
  - intros -> Hmod. unfold m1.
    assert (Hrec : mrs' = Build_shr_record F false false).
    { change mrs' with (fst (mrs', ex + k)). rewrite <- E1.
      cbn [shr_record_of_loc].
      replace mx with (F * 2 ^ shift_count (fexp prec emax (Zdigits2 mx + ex) - ex)) at 1.
      - apply shr_exact. assumption.
      - fold (round_shift mx ex). fold k. unfold F.
        assert (Hp : 0 < 2 ^ k)
          by (apply Z.pow_pos_nonneg; unfold k, round_shift, shift_count; lia).
        pose proof (Z.div_mod mx (2 ^ k) ltac:(lia)). lia. }
    rewrite Hrec. reflexivity.
  - destruct Hk2 as [?|[? _]]; auto.
  - destruct Hk2 as [->|(-> & -> & Hd)].
    + now rewrite Z.div_1_r, Z.mul_1_r.
    + change (2 ^ 1) with 2.
      replace (Zdigits2 F) with (Z.succ (Zdigits2 F - 1)) by lia.
      rewrite Z.pow_succ_r by lia.
      rewrite (Z.mul_comm 2 (2 ^ (Zdigits2 F - 1))), Z.div_mul by lia. lia.
  - rewrite Hm2. subst e''. 
    replace (ex + k + round_shift m1 (ex + k) <=? 971)
      with (ex + k + round_shift m1 (ex + k) <=? emax - prec) by reflexivity.
    reflexivity.
Qed.

(** ** Valid numbers *)

Lemma valid_finite (s : bool) (m : positive) (e : Z) :
  valid_binary (S754_finite s m e) = true ->
  -1074 <= e <= 971
  /\ Zdigits2 (Zpos m) <= 53
  /\ (-1074 < e -> Zdigits2 (Zpos m) = 53).
Proof.
  cbn [SpecFloat.valid_binary]. unfold bounded, canonical_mantissa.
  rewrite andb_true_iff, Z.eqb_eq, Z.leb_le, fexp_eq.
  change (emax - prec) with 971. cbn [Zdigits2]. lia.
Qed.

Lemma valid_pos_bounds (s : bool) (m : positive) (e : Z) :
  valid_binary (S754_finite s m e) = true ->
  Zpos m < 2 ^ 53 /\ (-1074 < e -> 2 ^ 52 <= Zpos m).
Proof.
  intros H. destruct (valid_finite s m e H) as (He & Hd & Hn).
  pose proof (Zdigits2_bounds (Zpos m) ltac:(lia)) as [Hlo Hhi].
  split.
  - eapply Z.lt_le_trans; [exact Hhi|]. apply Z.pow_le_mono_r; lia.
  - intros Hlt. rewrite (Hn Hlt) in Hlo. exact Hlo.
Qed.

(** Valid numbers are ordered as their values. *)
Lemma mantissa_order (m1 m2 : positive) (e1 e2 : Z) :
  valid_binary (S754_finite false m1 e1) = true ->
  valid_binary (S754_finite false m2 e2) = true ->
  e1 < e2 ->
  Zpos m1 * 2 ^ (e1 + 1074) < Zpos m2 * 2 ^ (e2 + 1074).
Proof.
  intros H1 H2 Hlt.
  destruct (valid_finite _ _ _ H1) as (He1 & _ & _).
  destruct (valid_pos_bounds _ _ _ H1) as [Hm1 _].
  destruct (valid_pos_bounds _ _ _ H2) as [_ Hm2].
  specialize (Hm2 ltac:(lia)).
  replace (e2 + 1074) with ((e2 - e1 - 1) + 1 + (e1 + 1074)) by lia.
  rewrite (Z.pow_add_r 2 (e2 - e1 - 1 + 1)), (Z.pow_add_r 2 (e2 - e1 - 1)) by lia.
  change (2 ^ 1) with 2.
  assert (0 < 2 ^ (e1 + 1074)) by pow2_pos.
  assert (0 < 2 ^ (e2 - e1 - 1)) by pow2_pos.
  change (2 ^ 53) with (2 * 2 ^ 52) in Hm1.
  set (P := 2 ^ (e2 - e1 - 1)) in *. set (A := 2 ^ (e1 + 1074)) in *.
  assert (Z.pos m2 * 1 <= Z.pos m2 * P) by (apply Z.mul_le_mono_nonneg_l; lia).
  assert (Z.pos m1 < Z.pos m2 * (P * 2)) by lia.
  rewrite !Z.mul_assoc. apply Z.mul_lt_mono_pos_r; lia.
Qed.

Lemma compare_nonneg (m1 m2 : positive) (e1 e2 : Z) :
  valid_binary (S754_finite false m1 e1) = true ->
  valid_binary (S754_finite false m2 e2) = true ->
  match e1 ?= e2 with
  | Lt => Lt
  | Gt => Gt
  | Eq => Pos.compare_cont Eq m1 m2
  end = (Zpos m1 * 2 ^ (e1 + 1074) ?= Zpos m2 * 2 ^ (e2 + 1074)).
Proof.
  intros H1 H2. destruct (Z.compare_spec e1 e2) as [->|Hlt|Hgt].
  - change (Pos.compare_cont Eq m1 m2) with (Zpos m1 ?= Zpos m2).
    destruct (valid_finite _ _ _ H2) as (He2 & _ & _).
    assert (0 < 2 ^ (e2 + 1074)) by pow2_pos.
    apply Zmult_compare_compat_r. lia.
  - symmetry. apply Z.compare_lt_iff. now apply mantissa_order.
  - symmetry. apply Z.compare_gt_iff. now apply mantissa_order.
Qed.

Lemma SFcompare_SF2Z (x y : spec_float) :
  valid_binary x = true -> valid_binary y = true ->
  SFfinite x = true -> SFfinite y = true ->
  SFcompare x y = Some (SF2Z x ?= SF2Z y).
Proof.
  intros Vx Vy Fx Fy.
  destruct x as [sx| | |sx mx ex]; try discriminate;
    destruct y as [sy| | |sy my ey]; try discriminate.
  - reflexivity.
  - cbn [SFcompare SF2Z]. f_equal.
    destruct (valid_finite _ _ _ Vy) as (He & _).
    assert (0 < 2 ^ (ey + 1074)) by pow2_pos.
    destruct sy; cbn [cond_Zopp]; symmetry;
      [apply Z.compare_gt_iff | apply Z.compare_lt_iff]; nia.
  - cbn [SFcompare SF2Z]. f_equal.
    destruct (valid_finite _ _ _ Vx) as (He & _).
    assert (0 < 2 ^ (ex + 1074)) by pow2_pos.
    destruct sx; cbn [cond_Zopp]; symmetry;
      [apply Z.compare_lt_iff | apply Z.compare_gt_iff]; nia.
  - cbn [SFcompare SF2Z]. f_equal.
    destruct (valid_finite _ _ _ Vx) as (Hex & _).
    destruct (valid_finite _ _ _ Vy) as (Hey & _).
    assert (0 < 2 ^ (ex + 1074)) by pow2_pos.
    assert (0 < 2 ^ (ey + 1074)) by pow2_pos.
    destruct sx, sy; cbn [cond_Zopp].
    + rewrite Z.compare_opp.
      destruct (Z.compare_spec ex ey) as [->|Hlt|Hgt].
      * change (Pos.compare_cont Eq mx my) with (Zpos mx ?= Zpos my).
        rewrite <- Zmult_compare_compat_r by lia.
        symmetry. apply Z.compare_antisym.
      * symmetry. apply Z.compare_gt_iff. now apply mantissa_order.
      * symmetry. apply Z.compare_lt_iff. now apply mantissa_order.
    + symmetry. apply Z.compare_lt_iff. nia.
    + symmetry. apply Z.compare_gt_iff. nia.
    + apply (compare_nonneg mx my ex ey Vx Vy).
Qed.

(** ** Sign of a rounded result *)

Lemma binary_round_aux_sign (s : bool) (mx ex : Z) (lx : location) :
  0 <= mx -> has_sign s (binary_round_aux prec emax s mx ex lx).
Proof.
  intros Hmx.
  destruct (binary_round_aux_spec s mx ex lx Hmx)
    as (m1 & k2 & Hm1 & _ & Hk2 & _ & _ & ->).
  assert (0 <= mx / 2 ^ round_shift mx ex)
    by (apply Z.div_pos; [assumption|unfold round_shift, shift_count; lia]).
  assert (0 <= m1 / 2 ^ k2) by (apply Z.div_pos; lia).
  destruct (m1 / 2 ^ k2); [reflexivity| |lia].
  destruct (_ <=? _); reflexivity.
Qed.

Lemma Pos_iter_xO (m d : positive) :
  Zpos (Pos.iter xO m d) = Zpos m * 2 ^ Zpos d.
Proof.
  induction d as [|d IH] using Pos.peano_ind.
  - cbn. lia.
  - rewrite Pos.iter_succ, Pos2Z.inj_xO, IH, Pos2Z.inj_succ, Z.pow_succ_r; lia.
Qed.

Lemma shl_align_value (m : positive) (e e' : Z) :
  e' <= e ->
  Zpos (fst (shl_align m e e')) = Zpos m * 2 ^ (e - e')
  /\ snd (shl_align m e e') = e'.
Proof.
  intros H. unfold shl_align.
  destruct (e' - e) as [|d|d] eqn:E; cbn [fst snd].
  - replace (e - e') with 0 by lia. split; lia.
  - lia.
  - rewrite Pos_iter_xO. replace (e - e') with (Zpos d) by lia. split; lia.
Qed.

Lemma binary_round_sign (s : bool) (m : positive) (e : Z) :
  has_sign s (binary_round prec emax s m e).
Proof.
  unfold binary_round. destruct (shl_align _ _ _) as [mz ez].
  apply binary_round_aux_sign. lia.
Qed.

Lemma has_sign_nonneg (x : spec_float) :
  has_sign false x -> SFleb (S754_zero false) x = true.
Proof. destruct x as [s|s| |s m e]; cbn; try intros ->; try reflexivity; tauto. Qed.

(** The difference of two finite numbers is not negative when the first
    is at least the second. *)
Lemma SFsub_nonneg (x y : spec_float) :
  valid_binary x = true -> valid_binary y = true ->
  SFfinite x = true -> SFfinite y = true ->
  SF2Z y <= SF2Z x ->
  SFleb (S754_zero false) (SF64sub x y) = true.
Proof.
  intros Vx Vy Fx Fy Hle.
  destruct x as [sx| | |sx mx ex]; try discriminate;
    destruct y as [sy| | |sy my ey]; try discriminate.
  - destruct sx, sy; reflexivity.
  - cbn [SF2Z] in Hle. destruct (valid_finite _ _ _ Vy) as (He & _).
    assert (0 < 2 ^ (ey + 1074)) by pow2_pos.
    destruct sy; cbn [cond_Zopp] in Hle; [reflexivity|nia].
  - cbn [SF2Z] in Hle. destruct (valid_finite _ _ _ Vx) as (He & _).
    assert (0 < 2 ^ (ex + 1074)) by pow2_pos.
    destruct sx; cbn [cond_Zopp] in Hle; [nia|reflexivity].
  - unfold SF64sub, SFsub.
    destruct (valid_finite _ _ _ Vx) as (Hex & _).
    destruct (valid_finite _ _ _ Vy) as (Hey & _).
    set (ez := Z.min ex ey).
    destruct (shl_align_value mx ex ez ltac:(lia)) as [Hax _].
    destruct (shl_align_value my ey ez ltac:(lia)) as [Hay _].
    rewrite Hax, Hay.
    set (D := cond_Zopp sx (Z.pos mx * 2 ^ (ex - ez))
              - cond_Zopp sy (Z.pos my * 2 ^ (ey - ez))).
    assert (HD : D * 2 ^ (ez + 1074)
                 = SF2Z (S754_finite sx mx ex) - SF2Z (S754_finite sy my ey)).
    { unfold D. cbn [SF2Z].
      replace (ex + 1074) with ((ex - ez) + (ez + 1074)) by lia.
      replace (ey + 1074) with ((ey - ez) + (ez + 1074)) by lia.
      rewrite (Z.pow_add_r 2 (ex - ez)), (Z.pow_add_r 2 (ey - ez)) by (subst ez; lia).
      destruct sx, sy; cbn [cond_Zopp]; ring. }
    assert (0 < 2 ^ (ez + 1074)) by (apply Z.pow_pos_nonneg; subst ez; lia).
    assert (0 <= D) by nia.
    apply has_sign_nonneg.
    destruct D as [|p|p]; [reflexivity| |lia].
    apply binary_round_sign.
Qed.

(** Two finite numbers that compare equal have a zero difference. *)
Lemma SFsub_equal (x y : spec_float) :
  SFeqb x y = true -> SFfinite y = true ->
  exists s, SF64sub x y = S754_zero s.
Proof.
  unfold SFeqb. intros Heq Fy.
  destruct x as [sx|sx| |sx mx ex]; destruct y as [sy|sy| |sy my ey];
    cbn [SFcompare SFfinite] in Heq, Fy; try discriminate;
    try (destruct sx; discriminate); try (destruct sy; discriminate).
  - destruct sx, sy; eexists; reflexivity.
  - assert (sx = sy /\ ex = ey /\ mx = my) as (-> & -> & ->).
    { destruct sx, sy; try discriminate;
        destruct (Z.compare_spec ex ey); try discriminate;
        destruct (Pos.compare_cont Eq mx my) eqn:E; try discriminate;
        apply Pos.compare_eq in E; auto. }
    exists false. unfold SF64sub, SFsub. now rewrite Z.sub_diag.
Qed.

(** ** Doubling and halving *)

Lemma Zdigits2_mul_pow2 (m k : Z) :
  0 < m -> 0 <= k -> Zdigits2 (m * 2 ^ k) = Zdigits2 m + k.
Proof.
  intros Hm Hk.
  assert (0 < 2 ^ k) by pow2_pos.
  rewrite !Zdigits2_log2 by nia.
  rewrite Z.log2_mul_pow2 by lia. lia.
Qed.

(** Doubling is exact unless it overflows. *)
Lemma SFmul_two (s : bool) (m : positive) (e : Z) :
  valid_binary (S754_finite s m e) = true ->
  (SF64mul (S754_finite s m e) SFtwo = S754_infinity s /\ e = 971)
  \/ (exists m' e',
        SF64mul (S754_finite s m e) SFtwo = S754_finite s m' e'
        /\ Zpos m' * 2 ^ (e' + 1074) = 2 * (Zpos m * 2 ^ (e + 1074))).
Proof.
  intros V. destruct (valid_finite s m e V) as (He & Hd & Hn).
  unfold SF64mul, SFtwo, SFmul. rewrite xorb_false_r, Pos2Z.inj_mul.
  change (Z.pos 4503599627370496) with (2 ^ 52).
  destruct (binary_round_aux_spec s (Z.pos m * 2 ^ 52) (e + -51) loc_Exact ltac:(lia))
    as (m1 & k2 & _ & Hex & _ & Hk2 & _ & ->).
  specialize (Hex eq_refl).
  destruct (Z.eq_dec (Zdigits2 (Z.pos m)) 53) as [E53|N53].
  - assert (Hk : round_shift (Z.pos m * 2 ^ 52) (e + -51) = 52).
    { unfold round_shift, shift_count.
      rewrite Zdigits2_mul_pow2, fexp_eq by lia. lia. }
    rewrite Hk in *.
    rewrite Z.div_mul in Hex by lia.
    rewrite Z.mod_mul in Hex by lia.
    specialize (Hex eq_refl). subst m1.
    assert (H0 : k2 = 0).
    { rewrite Hk2. unfold round_shift, shift_count. rewrite fexp_eq. lia. }
    clear Hk2. subst k2. change (2 ^ 0) with 1. rewrite Z.div_1_r.
    destruct (e + -51 + 52 + 0 <=? 971) eqn:L.
    + right. exists m, (e + -51 + 52 + 0). split; [reflexivity|].
      replace (e + -51 + 52 + 0 + 1074) with (Z.succ (e + 1074)) by lia.
      rewrite Z.pow_succ_r by lia. ring.
    + left. apply Z.leb_gt in L. split; [reflexivity|lia].
  - assert (e = -1074) by lia. subst e.
    assert (Hk : round_shift (Z.pos m * 2 ^ 52) (-1074 + -51) = 51).
    { unfold round_shift, shift_count.
      rewrite Zdigits2_mul_pow2, fexp_eq by lia. lia. }
    rewrite Hk in *.
    change (2 ^ 52) with (2 * 2 ^ 51) in *.
    rewrite Z.mul_assoc in *.
    rewrite Z.div_mul in Hex by lia.
    rewrite Z.mod_mul in Hex by lia.
    specialize (Hex eq_refl). subst m1.
    assert (H0 : k2 = 0).
    { rewrite Hk2. unfold round_shift, shift_count.
      change 2 with (2 ^ 1) at 1. rewrite Zdigits2_mul_pow2, fexp_eq by lia. lia. }
    clear Hk2. subst k2. change (2 ^ 0) with 1. rewrite Z.div_1_r.
    right. exists (m * 2)%positive, (-1074). split; [reflexivity|].
    rewrite Pos2Z.inj_mul. change (-1074 + 1074) with 0. lia.
Qed.

(** ** Division *)

Lemma div_eucl_div_mod (a b : Z) : Z.div_eucl a b = (a / b, a mod b).
Proof. unfold Z.div, Z.modulo. now destruct (Z.div_eucl a b). Qed.

Lemma SFdiv_core_spec (m1 e1 m2 e2 : Z) :
  let e' := div_exponent m1 e1 m2 e2 in
  let s := e1 - e2 - e' in
  0 <= s
  /\ SFdiv_core_binary prec emax m1 e1 m2 e2
     = (m1 * 2 ^ s / m2, e', new_location m2 ((m1 * 2 ^ s) mod m2)).
Proof.
  intros e' s. assert (Hs : 0 <= s) by (unfold s, e', div_exponent; lia).
  split; [assumption|].
  unfold SFdiv_core_binary. fold (div_exponent m1 e1 m2 e2). fold e'. fold s.
  assert (Hm : match s with
               | 0 => m1
               | Z.pos _ => Z.shiftl m1 s
               | Z.neg _ => 0
               end = m1 * 2 ^ s).
  { destruct s as [|p|p] eqn:E; [cbn; lia| |lia].
    now rewrite Z.shiftl_mul_pow2 by lia. }
  rewrite Hm, div_eucl_div_mod. reflexivity.
Qed.

Lemma new_location_exact (n r : Z) : new_location n r = loc_Exact <-> r = 0.
Proof.
  unfold new_location, new_location_even, new_location_odd.
  destruct (Z.even n); destruct (Z.eqb_spec r 0); split; intros H;
    try reflexivity; try assumption; try discriminate; contradiction.
Qed.

(** Halving rounds to a neighbour of the exact half on the grid of
    multiples of [2^-1074]. *)
Lemma SFdiv_two (s : bool) (m : positive) (e : Z) :
  valid_binary (S754_finite s m e) = true ->
  exists h : Z,
    0 <= h /\ 2 * h <= Zpos m * 2 ^ (e + 1074) + 1
    /\ SFfinite (SF64div (S754_finite s m e) SFtwo) = true
    /\ SF2Z (SF64div (S754_finite s m e) SFtwo) = cond_Zopp s h.
Proof.
  intros V. destruct (valid_finite s m e V) as (He & Hd & Hn).
  unfold SF64div, SFtwo, SFdiv. rewrite xorb_false_r.
  destruct (SFdiv_core_spec (Z.pos m) e (Z.pos 4503599627370496) (-51)) as [Hs ->].
  change (Z.pos 4503599627370496) with (2 ^ 52) in *.
  set (e' := div_exponent (Z.pos m) e (2 ^ 52) (-51)) in *.
  assert (He' : e' = Z.max (Zdigits2 (Z.pos m) + e - 55) (-1074)).
  { unfold e', div_exponent. change (Zdigits2 (2 ^ 52)) with 53.
    rewrite fexp_eq. lia. }
  set (q := Z.pos m * 2 ^ (e - -51 - e') / 2 ^ 52).
  set (r := (Z.pos m * 2 ^ (e - -51 - e')) mod 2 ^ 52).
  assert (Hq0 : 0 <= q).
  { apply Z.div_pos; [|lia].
    assert (0 < 2 ^ (e - -51 - e')) by pow2_pos. lia. }
  destruct (binary_round_aux_spec s q e' (new_location (2 ^ 52) r) Hq0)
    as (m1 & k2 & Hm1 & Hex & _ & Hk2 & Hdiv & ->).
  destruct (Z_le_gt_dec (-1073) e) as [Hnorm|Hsub].
  - (* the result is the exact half *)
    assert (E53 : Zdigits2 (Z.pos m) = 53) by lia.
    assert (Hqr : q = Z.pos m * 2 ^ (e - 1 - e') /\ r = 0).
    { unfold q, r.
      replace (e - -51 - e') with ((e - 1 - e') + 52) by lia.
      rewrite Z.pow_add_r, Z.mul_assoc by lia.
      rewrite Z.div_mul, Z.mod_mul by lia. split; reflexivity. }
    destruct Hqr as [Eq Er]. rewrite Er in *.
    assert (Hk : round_shift q e' = e - 1 - e').
    { unfold round_shift, shift_count. rewrite Eq.
      rewrite Zdigits2_mul_pow2, fexp_eq by lia. lia. }
    rewrite Hk in *.
    rewrite Eq in Hex.
    rewrite Z.div_mul, Z.mod_mul in Hex
      by (apply Z.pow_nonzero; lia).
    specialize (Hex (proj2 (new_location_exact _ _) eq_refl) eq_refl). subst m1.
    assert (H0 : k2 = 0).
    { rewrite Hk2. unfold round_shift, shift_count. rewrite fexp_eq. lia. }
    clear Hk2. subst k2. change (2 ^ 0) with 1. rewrite Z.div_1_r.
    replace (e' + (e - 1 - e') + 0 <=? 971) with true by (symmetry; apply Z.leb_le; lia).
    exists (Z.pos m * 2 ^ (e - 1 + 1074)). cbn [SFfinite SF2Z].
    replace (e' + (e - 1 - e') + 0 + 1074) with (e - 1 + 1074) by lia.
    assert (0 < 2 ^ (e - 1 + 1074)) by pow2_pos.
    replace (e + 1074) with (Z.succ (e - 1 + 1074)) by lia.
    rewrite Z.pow_succ_r by lia.
    repeat split; lia.
  - (* the result is a multiple of the least positive number *)
    assert (e = -1074) by lia. subst e.
    assert (e' = -1074) by lia.
    assert (Hqr : q = Z.pos m / 2 /\ (r = 0 <-> Z.pos m mod 2 = 0)).
    { unfold q, r. replace (-1074 - -51 - e') with 51 by lia.
      change (2 ^ 52) with (2 * 2 ^ 51).
      rewrite Z.div_mul_cancel_r, Z.mul_mod_distr_r by lia. split; lia. }
    destruct Hqr as [Eq Er].
    assert (Hq1 : 2 * q <= Z.pos m < 2 * q + 2).
    { rewrite Eq. pose proof (Z.div_mod (Z.pos m) 2 ltac:(lia)).
      pose proof (Z.mod_pos_bound (Z.pos m) 2 ltac:(lia)). lia. }
    assert (Hdq : Zdigits2 q <= 52).
    { destruct (Z.eq_dec q 0) as [->|]; [cbn; lia|].
      pose proof (Zdigits2_bounds q ltac:(lia)) as [Hlo _].
      pose proof (Zdigits2_bounds (Z.pos m) ltac:(lia)) as [_ Hhi].
      destruct (Z_le_gt_dec (Zdigits2 q) 52); [assumption|].
      assert (2 ^ 52 <= 2 ^ (Zdigits2 q - 1)) by (apply Z.pow_le_mono_r; lia).
      assert (2 ^ Zdigits2 (Z.pos m) <= 2 ^ 53) by (apply Z.pow_le_mono_r; lia).
      change (2 ^ 53) with (2 * 2 ^ 52) in *. lia. }
    assert (Hk : round_shift q e' = 0).
    { unfold round_shift, shift_count. rewrite fexp_eq. lia. }
    rewrite Hk in *. change (2 ^ 0) with 1 in *.
    rewrite Z.div_1_r, Z.mod_1_r in *.
    assert (Hm1' : 2 * m1 <= Z.pos m + 1 /\ 0 <= m1).
    { destruct Hm1 as [->| ->]; [lia|].
      split; [|lia].
      destruct (Z.eq_dec (Z.pos m mod 2) 0) as [Hev|Hodd].
      - specialize (Hex (proj2 (new_location_exact _ _) (proj2 Er Hev)) eq_refl). lia.
      - pose proof (Z.div_mod (Z.pos m) 2 ltac:(lia)).
        pose proof (Z.mod_pos_bound (Z.pos m) 2 ltac:(lia)). lia. }
    assert (H0 : k2 = 0).
    { rewrite Hk2. unfold round_shift, shift_count. rewrite fexp_eq.
      assert (Zdigits2 m1 <= 53); [|lia].
      destruct Hm1 as [->| ->]; [lia|].
      destruct (Zdigits2_succ q Hq0) as [->|[-> _]]; lia. }
    clear Hk2. subst k2. change (2 ^ 0) with 1. rewrite Z.div_1_r.
    exists m1. change (-1074 + 1074) with 0. rewrite Z.pow_0_r, Z.mul_1_r.
    destruct m1 as [|p|p]; [| |lia].
    + cbn. destruct s; repeat split; lia.
    + replace (e' + 0 + 0 <=? 971) with true by (symmetry; apply Z.leb_le; lia).
      cbn [SFfinite SF2Z]. replace (e' + 0 + 0 + 1074) with 0 by lia.
      rewrite Z.pow_0_r, Z.mul_1_r. repeat split; lia.
Qed.

(** ** One-ulp bounds *)

(** A finite result of [binary_round_aux] is within one unit in the last
    place of the integer it rounds. *)
Lemma round_aux_ulp (s : bool) (mx ex : Z) (lx : location)
      (s' : bool) (m : positive) (e : Z) :
  0 <= mx ->
  binary_round_aux prec emax s mx ex lx = S754_finite s' m e ->
  s' = s /\ ex <= e /\ fexp prec emax (Zdigits2 mx + ex) <= e
  /\ (Zpos m - 1) * 2 ^ (e - ex) <= mx < (Zpos m + 1) * 2 ^ (e - ex).
Proof.
  intros Hmx Hres.
  destruct (binary_round_aux_spec s mx ex lx Hmx)
    as (m1 & k2 & Hm1 & _ & Hk2 & _ & Hdiv & Heq).
  rewrite Heq in Hres. clear Heq.
  set (k := round_shift mx ex) in *.
  assert (Hk : 0 <= k /\ fexp prec emax (Zdigits2 mx + ex) <= ex + k)
    by (unfold k, round_shift, shift_count; lia).
  destruct (m1 / 2 ^ k2) as [|p|p] eqn:Ep; try discriminate.
  destruct (ex + k + k2 <=? 971); try discriminate.
  injection Hres as <- <- <-.
  assert (H2k : 0 < 2 ^ k) by pow2_pos.
  assert (H2k2 : 1 <= 2 ^ k2) by (destruct Hk2 as [->| ->]; cbn; lia).
  pose proof (Z.div_mod mx (2 ^ k) ltac:(lia)) as Hdm.
  pose proof (Z.mod_pos_bound mx (2 ^ k) H2k) as Hmod.
  replace (ex + k + k2 - ex) with (k + k2) by lia.
  rewrite Z.pow_add_r by lia.
  set (F := mx / 2 ^ k) in *. set (A := 2 ^ k) in *. set (B := 2 ^ k2) in *.
  assert (HpB : Z.pos p * B = m1) by lia.
  repeat split; try lia.
  - assert ((Z.pos p - 1) * (A * B) <= F * A); [|lia].
    assert (Z.pos p * B <= F + 1) by lia.
    assert ((Z.pos p - 1) * B <= F) by nia.
    nia.
  - assert ((F + 1) * A <= (Z.pos p + 1) * (A * B)); [|lia].
    assert (F + 1 <= (Z.pos p + 1) * B) by nia.
    nia.
Qed.

(** The product, before and after rounding. *)
Lemma SFmul_finite_bound (sx sy s : bool) (mx my m : positive) (ex ey e : Z) :
  SF64mul (S754_finite sx mx ex) (S754_finite sy my ey) = S754_finite s m e ->
  s = xorb sx sy
  /\ ex + ey <= e
  /\ fexp prec emax (Zdigits2 (Zpos mx * Zpos my) + (ex + ey)) <= e
  /\ (Zpos m - 1) * 2 ^ (e - (ex + ey)) <= Zpos mx * Zpos my
       < (Zpos m + 1) * 2 ^ (e - (ex + ey)).
Proof.
  unfold SF64mul, SFmul. rewrite Pos2Z.inj_mul. intros H.
  apply round_aux_ulp in H; [exact H|lia].
Qed.

(** The quotient, before and after rounding: with [j] and [t] the two
    scalings used by the division. *)
Lemma SFdiv_finite_bound (sx sy s : bool) (mx my m : positive) (ex ey e : Z) :
  SF64div (S754_finite sx mx ex) (S754_finite sy my ey) = S754_finite s m e ->
  s = xorb sx sy
  /\ exists j t : Z,
      0 <= j /\ 0 <= t /\ t - j = ex - ey - e
      /\ -1074 <= e
      /\ (Zpos m - 1) * 2 ^ j * Zpos my <= Zpos mx * 2 ^ t
           < (Zpos m + 1) * 2 ^ j * Zpos my.
Proof.
  unfold SF64div, SFdiv.
  destruct (SFdiv_core_spec (Z.pos mx) ex (Z.pos my) ey) as [Ht ->].
  set (e' := div_exponent (Z.pos mx) ex (Z.pos my) ey) in *.
  set (t := ex - ey - e') in *.
  set (q := Z.pos mx * 2 ^ t / Z.pos my).
  intros H.
  assert (H2t : 0 < 2 ^ t) by pow2_pos.
  assert (Hq : 0 <= q) by (apply Z.div_pos; lia).
  apply round_aux_ulp in H; [|assumption].
  destruct H as (-> & Hle & Hfe & Hlo & Hhi).
  split; [reflexivity|].
  exists (e - e'), t.
  pose proof (fexp_lower (Zdigits2 q + e')).
  pose proof (Z.div_mod (Z.pos mx * 2 ^ t) (Z.pos my) ltac:(lia)) as Hdm.
  pose proof (Z.mod_pos_bound (Z.pos mx * 2 ^ t) (Z.pos my) ltac:(lia)) as Hmod.
  fold q in Hdm.
  set (J := 2 ^ (e - e')) in *.
  repeat split; try lia.
  - assert ((Z.pos m - 1) * J * Z.pos my <= q * Z.pos my); [|lia].
    apply Z.mul_le_mono_nonneg_r; lia.
  - assert ((q + 1) * Z.pos my <= (Z.pos m + 1) * J * Z.pos my); [|lia].
    apply Z.mul_le_mono_nonneg_r; lia.
Qed.
End Binary64Facts.

(* ================================================================== *)
(** * Facts about JavaScript numbers *)
(* ================================================================== *)

Module Float64Facts.
Import Binary64 Float64 Binary64Facts.

Lemma Prim2SF_zero : Prim2SF 0 = S754_zero false.
Proof. reflexivity. Qed.

Lemma Prim2SF_two : Prim2SF 2 = SFtwo.
Proof. reflexivity. Qed.

Lemma SFcompare_refl (x : spec_float) :
  x <> S754_nan -> SFcompare x x = Some Eq.
Proof.
  destruct x as [s|s| |s m e]; intros H; try contradiction; cbn.
  - reflexivity.
  - now destruct s.
  - rewrite Z.compare_refl.
    change (Pos.compare_cont Eq m m) with (Pos.compare m m).
    rewrite Pos.compare_refl. now destruct s.
Qed.

Lemma is_nan_spec (x : float) : is_nan x = true <-> Prim2SF x = S754_nan.
Proof.
  unfold is_nan. rewrite FloatAxioms.eqb_spec. unfold SFeqb.
  destruct (Prim2SF x) as [s|s| |s m e] eqn:E.
  all: try (rewrite SFcompare_refl by discriminate; cbn; split; discriminate).
  cbn. split; reflexivity.
Qed.

Lemma is_zero_spec (x : float) :
  is_zero x = true <-> exists s, Prim2SF x = S754_zero s.
Proof.
  unfold is_zero. rewrite FloatAxioms.eqb_spec.
  change (Prim2SF zero) with (S754_zero false). unfold SFeqb.
  destruct (Prim2SF x) as [s|s| |s m e]; cbn.
  - split; eauto.
  - destruct s; split; try discriminate; intros [? ?]; discriminate.
  - split; try discriminate; intros [? ?]; discriminate.
  - destruct s; split; try discriminate; intros [? ?]; discriminate.
Qed.

Lemma is_finite_spec (x : float) :
  is_finite x = SFfinite (Prim2SF x).
Proof.
  unfold is_finite, is_infinity, is_nan. rewrite !FloatAxioms.eqb_spec, abs_spec.
  change (Prim2SF infinity) with (S754_infinity false). unfold SFeqb.
  destruct (Prim2SF x) as [s|s| |s m e]; try reflexivity.
  cbn [SFabs SFfinite]. rewrite !SFcompare_refl by discriminate. reflexivity.
  cbn [SFabs SFfinite]. rewrite SFcompare_refl by discriminate. reflexivity.
Qed.

Lemma positive_spec (x : float) :
  (0 <? x) = true <->
  Prim2SF x = S754_infinity false \/ exists m e, Prim2SF x = S754_finite false m e.
Proof.
  rewrite FloatAxioms.ltb_spec, Prim2SF_zero. unfold SFltb.
  destruct (Prim2SF x) as [s|s| |s m e]; cbn.
  - split; [discriminate|]. intros [?|(? & ? & ?)]; discriminate.
  - destruct s; split; try discriminate; auto.
    intros [?|(? & ? & ?)]; discriminate.
  - split; [discriminate|]. intros [?|(? & ? & ?)]; discriminate.
  - destruct s; split; try discriminate; eauto.
    intros [?|(? & ? & H)]; discriminate.
Qed.

Lemma negative_arg_spec (x : float) :
  (x <? 0) = true <->
  Prim2SF x = S754_infinity true \/ exists m e, Prim2SF x = S754_finite true m e.
Proof.
  rewrite FloatAxioms.ltb_spec, Prim2SF_zero. unfold SFltb.
  destruct (Prim2SF x) as [s|s| |s m e]; cbn.
  - split; [discriminate|]. intros [?|(? & ? & ?)]; discriminate.
  - destruct s; split; try discriminate; auto.
    intros [?|(? & ? & ?)]; discriminate.
  - split; [discriminate|]. intros [?|(? & ? & ?)]; discriminate.
  - destruct s; split; try discriminate; eauto.
    intros [?|(? & ? & H)]; discriminate.
Qed.

(** [x > 0] implies that [x] is truthy; [x <= 0] excludes [x > 0]. *)
Lemma positive_truthy (x : float) : (0 <? x) = true -> JS.truthy x = true.
Proof.
  intros H. apply positive_spec in H. unfold JS.truthy.
  destruct (is_zero x) eqn:Ez.
  - apply is_zero_spec in Ez as [s Ez].
    destruct H as [H|(m & e & H)]; congruence.
  - destruct (is_nan x) eqn:En; [|reflexivity].
    apply is_nan_spec in En.
    destruct H as [H|(m & e & H)]; congruence.
Qed.

Lemma nonpositive_not_positive (x : float) :
  (x <=? 0) = true -> (0 <? x) = false.
Proof.
  rewrite FloatAxioms.leb_spec, FloatAxioms.ltb_spec, Prim2SF_zero.
  unfold SFleb, SFltb.
  destruct (Prim2SF x) as [s|s| |s m e]; cbn; try reflexivity;
    destruct s; cbn; congruence.
Qed.

(** ** Sign of a quotient *)

Lemma SFdiv_sign (sx sy : bool) (mx my : positive) (ex ey : Z) :
  has_sign (xorb sx sy)
           (SF64div (S754_finite sx mx ex) (S754_finite sy my ey)).
Proof.
  unfold SF64div, SFdiv.
  destruct (SFdiv_core_spec (Z.pos mx) ex (Z.pos my) ey) as [Ht ->].
  apply binary_round_aux_sign.
  apply Z.div_pos; [|lia].
  assert (0 < 2 ^ (ex - ey - div_exponent (Z.pos mx) ex (Z.pos my) ey))%Z
    by pow2_pos.
  lia.
Qed.

(** A positive finite number divided by a negative finite number is
    negative, or the negative zero when the quotient underflows. *)
Lemma quotient_negative (a b : float) :
  (0 <? a) = true -> (b <? 0) = true ->
  is_finite a = true -> is_finite b = true ->
  negative (a / b).
Proof.
  intros Ha Hb Fa Fb.
  rewrite is_finite_spec in Fa, Fb.
  apply positive_spec in Ha. apply negative_arg_spec in Hb.
  destruct Ha as [Ha|(ma & ea & Ha)]; [rewrite Ha in Fa; discriminate|].
  destruct Hb as [Hb|(mb & eb & Hb)]; [rewrite Hb in Fb; discriminate|].
  pose proof (SFdiv_sign false true ma mb ea eb) as Hs.
  pose proof (div_spec a b) as Hd. rewrite Ha, Hb in Hd.
  unfold negative. rewrite FloatAxioms.ltb_spec, Prim2SF_zero, Hd.
  destruct (SF64div _ _) as [s|s| |s m e]; cbn in Hs; try contradiction; subst s.
  - right. apply Prim2SF_inj. rewrite Hd. reflexivity.
  - left. reflexivity.
  - left. reflexivity.
Qed.

(** Dividing by zero never gives a finite number. *)
Lemma division_by_zero (a b : float) :
  is_zero b = true -> is_finite (a / b) = false.
Proof.
  intros Hb. apply is_zero_spec in Hb as [s Hb].
  rewrite is_finite_spec, div_spec, Hb.
  destruct (Prim2SF a) as [sa|sa| |sa ma ea]; reflexivity.
Qed.

(** ** A tie *)

Lemma tie_difference (x y : float) :
  (x =? y) = true -> is_finite y = true -> is_zero (x - y) = true.
Proof.
  rewrite FloatAxioms.eqb_spec, is_finite_spec. intros He Hf.
  destruct (SFsub_equal _ _ He Hf) as [s Hs].
  apply is_zero_spec. exists s. now rewrite sub_spec.
Qed.

Lemma eqb_not_ltb (x y : float) : (x =? y) = true -> (x <? y) = false.
Proof.
  rewrite FloatAxioms.eqb_spec, FloatAxioms.ltb_spec. unfold SFeqb, SFltb.
  destruct (SFcompare _ _) as [[| |]|]; congruence.
Qed.

(** ** Mole counts and the excess *)

Lemma moles_nonneg (a b : float) :
  (0 <? a) = true -> (0 <? b) = true -> is_nan (a / b) = false ->
  has_sign false (Prim2SF (a / b)).
Proof.
  intros Ha Hb Hn.
  assert (Hn' : Prim2SF (a / b) <> S754_nan).
  { intros E. apply is_nan_spec in E. congruence. }
  apply positive_spec in Ha, Hb. rewrite div_spec in Hn' |- *.
  destruct Ha as [Ha|(ma & ea & Ha)]; destruct Hb as [Hb|(mb & eb & Hb)];
    rewrite Ha, Hb in Hn' |- *.
  - now contradiction Hn'.
  - reflexivity.
  - reflexivity.
  - apply (SFdiv_sign false false).
Qed.

Lemma has_sign_SF2Z (x : spec_float) : has_sign false x -> (0 <= SF2Z x)%Z.
Proof.
  destruct x as [s|s| |s m e]; cbn [SF2Z has_sign]; try lia.
  intros ->. cbn [cond_Zopp].
  apply Z.mul_nonneg_nonneg; [lia|]. apply Z.pow_nonneg. lia.
Qed.

Lemma half_finite (x : spec_float) :
  valid_binary x = true -> SFfinite x = true -> has_sign false x ->
  SFfinite (SF64div x SFtwo) = true
  /\ (2 * SF2Z (SF64div x SFtwo) <= SF2Z x + 1)%Z.
Proof.
  intros V F S. destruct x as [s|s| |s m e]; try discriminate.
  - cbn. split; [reflexivity|lia].
  - cbn in S. subst s.
    destruct (SFdiv_two false m e V) as (h & H0 & Hh & Hf & Hv).
    split; [assumption|]. rewrite Hv. cbn [cond_Zopp SF2Z]. lia.
Qed.

(** The excess reported by the limiting-reagent step is not negative when
    the two mole counts are non-negative and [m] is finite. *)
Lemma excess_nonneg (z m : float) :
  has_sign false (Prim2SF z) -> has_sign false (Prim2SF m) ->
  is_finite m = true ->
  (0 <=? (if m <? z * 2 then z - m / 2 else m - z * 2)) = true.
Proof.
  intros Sz Sm Fm. rewrite is_finite_spec in Fm.
  pose proof (Prim2SF_valid z) as Vz. pose proof (Prim2SF_valid m) as Vm.
  pose proof (Prim2SF_valid (z * 2)) as Vr.
  pose proof (Prim2SF_valid (m / 2)) as Vh.
  rewrite mul_spec, Prim2SF_two in Vr. rewrite div_spec, Prim2SF_two in Vh.
  destruct (half_finite _ Vm Fm Sm) as [Fh Hh].
  pose proof (has_sign_SF2Z _ Sm) as Hm0.
  destruct (m <? z * 2) eqn:C;
    rewrite FloatAxioms.ltb_spec, mul_spec, Prim2SF_two in C;
    rewrite FloatAxioms.leb_spec, Prim2SF_zero, sub_spec.
  - (* MnO2 is limiting *)
    rewrite div_spec, Prim2SF_two.
    destruct (Prim2SF z) as [sz|sz| |sz mz ez] eqn:Ez; cbn in Sz; try contradiction;
      subst sz.
    + exfalso. unfold SFltb in C.
      destruct (Prim2SF m) as [s|s| |s mm em]; try discriminate;
        cbn in Sm; subst s; discriminate.
    + destruct (SF64div (Prim2SF m) SFtwo) as [s|s| |s mh eh]; try discriminate;
        reflexivity.
    + apply SFsub_nonneg; try assumption; try reflexivity.
      destruct (SFmul_two false mz ez Vz) as [[Hr He]|(m' & e' & Hr & Hv)];
        rewrite Hr in C, Vr.
      * destruct (valid_pos_bounds _ _ _ Vz) as [_ Hlo].
        specialize (Hlo ltac:(lia)). subst ez.
        assert (SF2Z (Prim2SF m) < 2 ^ 53 * 2 ^ (971 + 1074))%Z.
        { destruct (Prim2SF m) as [s|s| |s mm em]; try discriminate.
          - cbn. lia.
          - cbn in Sm. subst s. cbn [SF2Z cond_Zopp].
            destruct (valid_finite _ _ _ Vm) as (Hem & _).
            destruct (valid_pos_bounds _ _ _ Vm) as [Hhi _].
            assert (2 ^ (em + 1074) <= 2 ^ (971 + 1074))%Z
              by (apply Z.pow_le_mono_r; lia).
            assert (0 < 2 ^ (em + 1074))%Z by pow2_pos.
            nia. }
        cbn [SF2Z cond_Zopp].
        assert (0 < 2 ^ (971 + 1074))%Z by pow2_pos.
        change (2 ^ 53)%Z with (2 * 2 ^ 52)%Z in *. nia.
      * unfold SFltb in C.
        rewrite (SFcompare_SF2Z _ _ Vm Vr Fm eq_refl) in C.
        destruct (Z.compare_spec (SF2Z (Prim2SF m)) (SF2Z (S754_finite false m' e')));
          try discriminate.
        cbn [SF2Z cond_Zopp] in *. lia.
  - (* Zn is limiting *)
    rewrite mul_spec, Prim2SF_two.
    destruct (Prim2SF z) as [sz|sz| |sz mz ez] eqn:Ez; cbn in Sz; try contradiction;
      subst sz.
    + destruct (Prim2SF m) as [s|s| |s mm em]; try discriminate;
        cbn in Sm; subst s; reflexivity.
    + exfalso. unfold SFltb in C.
      destruct (Prim2SF m) as [s|s| |s mm em]; try discriminate.
    + destruct (SFmul_two false mz ez Vz) as [[Hr He]|(m' & e' & Hr & Hv)];
        rewrite Hr in C, Vr |- *.
      * exfalso. unfold SFltb in C.
        destruct (Prim2SF m) as [s|s| |s mm em]; try discriminate.
      * apply SFsub_nonneg; try assumption; try reflexivity.
        unfold SFltb in C.
        rewrite (SFcompare_SF2Z _ _ Vm Vr Fm eq_refl) in C.
        destruct (Z.compare_spec (SF2Z (Prim2SF m)) (SF2Z (S754_finite false m' e')));
          try discriminate; lia.
Qed.

(** ** Dividing by 3600 and multiplying back *)

Lemma is_normal_spec (x : float) :
  is_normal x = true ->
  exists s m e, Prim2SF x = S754_finite s m e /\ (2 ^ 52 <= Zpos m)%Z.
Proof.
  unfold is_normal. rewrite classify_spec. unfold SF64classify, SFclassify.
  destruct (Prim2SF x) as [[|]|[|]| |s m e]; try discriminate.
  intros H. exists s, m, e. split; [reflexivity|].
  assert (Hd : Zdigits2 (Zpos m) = 53%Z).
  { cbn [Zdigits2]. destruct s;
      destruct (Z.eqb_spec (Z.pos (digits2_pos m)) prec); try discriminate;
      assumption. }
  pose proof (Zdigits2_bounds (Zpos m) ltac:(lia)) as [Hlo _].
  now rewrite Hd in Hlo.
Qed.

Lemma Prim2SF_3600 : Prim2SF 3600 = S754_finite false 7916483719987200 (-41).
Proof. reflexivity. Qed.

(** Cancelling a power of two on both sides. *)
Lemma scale_le (a b k : Z) : (0 < k -> a * k <= b * k -> a <= b)%Z.
Proof. intros Hk H. nia. Qed.

Lemma scale_lt (a b k : Z) : (0 < k -> a * k < b * k -> a < b)%Z.
Proof. intros Hk H. nia. Qed.

Lemma round_trip_3600_Z (J : float) :
  is_normal (J / 3600) = true -> is_normal (J / 3600 * 3600) = true ->
  (1000000 * Z.abs (F2Z (J / 3600 * 3600) - F2Z J) <= Z.abs (F2Z J))%Z.
Proof.
  intros Ny Nz.
  apply is_normal_spec in Ny as (sy & my & ey & Ey & Hmy).
  apply is_normal_spec in Nz as (sz & mz & ez & Ez & Hmz).
  pose proof (Prim2SF_valid J) as Vx.
  pose proof (Prim2SF_valid (J / 3600)) as Vy.
  pose proof (Prim2SF_valid (J / 3600 * 3600)) as Vz.
  rewrite Ey in Vy. rewrite Ez in Vz.
  unfold F2Z. rewrite Ez.
  rewrite mul_spec, Ey, Prim2SF_3600 in Ez.
  rewrite div_spec, Prim2SF_3600 in Ey.
  destruct (Prim2SF J) as [sx|sx| |sx mx ex]; try discriminate.
  destruct (valid_finite _ _ _ Vx) as (Hex & _).
  destruct (valid_finite _ _ _ Vy) as (Hey & _).
  destruct (valid_finite _ _ _ Vz) as (Hez & _).
  apply SFdiv_finite_bound in Ey
    as (Hsy & j & t & Hj & Ht & Htj & _ & Hdlo & Hdhi).
  apply SFmul_finite_bound in Ez as (Hsz & Hle & _ & Hmlo & Hmhi).
  rewrite xorb_false_r in Hsy, Hsz. subst sy sz.
  change (Z.pos 7916483719987200) with (3600 * 2 ^ 41)%Z in *.
  cbn [SF2Z].
  set (A := (2 ^ (ex + 1074))%Z). set (B := (2 ^ (ey + 1074))%Z).
  set (C := (2 ^ (ez + 1074))%Z).
  assert (HA : (0 < A)%Z) by pow2_pos.
  assert (HB : (0 < B)%Z) by pow2_pos.
  assert (HC : (0 < C)%Z) by pow2_pos.
  (* the quotient *)
  assert (HK : (0 < 2 ^ j * 2 ^ 41)%Z)
    by (apply Z.mul_pos_pos; apply Z.pow_pos_nonneg; lia).
  assert (HTB : (2 ^ t * B = A * (2 ^ j * 2 ^ 41))%Z).
  { unfold A, B. rewrite <- !Z.pow_add_r by lia. f_equal. lia. }
  assert (HD1 : ((Z.pos my - 1) * B * 3600 <= Z.pos mx * A)%Z).
  { apply (scale_le _ _ (2 ^ j * 2 ^ 41)%Z HK).
    replace (Z.pos mx * A * (2 ^ j * 2 ^ 41))%Z with (Z.pos mx * 2 ^ t * B)%Z
      by (rewrite <- (Z.mul_assoc (Z.pos mx) (2 ^ t) B), HTB; ring).
    replace ((Z.pos my - 1) * B * 3600 * (2 ^ j * 2 ^ 41))%Z
      with ((Z.pos my - 1) * 2 ^ j * (3600 * 2 ^ 41) * B)%Z by ring.
    apply Z.mul_le_mono_nonneg_r; lia. }
  assert (HD2 : (Z.pos mx * A < (Z.pos my + 1) * B * 3600)%Z).
  { apply (scale_lt _ _ (2 ^ j * 2 ^ 41)%Z HK).
    replace (Z.pos mx * A * (2 ^ j * 2 ^ 41))%Z with (Z.pos mx * 2 ^ t * B)%Z
      by (rewrite <- (Z.mul_assoc (Z.pos mx) (2 ^ t) B), HTB; ring).
    replace ((Z.pos my + 1) * B * 3600 * (2 ^ j * 2 ^ 41))%Z
      with ((Z.pos my + 1) * 2 ^ j * (3600 * 2 ^ 41) * B)%Z by ring.
    apply Z.mul_lt_mono_pos_r; lia. }
  (* the product *)
  assert (HIB : (2 ^ (ez - (ey + -41)) * B = C * 2 ^ 41)%Z).
  { unfold B, C. rewrite <- !Z.pow_add_r by lia. f_equal. lia. }
  assert (HM1 : ((Z.pos mz - 1) * C <= Z.pos my * B * 3600)%Z).
  { apply (scale_le _ _ (2 ^ 41)%Z ltac:(lia)).
    replace ((Z.pos mz - 1) * C * 2 ^ 41)%Z
      with ((Z.pos mz - 1) * 2 ^ (ez - (ey + -41)) * B)%Z
      by (rewrite <- (Z.mul_assoc (Z.pos mz - 1) (2 ^ (ez - (ey + -41))) B), HIB; ring).
    replace (Z.pos my * B * 3600 * 2 ^ 41)%Z
      with (Z.pos my * (3600 * 2 ^ 41) * B)%Z by ring.
    apply Z.mul_le_mono_nonneg_r; lia. }
  assert (HM2 : (Z.pos my * B * 3600 < (Z.pos mz + 1) * C)%Z).
  { apply (scale_lt _ _ (2 ^ 41)%Z ltac:(lia)).
    replace ((Z.pos mz + 1) * C * 2 ^ 41)%Z
      with ((Z.pos mz + 1) * 2 ^ (ez - (ey + -41)) * B)%Z
      by (rewrite <- (Z.mul_assoc (Z.pos mz + 1) (2 ^ (ez - (ey + -41))) B), HIB; ring).
    replace (Z.pos my * B * 3600 * 2 ^ 41)%Z
      with (Z.pos my * (3600 * 2 ^ 41) * B)%Z by ring.
    apply Z.mul_lt_mono_pos_r; lia. }
  assert (HnY : (2 ^ 52 * B <= Z.pos my * B)%Z)
    by (apply Z.mul_le_mono_nonneg_r; lia).
  assert (HnZ : (2 ^ 52 * C <= Z.pos mz * C)%Z)
    by (apply Z.mul_le_mono_nonneg_r; lia).
  set (X := (Z.pos mx * A)%Z) in *. set (Y := (Z.pos my * B)%Z) in *.
  set (Z' := (Z.pos mz * C)%Z) in *.
  assert (HD1' : ((Y - B) * 3600 <= X)%Z) by (unfold Y; lia).
  assert (HD2' : (X < (Y + B) * 3600)%Z) by (unfold Y; lia).
  assert (HM1' : (Z' - C <= Y * 3600)%Z) by (unfold Z'; lia).
  assert (HM2' : (Y * 3600 < Z' + C)%Z) by (unfold Z'; lia).
  clearbody X Y Z'. clear HD1 HD2 HM1 HM2 HTB HIB.
  change (2 ^ 52)%Z with 4503599627370496%Z in *.
  destruct sx; cbn [cond_Zopp]; lia.
Qed.

Lemma Q_tolerance (a b : Z) (d : positive) :
  (1000000 * Z.abs (a - b) <= Z.abs b)%Z ->
  (Qabs (Qmake a d - Qmake b d) <= (1 # 1000000) * Qabs (Qmake b d))%Q.
Proof.
  intros H. unfold Qle, Qabs, Qminus, Qplus, Qopp, Qmult. cbn [Qnum Qden].
  rewrite !Pos2Z.inj_mul.
  replace (a * Z.pos d + - b * Z.pos d)%Z with ((a - b) * Z.pos d)%Z by ring.
  rewrite Z.abs_mul, (Z.abs_eq (Z.pos d)) by lia.
  nia.
Qed.

Lemma round_trip_zero (J : float) :
  is_zero J = true -> F2Z (J / 3600 * 3600) = 0%Z /\ F2Z J = 0%Z.
Proof.
  intros H. apply is_zero_spec in H as [s H]. unfold F2Z.
  rewrite mul_spec, div_spec, Prim2SF_3600, H. split; reflexivity.
Qed.

(** Dividing an energy by 3600 and multiplying back gives the energy
    again up to one part in a million as long as neither step leaves the
    range of the normal numbers. *)
Lemma round_trip_3600 (J : float) :
  is_normal (J / 3600) = true -> is_normal (J / 3600 * 3600) = true ->
  (Qabs (F2Q (J / 3600 * 3600) - F2Q J) <= (1 # 1000000) * Qabs (F2Q J))%Q.
Proof.
  intros Ny Nz. apply Q_tolerance. now apply round_trip_3600_Z.
Qed.


Lemma negative_truthy (x : float) : (x <? 0) = true -> JS.truthy x = true.
Proof.
  intros H. apply negative_arg_spec in H. unfold JS.truthy.
  destruct (is_zero x) eqn:Ez.
  - apply is_zero_spec in Ez as [s Ez].
    destruct H as [H|(m & e & H)]; congruence.
  - destruct (is_nan x) eqn:En; [|reflexivity].
    apply is_nan_spec in En.
    destruct H as [H|(m & e & H)]; congruence.
Qed.

(** ** When the excess is [NaN] *)

Lemma is_infinity_spec (x : float) :
  is_infinity x = true <-> exists s, Prim2SF x = S754_infinity s.
Proof.
  unfold is_infinity. rewrite FloatAxioms.eqb_spec, abs_spec.
  change (Prim2SF infinity) with (S754_infinity false).
  destruct (Prim2SF x) as [s|s| |s m e]; cbn; split; eauto;
    try discriminate; intros [? ?]; discriminate.
Qed.

(** A quotient of two positive numbers is [NaN] or has the sign bit
    clear. *)
Lemma moles_sign (a b : float) :
  (0 <? a) = true -> (0 <? b) = true ->
  Prim2SF (a / b) = S754_nan \/ has_sign false (Prim2SF (a / b)).
Proof.
  intros Ha Hb. destruct (is_nan (a / b)) eqn:N.
  - left. now apply is_nan_spec.
  - right. now apply moles_nonneg.
Qed.

(** The excess of two mole counts that are not negative is never
    negative: it is [>= 0] or [NaN], and [NaN] exactly when a mole count
    is [NaN] or [Infinity - Infinity] is formed. *)
Lemma excess_sign (z m : float) :
  Prim2SF z = S754_nan \/ has_sign false (Prim2SF z) ->
  Prim2SF m = S754_nan \/ has_sign false (Prim2SF m) ->
  let e := if m <? z * 2 then z - m / 2 else m - z * 2 in
  (is_nan e = false -> (0 <=? e) = true)
  /\ (is_nan e = true <->
      is_nan z = true \/ is_nan m = true
      \/ (is_infinity m = true /\ is_infinity (z * 2) = true)).
Proof.
  intros [Nz|Sz].
  { (* molesZn is NaN *)
    intros _. cbv zeta.
    assert (L : (m <? z * 2) = false).
    { rewrite FloatAxioms.ltb_spec, mul_spec, Nz. unfold SFltb.
      now destruct (Prim2SF m). }
    rewrite L.
    assert (E : is_nan (m - z * 2) = true).
    { apply is_nan_spec. rewrite sub_spec, mul_spec, Nz.
      now destruct (Prim2SF m). }
    rewrite E. split; [discriminate|]. split; [|reflexivity].
    intros _. left. now apply is_nan_spec. }
  intros [Nm|Sm].
  { (* molesMnO2 is NaN *)
    cbv zeta.
    assert (L : (m <? z * 2) = false)
      by now rewrite FloatAxioms.ltb_spec, Nm.
    rewrite L.
    assert (E : is_nan (m - z * 2) = true)
      by (apply is_nan_spec; now rewrite sub_spec, Nm).
    rewrite E. split; [discriminate|]. split; [|reflexivity].
    intros _. right. left. now apply is_nan_spec. }
  assert (NZ : is_nan z = false).
  { destruct (is_nan z) eqn:E; [|reflexivity]. apply is_nan_spec in E.
    rewrite E in Sz. contradiction. }
  assert (NM : is_nan m = false).
  { destruct (is_nan m) eqn:E; [|reflexivity]. apply is_nan_spec in E.
    rewrite E in Sm. contradiction. }
  destruct (is_finite m) eqn:Fm.
  - (* molesMnO2 is finite *)
    pose proof (excess_nonneg z m Sz Sm Fm) as He. cbv zeta.
    set (e := if m <? z * 2 then z - m / 2 else m - z * 2) in *.
    assert (Ne : is_nan e = false).
    { destruct (is_nan e) eqn:E; [|reflexivity]. apply is_nan_spec in E.
      rewrite FloatAxioms.leb_spec, E in He. discriminate. }
    split; [intros _; exact He|]. rewrite Ne, NZ, NM. split; [discriminate|].
    intros [?|[?|[Im _]]]; try discriminate.
    unfold is_finite in Fm. rewrite Im, orb_true_r in Fm. discriminate.
  - (* molesMnO2 is Infinity *)
    assert (Em : Prim2SF m = S754_infinity false).
    { rewrite is_finite_spec in Fm.
      destruct (Prim2SF m) as [s|s| |s mm em]; try discriminate;
        cbn in Sm; [now subst s|contradiction]. }
    assert (Im : is_infinity m = true) by (apply is_infinity_spec; eauto).
    cbv zeta.
    assert (Sr : has_sign false (Prim2SF (z * 2))).
    { rewrite mul_spec, Prim2SF_two.
      pose proof (Prim2SF_valid z) as Vz.
      destruct (Prim2SF z) as [s|s| |s mz ez]; cbn in Sz; try contradiction;
        subst s; try reflexivity.
      destruct (SFmul_two false mz ez Vz) as [[-> _]|(m' & e' & -> & _)];
        reflexivity. }
    assert (L : (m <? z * 2) = false).
    { rewrite FloatAxioms.ltb_spec, Em. unfold SFltb.
      destruct (Prim2SF (z * 2)) as [s|s| |s mr er]; cbn in Sr |- *;
        try contradiction; subst; reflexivity. }
    rewrite L, Im, NZ, NM.
    destruct (is_infinity (z * 2)) eqn:Ir.
    + assert (E : is_nan (m - z * 2) = true).
      { apply is_infinity_spec in Ir as [s Er]. apply is_nan_spec.
        rewrite sub_spec, Em, Er. rewrite Er in Sr. cbn in Sr. now subst s. }
      rewrite E. split; [discriminate|]. split; auto.
    + assert (E : Prim2SF (m - z * 2) = S754_infinity false).
      { rewrite sub_spec, Em.
        destruct (Prim2SF (z * 2)) as [s|s| |s mr er] eqn:Er;
          try reflexivity; try contradiction.
        assert (is_infinity (z * 2) = true) by (apply is_infinity_spec; eauto).
        congruence. }
      assert (Ne : is_nan (m - z * 2) = false).
      { destruct (is_nan (m - z * 2)) eqn:N; [|reflexivity].
        apply is_nan_spec in N. congruence. }
      rewrite Ne. split.
      * intros _. now rewrite FloatAxioms.leb_spec, Prim2SF_zero, E.
      * split; [discriminate|].
        intros [?|[?|[_ ?]]]; discriminate.
Qed.
End Float64Facts.

(* ================================================================== *)
(** * Properties of the stoichiometry calculator *)
(* ================================================================== *)

Module ChemistryProps.
Import ChemistryCalculator ChemistrySpec.

Section WithFormat.
Context {fmt : NumberFormat}.

(** [calculate] keeps the seven parameter fields of the calculator. *)
Lemma chem_calculate_fields (now : string) (this : t) :
  let this' := fst (calculate now this) in
  molarMassZn this' = molarMassZn this
  /\ molarMassMnO2 this' = molarMassMnO2 this
  /\ electronsPerReaction this' = electronsPerReaction this
  /\ cellVoltage this' = cellVoltage this
  /\ massZn this' = massZn this
  /\ massMnO2 this' = massMnO2 this
  /\ resistance this' = resistance this.
Proof.
  unfold calculate.
  destruct (_ <? _); destruct (hasLoad _); cbn; repeat split.
Qed.

Lemma chem_calculate_stores (now : string) (this : t) :
  results (fst (calculate now this)) = Some (snd (calculate now this)).
Proof.
  unfold calculate.
  destruct (_ <? _); destruct (hasLoad _); reflexivity.
Qed.

(** [calculate] reads nothing but the seven parameter fields. *)
Lemma chem_calculate_reads (now : string) (this that : t) :
  molarMassZn this = molarMassZn that ->
  molarMassMnO2 this = molarMassMnO2 that ->
  electronsPerReaction this = electronsPerReaction that ->
  cellVoltage this = cellVoltage that ->
  massZn this = massZn that ->
  massMnO2 this = massMnO2 that ->
  resistance this = resistance that ->
  calculate now this = calculate now that.
Proof.
  intros H1 H2 H3 H4 H5 H6 H7. unfold calculate.
  now rewrite H1, H2, H3, H4, H5, H6, H7.
Qed.

(** The timestamp is the only place where the clock enters. *)
Lemma chem_calculate_clock (now later : string) (this : t) :
  snd (calculate later this) = withTimestamp later (snd (calculate now this))
  /\ workSteps (fst (calculate later this)) = workSteps (fst (calculate now this)).
Proof.
  unfold calculate.
  destruct (_ <? _); destruct (hasLoad _); split; reflexivity.
Qed.

Lemma chem_calculate_twice (now later : string) (this : t) :
  snd (calculate later (fst (calculate now this)))
  = withTimestamp later (snd (calculate now this))
  /\ workSteps (fst (calculate later (fst (calculate now this))))
     = workSteps (fst (calculate now this)).
Proof.
  destruct (chem_calculate_fields now this) as (H1 & H2 & H3 & H4 & H5 & H6 & H7).
  rewrite (chem_calculate_reads later _ this) by assumption.
  apply chem_calculate_clock.
Qed.

(** The numeric fields, one by one. *)
Lemma molesZn_eq now this :
  molesZn (snd (calculate now this)) = massZn this / molarMassZn this.
Proof. unfold calculate. destruct (_ <? _); destruct (hasLoad _); reflexivity. Qed.

Lemma molesMnO2_eq now this :
  molesMnO2 (snd (calculate now this)) = massMnO2 this / molarMassMnO2 this.
Proof. unfold calculate. destruct (_ <? _); destruct (hasLoad _); reflexivity. Qed.

Lemma limiting_branch now this :
  let r := snd (calculate now this) in
  let z := massZn this / molarMassZn this in
  let m := massMnO2 this / molarMassMnO2 this in
  if m <? z * 2 then
    limitingReagent r = MnO2 /\ excessReagent r = Zn
    /\ molesReacting r = m / 2 /\ excessMoles r = z - m / 2
  else
    limitingReagent r = Zn /\ excessReagent r = MnO2
    /\ molesReacting r = z /\ excessMoles r = m - z * 2.
Proof.
  unfold calculate. cbv zeta.
  unfold CHEMISTRY_CONSTANTS.STOICH.MNO2.
  destruct (_ <? _) eqn:E; destruct (hasLoad _); cbn; repeat split.
Qed.

Lemma energy_chain now this :
  let r := snd (calculate now this) in
  totalElectrons r = electronsPerReaction this * molesReacting r
  /\ chargeQ r = totalElectrons r * 96485
  /\ energyJ r = cellVoltage this * chargeQ r
  /\ energyWh r = energyJ r / 3600.
Proof.
  unfold calculate. destruct (_ <? _); destruct (hasLoad _); cbn; repeat split.
Qed.

Lemma runtime_fields now this :
  let r := snd (calculate now this) in
  match hasLoad (resistance this) with
  | Some R =>
      current r = Some (cellVoltage this / R)
      /\ runtimeHours r
         = Some (energyWh r / (cellVoltage this * (cellVoltage this / R)))
      /\ runtimeMinutes r
         = Some (energyWh r / (cellVoltage this * (cellVoltage this / R)) * 60)
  | None => current r = None /\ runtimeHours r = None /\ runtimeMinutes r = None
  end.
Proof.
  unfold calculate. destruct (_ <? _); destruct (hasLoad _); cbn; repeat split.
Qed.

Lemma chem_calculate_without_load now this :
  hasLoad (resistance this) = None ->
  snd (calculate now this)
  = withResistanceEcho (resistance this)
      (snd (calculate now (setResistance None this)))
  /\ workSteps (fst (calculate now this))
     = workSteps (fst (calculate now (setResistance None this))).
Proof.
  intros H. unfold calculate. cbn [setResistance molarMassZn molarMassMnO2
    electronsPerReaction cellVoltage massZn massMnO2 resistance].
  rewrite H. cbn [hasLoad].
  destruct (_ <? _); split; reflexivity.
Qed.

End WithFormat.
End ChemistryProps.

(* ================================================================== *)
(** * Properties of the magnetic-field calculator *)
(* ================================================================== *)

Module FieldProps.
Import MagneticFieldCalculator FieldSpec.

Section WithFormat.
Context {fmt : NumberFormat}.

(** The permeability lookup only reads the [material] field. *)
Lemma getMu_r_material (this : t) :
  getMu_r this
  = JS.or_else (lookupValue (material this) PHYSICS_CONSTANTS.PERMEABILITY) 1.
Proof. reflexivity. Qed.

Lemma lookupValue_unknown (m : string) :
  m <> "air"%string -> m <> "ferrite"%string -> m <> "steel"%string ->
  lookupValue m PHYSICS_CONSTANTS.PERMEABILITY = None.
Proof.
  intros Ha Hf Hs. cbn.
  apply String.eqb_neq in Ha, Hf, Hs. now rewrite Ha, Hf, Hs.
Qed.

(** What [calculate] returns on each arm of the [switch]. *)
Lemma calculate_straight_wire (now : string) (this : t) :
  conductorType this = "straight-wire"%string ->
  Result.B (snd (calculate now this))
  = (PHYSICS_CONSTANTS.MU_0 * current this) / (2 * JS.PI * distance this).
Proof.
  intros H. unfold calculate. cbn [setWorkSteps conductorType].
  rewrite H. reflexivity.
Qed.

Lemma calculate_single_loop (now : string) (this : t) :
  conductorType this = "single-loop"%string ->
  Result.B (snd (calculate now this))
  = (PHYSICS_CONSTANTS.MU_0 * getMu_r this * turns this * current this)
    / (2 * radius this).
Proof.
  intros H. unfold calculate. cbn [setWorkSteps conductorType].
  rewrite H. reflexivity.
Qed.

Lemma calculate_default_arm (now : string) (this : t) :
  conductorType this <> "straight-wire"%string ->
  conductorType this <> "single-loop"%string ->
  calculate now this
  = let '(th, b) :=
      calculateSolenoid PHYSICS_CONSTANTS.MU_0 (getMu_r this) (setWorkSteps [] this) in
    let res :=
      {| Result.B := b; Result.B_mT := b * 1000; Result.B_uT := b * 1e6;
         Result.formula := "B = μ₀ × μᵣ × N × I / L";
         Result.description :=
           "Magnetic field inside a solenoid (center approximation)";
         Result.conductorType := conductorType this;
         Result.inputs :=
           {| Inputs.current := current this; Inputs.turns := turns this;
              Inputs.radius := radius this; Inputs.length := length this;
              Inputs.distance := distance this; Inputs.material := material this;
              Inputs.mu_r := getMu_r this |};
         Result.constants :=
           {| Constants.mu_0 := PHYSICS_CONSTANTS.MU_0;
              Constants.mu := PHYSICS_CONSTANTS.MU_0 * getMu_r this |};
         Result.timestamp := now |} in
    (setResults res th, res).
Proof.
  intros Hw Hl. apply String.eqb_neq in Hw, Hl.
  unfold calculate. cbn [setWorkSteps conductorType].
  rewrite Hw, Hl. reflexivity.
Qed.

Lemma calculate_solenoid_B (now : string) (this : t) :
  conductorType this <> "straight-wire"%string ->
  conductorType this <> "single-loop"%string ->
  Result.B (snd (calculate now this))
  = (PHYSICS_CONSTANTS.MU_0 * getMu_r this * turns this * current this)
    / length this.
Proof. intros Hw Hl. now rewrite calculate_default_arm. Qed.

Lemma calculate_solenoid_density (now : string) (this : t) :
  conductorType this <> "straight-wire"%string ->
  conductorType this <> "single-loop"%string ->
  exists step,
    stepTitled "Turns density (n)" (workSteps (fst (calculate now this))) = Some step
    /\ In (turnsDensityLine this) (calculations step).
Proof.
  intros Hw Hl. rewrite calculate_default_arm by assumption.
  eexists. split; [reflexivity|]. left. reflexivity.
Qed.


(** [calculate] reads nothing but the seven parameter fields: the work
    steps are reset first and the stored result is overwritten. *)
Lemma field_calculate_reads (now : string) (this that : t) :
  conductorType this = conductorType that ->
  current this = current that ->
  turns this = turns that ->
  radius this = radius that ->
  length this = length that ->
  distance this = distance that ->
  material this = material that ->
  snd (calculate now this) = snd (calculate now that)
  /\ workSteps (fst (calculate now this)) = workSteps (fst (calculate now that)).
Proof.
  destruct this, that. cbn [conductorType current turns radius length distance material].
  intros -> -> -> -> -> -> ->.
  unfold calculate. cbn [setWorkSteps conductorType].
  destruct (String.eqb _ _); [|destruct (String.eqb _ _)]; split; reflexivity.
Qed.

Lemma field_calculate_fields (now : string) (this : t) :
  let this' := fst (calculate now this) in
  conductorType this' = conductorType this
  /\ current this' = current this
  /\ turns this' = turns this
  /\ radius this' = radius this
  /\ length this' = length this
  /\ distance this' = distance this
  /\ material this' = material this
  /\ results this' = Some (snd (calculate now this)).
Proof.
  unfold calculate.
  destruct (String.eqb _ _); [|destruct (String.eqb _ _)]; cbn; repeat split.
Qed.

Lemma field_calculate_clock (now later : string) (this : t) :
  snd (calculate later this) = withTimestamp later (snd (calculate now this))
  /\ workSteps (fst (calculate later this)) = workSteps (fst (calculate now this)).
Proof.
  unfold calculate.
  destruct (String.eqb _ _); [|destruct (String.eqb _ _)]; split; reflexivity.
Qed.

Lemma field_calculate_twice (now later : string) (this : t) :
  snd (calculate later (fst (calculate now this)))
  = withTimestamp later (snd (calculate now this))
  /\ workSteps (fst (calculate later (fst (calculate now this))))
     = workSteps (fst (calculate now this)).
Proof.
  destruct (field_calculate_fields now this) as (H1 & H2 & H3 & H4 & H5 & H6 & H7 & _).
  destruct (field_calculate_reads later _ this H1 H2 H3 H4 H5 H6 H7) as [-> ->].
  apply field_calculate_clock.
Qed.
End WithFormat.
End FieldProps.

(* ================================================================== *)
(** * The stoichiometry engine *)
(* ================================================================== *)

Module ChemistryClaims.
Import Binary64 Float64 Float64Facts.
Import ChemistryCalculator ChemistrySpec ChemistryProps ChemistryExamples.

(** C1 (amended).  The limiting-reagent step of [calculate], for every
    calculator (in particular for positive molar masses): with
    [requiredMnO2ForZn = molesZn * 2], if [molesMnO2 < requiredMnO2ForZn]
    then MnO₂ is limiting, [molesReacting = molesMnO2 / 2] and the excess
    of Zn is [molesZn - molesMnO2 / 2]; otherwise Zn is limiting,
    [molesReacting = molesZn] and the excess of MnO₂ is
    [molesMnO2 - molesZn * 2].  An exact tie
    [molesMnO2 == requiredMnO2ForZn] takes the second branch, and the
    excess is then zero provided [molesMnO2] is finite. *)
Theorem limiting_reagent_step `{NumberFormat} (now : string) (this : t) :
  let r := snd (calculate now this) in
  let requiredMnO2ForZn := molesZn r * 2 in
  ((molesMnO2 r <? requiredMnO2ForZn) = true ->
     limitingReagent r = MnO2 /\ excessReagent r = Zn
     /\ molesReacting r = molesMnO2 r / 2
     /\ excessMoles r = molesZn r - molesMnO2 r / 2)
  /\ ((molesMnO2 r <? requiredMnO2ForZn) = false ->
     limitingReagent r = Zn /\ excessReagent r = MnO2
     /\ molesReacting r = molesZn r
     /\ excessMoles r = molesMnO2 r - molesZn r * 2)
  /\ ((molesMnO2 r =? requiredMnO2ForZn) = true ->
     limitingReagent r = Zn /\ excessReagent r = MnO2
     /\ molesReacting r = molesZn r
     /\ (is_finite (molesMnO2 r) = true -> is_zero (excessMoles r) = true)).
Proof.
  cbv zeta. pose proof (limiting_branch now this) as Hb. cbv zeta in Hb.
  rewrite molesZn_eq, molesMnO2_eq.
  set (z := massZn this / molarMassZn this) in *.
  set (m := massMnO2 this / molarMassMnO2 this) in *.
  split; [|split].
  - intros C. now rewrite C in Hb.
  - intros C. now rewrite C in Hb.
  - intros E. pose proof (eqb_not_ltb _ _ E) as C. rewrite C in Hb.
    destruct Hb as (H1 & H2 & H3 & H4). repeat split; try assumption.
    intros F. rewrite H4. apply tie_difference; [assumption|].
    (* [z * 2] is finite because it compares equal to the finite [m] *)
    rewrite FloatAxioms.eqb_spec in E. rewrite is_finite_spec in F |- *.
    unfold SFeqb in E.
    destruct (Prim2SF m) as [s|s| |s mm em]; try discriminate;
      destruct (Prim2SF (z * 2)) as [s'|s'| |s' m' e']; try reflexivity;
      cbn in E; try discriminate; destruct s; try discriminate;
      destruct s'; discriminate.
Qed.

(** On a tie of one mole of zinc against two moles of manganese dioxide
    zinc is limiting and nothing is left over. *)
Lemma limiting_reagent_step_witness :
  let r := snd (@calculate blankFormat EmptyString tie) in
  (molesMnO2 r =? molesZn r * 2) = true
  /\ limitingReagent r = Zn /\ is_zero (excessMoles r) = true.
Proof.
  destruct (@limiting_reagent_step blankFormat EmptyString tie) as (_ & _ & Ht).
  assert (E : (molesMnO2 (snd (@calculate blankFormat EmptyString tie))
               =? molesZn (snd (@calculate blankFormat EmptyString tie)) * 2) = true)
    by (vm_compute; reflexivity).
  destruct (Ht E) as (Hl & _ & _ & Hz).
  split; [exact E|]. split; [exact Hl|]. apply Hz. vm_compute. reflexivity.
Defined.

(** C1 as stated fails: with masses of [1e308] and molar masses of [0.5]
    both mole counts are [Infinity], the tie is taken (Zn limiting), and
    the excess is [Infinity - Infinity = NaN], not zero. *)
Lemma tie_excess_overflow :
  let r := snd (@calculate blankFormat EmptyString overflowing) in
  (0 <? molarMassZn overflowing) = true
  /\ (0 <? molarMassMnO2 overflowing) = true
  /\ (molesMnO2 r =? molesZn r * 2) = true
  /\ limitingReagent r = Zn
  /\ is_zero (excessMoles r) = false
  /\ is_nan (excessMoles r) = true.
Proof. vm_compute. repeat split. Qed.

(** C2 (amended).  For positive masses and positive molar masses the
    result reports exactly one of Zn and MnO₂ as limiting and the other
    one as in excess, and the excess is never negative: it is [>= 0]
    unless it is [NaN], and it is [NaN] exactly when [molesZn] or
    [molesMnO2] is [NaN], or [molesMnO2] and [molesZn * 2] are both
    infinite. *)
Theorem one_limiting_excess_nonneg `{NumberFormat} (now : string) (this : t) :
  (0 <? massZn this) = true -> (0 <? massMnO2 this) = true ->
  (0 <? molarMassZn this) = true -> (0 <? molarMassMnO2 this) = true ->
  let r := snd (calculate now this) in
  ((limitingReagent r = Zn /\ excessReagent r = MnO2)
   \/ (limitingReagent r = MnO2 /\ excessReagent r = Zn))
  /\ (is_nan (excessMoles r) = false -> (0 <=? excessMoles r) = true)
  /\ (is_nan (excessMoles r) = true <->
      is_nan (molesZn r) = true \/ is_nan (molesMnO2 r) = true
      \/ (is_infinity (molesMnO2 r) = true
          /\ is_infinity (molesZn r * 2) = true)).
Proof.
  intros HmZ HmM HMZ HMM. cbv zeta.
  pose proof (limiting_branch now this) as Hb. cbv zeta in Hb.
  rewrite molesZn_eq, molesMnO2_eq.
  set (z := massZn this / molarMassZn this) in *.
  set (m := massMnO2 this / molarMassMnO2 this) in *.
  split.
  - destruct (m <? z * 2); destruct Hb as (-> & -> & _); auto.
  - pose proof (excess_sign z m (moles_sign _ _ HmZ HMZ) (moles_sign _ _ HmM HMM))
      as He. cbv zeta in He.
    destruct (m <? z * 2); destruct Hb as (_ & _ & _ & ->); exact He.
Qed.

(** On Preset A, MnO₂ or Zn is limiting and the excess is not negative;
    with [1e308] g of MnO₂ at [0.5] g/mol beside one gram of zinc the
    MnO₂ count is [Infinity] and so is the excess, which is not
    negative either. *)
Lemma one_limiting_excess_nonneg_witness :
  (let r := snd (@calculate blankFormat EmptyString
                   (constructor (CHEMISTRY_PRESETS.options CHEMISTRY_PRESETS.A))) in
   ((limitingReagent r = Zn /\ excessReagent r = MnO2)
    \/ (limitingReagent r = MnO2 /\ excessReagent r = Zn))
   /\ (0 <=? excessMoles r) = true)
  /\ (let r := snd (@calculate blankFormat EmptyString abundantMnO2) in
      is_infinity (molesMnO2 r) = true /\ (0 <=? excessMoles r) = true).
Proof.
  split.
  - destruct (@one_limiting_excess_nonneg blankFormat EmptyString
                (constructor (CHEMISTRY_PRESETS.options CHEMISTRY_PRESETS.A)))
      as (Hone & Hex & _); try (vm_compute; reflexivity).
    split; [exact Hone|]. apply Hex; vm_compute; reflexivity.
  - destruct (@one_limiting_excess_nonneg blankFormat EmptyString abundantMnO2)
      as (_ & Hex & _); try (vm_compute; reflexivity).
    split; [vm_compute; reflexivity|]. apply Hex; vm_compute; reflexivity.
Defined.

(** C2 as stated fails: all four inputs of [overflowing] are positive,
    and the reported excess is NaN, for which [0 <= excess] is false. *)
Lemma excess_nan_on_overflow :
  let r := snd (@calculate blankFormat EmptyString overflowing) in
  (0 <? massZn overflowing) = true /\ (0 <? massMnO2 overflowing) = true
  /\ (0 <? molarMassZn overflowing) = true
  /\ (0 <? molarMassMnO2 overflowing) = true
  /\ (0 <=? excessMoles r) = false.
Proof. vm_compute. repeat split. Qed.

(** C3 (amended).  [calculate] computes
    [totalElectrons = electronsPerReaction * molesReacting],
    [chargeQ = totalElectrons * 96485], [energyJ = cellVoltage * chargeQ]
    and [energyWh = energyJ / 3600], each in binary64 arithmetic; and
    [energyWh * 3600] equals [energyJ] within a relative [1e-6] whenever
    [energyJ] is zero, or [energyWh] and [energyWh * 3600] are normal
    numbers (the division does not underflow and the product does not
    overflow). *)
Theorem energy_chain_round_trip `{NumberFormat} (now : string) (this : t) :
  let r := snd (calculate now this) in
  totalElectrons r = electronsPerReaction this * molesReacting r
  /\ chargeQ r = totalElectrons r * 96485
  /\ energyJ r = cellVoltage this * chargeQ r
  /\ energyWh r = energyJ r / 3600
  /\ (is_zero (energyJ r) = true
      \/ (is_normal (energyWh r) = true /\ is_normal (energyWh r * 3600) = true) ->
      (Qabs (F2Q (energyWh r * 3600) - F2Q (energyJ r))
       <= (1 # 1000000) * Qabs (F2Q (energyJ r)))%Q).
Proof.
  cbv zeta. destruct (energy_chain now this) as (H1 & H2 & H3 & H4).
  repeat split; try assumption.
  rewrite H4. intros [Hz|[Ny Nz]].
  - destruct (round_trip_zero _ Hz) as [E1 E2].
    apply Q_tolerance.
    fold (F2Z (energyJ (snd (calculate now this)) / 3600 * 3600)).
    fold (F2Z (energyJ (snd (calculate now this)))). rewrite E1, E2. cbn. lia.
  - now apply round_trip_3600.
Qed.

(** On Preset A the watt-hours times 3600 are the joules within [1e-6]. *)
Lemma energy_chain_round_trip_witness :
  let r := snd (@calculate blankFormat EmptyString
                  (constructor (CHEMISTRY_PRESETS.options CHEMISTRY_PRESETS.A))) in
  (Qabs (F2Q (energyWh r * 3600) - F2Q (energyJ r))
   <= (1 # 1000000) * Qabs (F2Q (energyJ r)))%Q.
Proof.
  apply (@energy_chain_round_trip blankFormat).
  right. split; vm_compute; reflexivity.
Defined.

(** C3 as stated fails: with a cell voltage of [5e-324] the energy in
    joules is a subnormal number, the division by 3600 rounds it to the
    least positive number, and multiplying back misses the joules by more
    than half of their value. *)
Lemma energy_round_trip_underflow :
  let r := snd (@calculate blankFormat EmptyString (constructor faintCell)) in
  energyWh r = energyJ r / 3600
  /\ is_finite (energyJ r) = true
  /\ ((1 # 2) * Qabs (F2Q (energyJ r))
      < Qabs (F2Q (energyWh r * 3600) - F2Q (energyJ r)))%Q.
Proof. vm_compute. repeat split. Qed.

(** C5 (amended).  On Preset A (1.0 g Zn, 2.0 g MnO₂, defaults otherwise)
    [calculate] returns molesZn ≈ 0.015295, molesMnO2 ≈ 0.023005,
    limiting reagent MnO₂, charge ≈ 2219.68 C and energy ≈ 0.9249 Wh; on
    Preset B (10.0 g Zn, 100.0 g MnO₂) it returns limiting reagent Zn,
    charge ≈ 29515 C and energy ≈ 12.30 Wh; each figure is within half a
    unit of its last quoted decimal. *)
Theorem preset_results `{NumberFormat} (now : string) :
  let a :=
    snd (calculate now (constructor (CHEMISTRY_PRESETS.options CHEMISTRY_PRESETS.A))) in
  let b :=
    snd (calculate now (constructor (CHEMISTRY_PRESETS.options CHEMISTRY_PRESETS.B))) in
  approx (molesZn a) 0.015295 0.0000005
  /\ approx (molesMnO2 a) 0.023005 0.0000005
  /\ limitingReagent a = MnO2
  /\ approx (chargeQ a) 2219.68 0.005
  /\ approx (energyWh a) 0.9249 0.00005
  /\ limitingReagent b = Zn
  /\ approx (chargeQ b) 29515 0.5
  /\ approx (energyWh b) 12.30 0.005.
Proof.
  cbv zeta. unfold approx.
  repeat split; unfold Qle; vm_compute; discriminate.
Qed.

(** C5 as stated fails: on Preset A the mole count of MnO₂ is not 0.023006
    to six decimals, the charge is more than 0.9 C away from 2220.6 C and
    the energy more than 0.0004 Wh away from 0.9253 Wh; on Preset B the
    charge is more than 6.8 C away from 29522 C. *)
Lemma preset_numbers_off :
  let a := snd (@calculate blankFormat EmptyString
                  (constructor (CHEMISTRY_PRESETS.options CHEMISTRY_PRESETS.A))) in
  let b := snd (@calculate blankFormat EmptyString
                  (constructor (CHEMISTRY_PRESETS.options CHEMISTRY_PRESETS.B))) in
  ~ approx (molesMnO2 a) 0.023006 0.0000005
  /\ ~ approx (chargeQ a) 2220.6 0.9
  /\ ~ approx (energyWh a) 0.9253 0.0004
  /\ ~ approx (chargeQ b) 29522 6.8.
Proof.
  cbv zeta. unfold approx.
  repeat split; apply Qlt_not_le; unfold Qlt; vm_compute; reflexivity.
Qed.

(** C6.  When [resistance] is supplied and [> 0] the result has
    [current = cellVoltage / resistance],
    [runtimeHours = energyWh / (cellVoltage * current)] and
    [runtimeMinutes = runtimeHours * 60]; when it is absent or [<= 0] the
    three fields are [null], and the result and the work steps are those
    computed without a resistance (the echo of the input [resistance] in
    [inputs] apart). *)
Theorem load_resistance_fields `{NumberFormat} (now : string) (this : t) :
  let r := snd (calculate now this) in
  (forall R, resistance this = Some R -> (0 <? R) = true ->
     current r = Some (cellVoltage this / R)
     /\ runtimeHours r
        = Some (energyWh r / (cellVoltage this * (cellVoltage this / R)))
     /\ runtimeMinutes r
        = Some (energyWh r / (cellVoltage this * (cellVoltage this / R)) * 60))
  /\ (resistance this = None
      \/ (exists R, resistance this = Some R /\ (R <=? 0) = true) ->
      current r = None /\ runtimeHours r = None /\ runtimeMinutes r = None
      /\ r = withResistanceEcho (resistance this)
               (snd (calculate now (setResistance None this)))
      /\ workSteps (fst (calculate now this))
         = workSteps (fst (calculate now (setResistance None this)))).
Proof.
  cbv zeta. pose proof (runtime_fields now this) as Hr. cbv zeta in Hr. split.
  - intros R HR Hpos. rewrite HR in Hr. cbn [hasLoad] in Hr.
    rewrite (positive_truthy R Hpos), Hpos in Hr. exact Hr.
  - intros Hno.
    assert (Hl : hasLoad (resistance this) = None).
    { destruct Hno as [->|(R & -> & Hle)]; [reflexivity|].
      cbn [hasLoad]. rewrite (nonpositive_not_positive R Hle), andb_false_r.
      reflexivity. }
    rewrite Hl in Hr. destruct Hr as (H1 & H2 & H3).
    destruct (chem_calculate_without_load now this Hl) as [H4 H5].
    repeat split; assumption.
Qed.

(** A load of 10 ohms at 1.5 V draws 0.15 A; a resistance of -5 leaves
    the three fields [null]. *)
Lemma load_resistance_fields_witness :
  current (snd (@calculate blankFormat EmptyString loaded)) = Some (1.5 / 10)
  /\ current (snd (@calculate blankFormat EmptyString shorted)) = None
  /\ runtimeHours (snd (@calculate blankFormat EmptyString shorted)) = None
  /\ runtimeMinutes (snd (@calculate blankFormat EmptyString shorted)) = None.
Proof.
  destruct (@load_resistance_fields blankFormat EmptyString loaded) as [Hon _].
  destruct (@load_resistance_fields blankFormat EmptyString shorted) as [_ Hoff].
  destruct (Hon 10 eq_refl eq_refl) as (Hc & _).
  destruct Hoff as (H1 & H2 & H3 & _).
  { right. exists (-5). split; reflexivity. }
  repeat split; assumption.
Defined.

(** C8 (amended).  The constructor replaces a molar mass of zero by the
    default (65.38 for Zn, 86.936 for MnO₂) and keeps a negative one as it
    is; [calculate] validates nothing and divides the mass by whatever
    molar mass the calculator holds: a negative finite molar mass under a
    positive finite mass gives a negative mole count (the negative zero
    if the quotient underflows), and a calculator whose molar-mass field
    is zero gives a mole count that is not finite. *)
Theorem molar_mass_guard `{NumberFormat} (now : string) :
  (forall o M, Options.molarMassZn o = Some M -> is_zero M = true ->
     molarMassZn (constructor o) = CHEMISTRY_CONSTANTS.MOLAR_MASS_ZN)
  /\ (forall o M, Options.molarMassMnO2 o = Some M -> is_zero M = true ->
     molarMassMnO2 (constructor o) = CHEMISTRY_CONSTANTS.MOLAR_MASS_MNO2)
  /\ (forall o M, Options.molarMassZn o = Some M -> (M <? 0) = true ->
     molarMassZn (constructor o) = M)
  /\ (forall o M, Options.molarMassMnO2 o = Some M -> (M <? 0) = true ->
     molarMassMnO2 (constructor o) = M)
  /\ (forall this,
       let r := snd (calculate now this) in
       molesZn r = massZn this / molarMassZn this
       /\ molesMnO2 r = massMnO2 this / molarMassMnO2 this
       /\ ((0 <? massZn this) = true -> is_finite (massZn this) = true ->
           (molarMassZn this <? 0) = true -> is_finite (molarMassZn this) = true ->
           negative (molesZn r))
       /\ ((0 <? massMnO2 this) = true -> is_finite (massMnO2 this) = true ->
           (molarMassMnO2 this <? 0) = true ->
           is_finite (molarMassMnO2 this) = true ->
           negative (molesMnO2 r))
       /\ (is_zero (molarMassZn this) = true -> is_finite (molesZn r) = false)
       /\ (is_zero (molarMassMnO2 this) = true ->
           is_finite (molesMnO2 r) = false)).
Proof.
  repeat split.
  - intros o M HM Hz. unfold constructor. cbn [molarMassZn]. rewrite HM.
    unfold JS.or_else, JS.truthy. now rewrite Hz.
  - intros o M HM Hz. unfold constructor. cbn [molarMassMnO2]. rewrite HM.
    unfold JS.or_else, JS.truthy. now rewrite Hz.
  - intros o M HM Hn. unfold constructor. cbn [molarMassZn]. rewrite HM.
    unfold JS.or_else. now rewrite (negative_truthy M Hn).
  - intros o M HM Hn. unfold constructor. cbn [molarMassMnO2]. rewrite HM.
    unfold JS.or_else. now rewrite (negative_truthy M Hn).
  - apply molesZn_eq.
  - apply molesMnO2_eq.
  - rewrite molesZn_eq. intros. now apply quotient_negative.
  - rewrite molesMnO2_eq. intros. now apply quotient_negative.
  - rewrite molesZn_eq. intros. now apply division_by_zero.
  - rewrite molesMnO2_eq. intros. now apply division_by_zero.
Qed.

(** A molar mass of zero becomes 65.38, one of -65.38 stays, and one gram
    of zinc is then a negative number of moles. *)
Lemma molar_mass_guard_witness :
  molarMassZn (constructor zeroMolarMass) = 65.38
  /\ molarMassZn (constructor negativeMolarMass) = -65.38
  /\ negative (molesZn (snd (@calculate blankFormat EmptyString
                              (constructor negativeMolarMass)))).
Proof.
  destruct (@molar_mass_guard blankFormat EmptyString)
    as (Hzero & _ & Hneg & _ & Hcalc).
  split; [exact (Hzero zeroMolarMass 0 eq_refl eq_refl)|].
  split; [exact (Hneg negativeMolarMass (-65.38) eq_refl eq_refl)|].
  destruct (Hcalc (constructor negativeMolarMass)) as (_ & _ & Hq & _).
  apply Hq; vm_compute; reflexivity.
Defined.

(** C8 as stated fails: a ReactionInput whose two molar masses are zero
    yields the finite, positive mole counts of the default molar masses;
    no division by zero takes place. *)
Lemma zero_molar_mass_defaulted :
  let r := snd (@calculate blankFormat EmptyString (constructor zeroMolarMass)) in
  Options.molarMassZn zeroMolarMass = Some 0
  /\ Options.molarMassMnO2 zeroMolarMass = Some 0
  /\ molesZn r = 1 / 65.38 /\ molesMnO2 r = 2 / 86.936
  /\ is_finite (molesZn r) = true /\ is_finite (molesMnO2 r) = true
  /\ (0 <? molesZn r) = true /\ (0 <? molesMnO2 r) = true.
Proof. vm_compute. repeat split. Qed.

End ChemistryClaims.

(* ================================================================== *)
(** * The magnetic-field engine *)
(* ================================================================== *)

Module FieldClaims.
Import MagneticFieldCalculator FieldSpec FieldProps FieldExamples.

(** C4.  [calculate] returns [B] by the formula its [conductorType]
    selects: a straight wire gives [B = µ0·I / (2π·distance)] with
    [µ0 = 4π×10⁻⁷], whatever the material; a single loop gives
    [B = µ0·µr·N·I / (2·radius)]; a solenoid gives [B = µ0·µr·N·I / length]
    and reports the turns density [N / length] in its work steps; [µr] is
    1 for air, 2000 for ferrite and 4000 for steel. *)
Theorem field_formula_by_conductor_type `{NumberFormat} (now : string) (this : t) :
  let r := snd (calculate now this) in
  PHYSICS_CONSTANTS.MU_0 = 4 * JS.PI * 1e-7
  /\ (conductorType this = "straight-wire"%string ->
      Result.B r
      = (PHYSICS_CONSTANTS.MU_0 * current this) / (2 * JS.PI * distance this)
      /\ forall m : string,
          Result.B (snd (calculate now (setMaterial m this))) = Result.B r)
  /\ (conductorType this = "single-loop"%string ->
      Result.B r
      = (PHYSICS_CONSTANTS.MU_0 * getMu_r this * turns this * current this)
        / (2 * radius this))
  /\ (conductorType this = "solenoid"%string ->
      Result.B r
      = (PHYSICS_CONSTANTS.MU_0 * getMu_r this * turns this * current this)
        / length this
      /\ exists step,
          stepTitled "Turns density (n)" (workSteps (fst (calculate now this)))
          = Some step
          /\ In (turnsDensityLine this) (calculations step))
  /\ (material this = "air"%string -> getMu_r this = 1)
  /\ (material this = "ferrite"%string -> getMu_r this = 2000)
  /\ (material this = "steel"%string -> getMu_r this = 4000).
Proof.
  cbv zeta. split; [reflexivity|]. split; [|split; [|split]].
  - intros Hw. split; [now apply calculate_straight_wire|].
    intros m. now rewrite !calculate_straight_wire.
  - intros Hl. now apply calculate_single_loop.
  - intros Hs. split.
    + apply calculate_solenoid_B; rewrite Hs; discriminate.
    + apply calculate_solenoid_density; rewrite Hs; discriminate.
  - rewrite getMu_r_material.
    repeat split; intros ->; reflexivity.
Qed.

(** The solenoid of the scenario (200 turns, 2 A, 5 cm, air) has
    [B = 0.01005... T]; the wire and the coil follow their formulas. *)
Lemma field_formula_by_conductor_type_witness :
  Result.B (snd (@calculate blankFormat EmptyString solenoidDemo))
  = 0.010053096491487338
  /\ Result.B (snd (@calculate blankFormat EmptyString wireDemo))
     = (PHYSICS_CONSTANTS.MU_0 * 2) / (2 * JS.PI * 0.01)
  /\ Result.B (snd (@calculate blankFormat EmptyString coilDemo))
     = (PHYSICS_CONSTANTS.MU_0 * 2000 * 30 * 1) / (2 * 0.012)
  /\ getMu_r solenoidDemo = 1 /\ getMu_r coilDemo = 2000 /\ getMu_r wireDemo = 4000.
Proof.
  destruct (@field_formula_by_conductor_type blankFormat EmptyString solenoidDemo)
    as (_ & _ & _ & Hs & Ha & _ & _).
  destruct (@field_formula_by_conductor_type blankFormat EmptyString wireDemo)
    as (_ & Hw & _ & _ & _ & _ & Hst).
  destruct (@field_formula_by_conductor_type blankFormat EmptyString coilDemo)
    as (_ & _ & Hl & _ & _ & Hf & _).
  destruct (Hs eq_refl) as [HB _]. destruct (Hw eq_refl) as [HW _].
  split; [exact HB|]. split; [exact HW|]. split; [exact (Hl eq_refl)|].
  split; [exact (Ha eq_refl)|]. split; [exact (Hf eq_refl)|exact (Hst eq_refl)].
Defined.

(** C7.  A [conductorType] other than the three recognized ones is no
    error: [calculate] returns the result of the solenoid formula
    [B = µ0·µr·N·I / length], with the solenoid's formula text. *)
Theorem unrecognized_type_is_solenoid `{NumberFormat} (now : string) (this : t) :
  conductorType this <> "straight-wire"%string ->
  conductorType this <> "single-loop"%string ->
  conductorType this <> "solenoid"%string ->
  let r := snd (calculate now this) in
  Result.B r
  = (PHYSICS_CONSTANTS.MU_0 * getMu_r this * turns this * current this)
    / length this
  /\ Result.B_mT r = Result.B r * 1000 /\ Result.B_uT r = Result.B r * 1e6
  /\ Result.formula r = "B = μ₀ × μᵣ × N × I / L"%string
  /\ Result.description r
     = "Magnetic field inside a solenoid (center approximation)"%string
  /\ Result.conductorType r = conductorType this.
Proof.
  intros Hw Hl _. cbv zeta. rewrite calculate_default_arm by assumption.
  repeat split.
Qed.

(** A "toroid" gets the field of the solenoid with the same parameters. *)
Lemma unrecognized_type_is_solenoid_witness :
  Result.B (snd (@calculate blankFormat EmptyString toroidDemo))
  = Result.B (snd (@calculate blankFormat EmptyString solenoidDemo))
  /\ Result.formula (snd (@calculate blankFormat EmptyString toroidDemo))
     = "B = μ₀ × μᵣ × N × I / L"%string.
Proof.
  destruct (@unrecognized_type_is_solenoid blankFormat EmptyString toroidDemo)
    as (HB & _ & _ & Hf & _); try discriminate.
  split; [rewrite HB; reflexivity|exact Hf].
Defined.

(** C10.  For a [material] other than air, ferrite and steel, [getMu_r]
    returns 1, the value of air, and [calculate] gives the field it gives
    for air. *)
Theorem unknown_material_is_air `{NumberFormat} (now : string) (this : t) :
  material this <> "air"%string ->
  material this <> "ferrite"%string ->
  material this <> "steel"%string ->
  getMu_r this = 1
  /\ Inputs.mu_r (Result.inputs (snd (calculate now this))) = 1
  /\ Result.B (snd (calculate now this))
     = Result.B (snd (calculate now (setMaterial "air" this))).
Proof.
  intros Ha Hf Hs.
  assert (Hmu : getMu_r this = 1).
  { rewrite getMu_r_material, lookupValue_unknown by assumption. reflexivity. }
  assert (Hair : getMu_r (setMaterial "air" this) = 1) by reflexivity.
  split; [assumption|]. split.
  - rewrite <- Hmu. unfold calculate.
    destruct (String.eqb _ _); [|destruct (String.eqb _ _)]; reflexivity.
  - destruct (string_dec (conductorType this) "straight-wire") as [Ew|Nw].
    + now rewrite !calculate_straight_wire.
    + destruct (string_dec (conductorType this) "single-loop") as [El|Nl].
      * rewrite !calculate_single_loop by assumption. now rewrite Hmu, Hair.
      * rewrite !calculate_solenoid_B by assumption. now rewrite Hmu, Hair.
Qed.

(** A copper core counts as air. *)
Lemma unknown_material_is_air_witness :
  getMu_r copperDemo = 1
  /\ Result.B (snd (@calculate blankFormat EmptyString copperDemo))
     = Result.B (snd (@calculate blankFormat EmptyString solenoidDemo)).
Proof.
  destruct (@unknown_material_is_air blankFormat EmptyString copperDemo)
    as (Hmu & _ & HB); try discriminate.
  split; [exact Hmu|exact HB].
Defined.

End FieldClaims.

(* ================================================================== *)
(** * Both engines *)
(* ================================================================== *)

(** C9.  Both engines are deterministic and idempotent: a second
    [calculate] on the same calculator returns the record of the first, the
    wall-clock [timestamp] apart, and leaves the same list of work steps;
    nothing the first call stored has an effect on the second. *)
Theorem calculate_idempotent `{NumberFormat} (now later : string)
        (chem : ChemistryCalculator.t) (field : MagneticFieldCalculator.t) :
  (snd (ChemistryCalculator.calculate later
          (fst (ChemistryCalculator.calculate now chem)))
   = ChemistrySpec.withTimestamp later
       (snd (ChemistryCalculator.calculate now chem))
   /\ ChemistryCalculator.workSteps
        (fst (ChemistryCalculator.calculate later
                (fst (ChemistryCalculator.calculate now chem))))
      = ChemistryCalculator.workSteps
          (fst (ChemistryCalculator.calculate now chem)))
  /\ (snd (MagneticFieldCalculator.calculate later
             (fst (MagneticFieldCalculator.calculate now field)))
      = FieldSpec.withTimestamp later
          (snd (MagneticFieldCalculator.calculate now field))
      /\ MagneticFieldCalculator.workSteps
           (fst (MagneticFieldCalculator.calculate later
                   (fst (MagneticFieldCalculator.calculate now field))))
         = MagneticFieldCalculator.workSteps
             (fst (MagneticFieldCalculator.calculate now field))).
Proof.
  split.
  - apply ChemistryProps.chem_calculate_twice.
  - apply FieldProps.field_calculate_twice.
Qed.

(* ================================================================== *)
(** * The guards of the constructors and the links *)
(* ================================================================== *)

Module HostFacts.
Import Binary64 Float64 Binary64Facts Float64Facts.

(** ** The [||] operator *)

Lemma or_else_truthy (x : option float) (d : float) :
  JS.truthy d = true -> JS.truthy (JS.or_else x d) = true.
Proof.
  intros Hd. destruct x as [v|]; cbn; [|exact Hd].
  destruct (JS.truthy v) eqn:E; assumption.
Qed.

Lemma or_else_zero (x : option float) :
  JS.or_else x 0 = 0 \/ JS.truthy (JS.or_else x 0) = true.
Proof.
  destruct x as [v|]; cbn; [|now left].
  destruct (JS.truthy v) eqn:E; [now right|now left].
Qed.

Lemma or_null_truthy (x : option float) :
  JS.or_null x = None
  \/ exists r, JS.or_null x = Some r /\ JS.truthy r = true.
Proof.
  destruct x as [v|]; cbn; [|now left].
  destruct (JS.truthy v) eqn:E; [right; eauto|now left].
Qed.

Lemma or_else_again (x : option float) (d : float) :
  JS.or_else (Some (JS.or_else x d)) d = JS.or_else x d.
Proof.
  destruct x as [v|]; cbn.
  - destruct (JS.truthy v) eqn:E; [now rewrite E|].
    now destruct (JS.truthy d).
  - now destruct (JS.truthy d).
Qed.

Lemma or_null_again (x : option float) :
  JS.or_null (JS.or_null x) = JS.or_null x.
Proof.
  destruct x as [v|]; cbn; [|reflexivity].
  destruct (JS.truthy v) eqn:E; cbn; [now rewrite E|reflexivity].
Qed.

Lemma or_else_keeps (v d : float) :
  JS.truthy v = true -> JS.or_else (Some v) d = v.
Proof. intros H. cbn. now rewrite H. Qed.

Lemma or_null_keeps (v : float) :
  JS.truthy v = true -> JS.or_null (Some v) = Some v.
Proof. intros H. cbn. now rewrite H. Qed.

Lemma truthy_spec (x : float) :
  JS.truthy x = true <->
  (exists s, Prim2SF x = S754_infinity s)
  \/ exists s m e, Prim2SF x = S754_finite s m e.
Proof.
  unfold JS.truthy. split.
  - intros H. apply negb_true_iff, orb_false_iff in H as [Hz Hn].
    destruct (Prim2SF x) as [s|s| |s m e] eqn:E; eauto.
    + assert (is_zero x = true) by (apply is_zero_spec; eauto). congruence.
    + assert (is_nan x = true) by (now apply is_nan_spec). congruence.
  - intros H. apply negb_true_iff, orb_false_iff. split.
    + destruct (is_zero x) eqn:Ez; [|reflexivity].
      apply is_zero_spec in Ez as [s Ez].
      destruct H as [[? H]|(? & ? & ? & H)]; congruence.
    + destruct (is_nan x) eqn:En; [|reflexivity].
      apply is_nan_spec in En.
      destruct H as [[? H]|(? & ? & ? & H)]; congruence.
Qed.

(** A finite number divided by a number that is neither zero nor [NaN]
    is a number. *)
Lemma quotient_is_number (a b : float) :
  is_finite a = true -> JS.truthy b = true -> is_nan (a / b) = false.
Proof.
  intros Fa Tb. rewrite is_finite_spec in Fa. apply truthy_spec in Tb.
  destruct (is_nan (a / b)) eqn:En; [|reflexivity].
  apply is_nan_spec in En. rewrite div_spec in En.
  destruct (Prim2SF a) as [sa|sa| |sa ma ea]; try discriminate;
    destruct Tb as [[sb Hb]|(sb & mb & eb & Hb)]; rewrite Hb in En;
    try discriminate.
  pose proof (SFdiv_sign sa sb ma mb ea eb) as Hs.
  rewrite En in Hs. contradiction.
Qed.

End HostFacts.

Module ChemistryEngine.
Import Binary64 Float64 Float64Facts HostFacts.
Import ChemistryCalculator ChemistrySpec ChemistryProps ChemistryLinks.

Lemma constructor_guarded (options : Options.t) : guarded (constructor options).
Proof.
  unfold guarded, constructor; cbn.
  repeat split; try (apply or_else_truthy; reflexivity); try apply or_else_zero.
  destruct (or_null_truthy (Options.resistance options)) as [->|(r & -> & Hr)];
    [exact I|exact Hr].
Qed.

Lemma guarded_mass_finite (m : float) :
  is_infinity m = false -> (m = 0 \/ JS.truthy m = true) -> is_finite m = true.
Proof.
  intros Hi [->|Ht]; [reflexivity|].
  unfold JS.truthy in Ht. apply negb_true_iff, orb_false_iff in Ht as [_ Hn].
  unfold is_finite. now rewrite Hn, Hi.
Qed.

Lemma or_else_not_infinite (x : option float) :
  (forall m, x = Some m -> is_infinity m = false) ->
  is_infinity (JS.or_else x 0) = false.
Proof.
  intros H. destruct x as [v|]; cbn; [|reflexivity].
  destruct (JS.truthy v); [now apply H|reflexivity].
Qed.

Section WithFormat.
Context {fmt : NumberFormat}.

(** X2.  After the constructor, a mass that is not an infinity never gives
    a mole count that is [NaN]: a missing, zero or [NaN] mass has become
    [0], and the molar mass is neither zero nor [NaN]. *)
Theorem constructed_moles_are_numbers (now : string) (options : Options.t) :
  (forall m, Options.massZn options = Some m -> is_infinity m = false) ->
  (forall m, Options.massMnO2 options = Some m -> is_infinity m = false) ->
  let r := snd (calculate now (constructor options)) in
  is_nan (molesZn r) = false /\ is_nan (molesMnO2 r) = false.
Proof.
  intros Hz Hm r. subst r. rewrite molesZn_eq, molesMnO2_eq.
  destruct (constructor_guarded options) as (TZ & TM & _ & _ & MZ & MM & _).
  split; apply quotient_is_number; try assumption.
  - apply guarded_mass_finite; [|exact MZ]. now apply or_else_not_infinite.
  - apply guarded_mass_finite; [|exact MM]. now apply or_else_not_infinite.
Qed.

(** X3.  [getWorkSteps()] after [calculate()] has the five steps of the
    derivation in their order, followed by the current-and-runtime step
    exactly when the resistance is a load ([resistance && resistance > 0]). *)
Theorem chem_work_step_titles (now : string) (this : t) :
  map title (getWorkSteps (fst (calculate now this)))
  = [ "Convert mass to moles"; "Identify limiting reagent";
      "Calculate electrons transferred"; "Calculate total charge";
      "Calculate theoretical energy" ]%string
    ++ match hasLoad (resistance this) with
       | Some _ => [ "Estimate current and runtime (approximation)"%string ]
       | None => []
       end.
Proof.
  unfold getWorkSteps, calculate.
  destruct (_ <? _); destruct (hasLoad (resistance this)); reflexivity.
Qed.

(** X4.  The stoichiometric part of a result (mole counts, limiting and
    excess reagent, reacting and excess moles, product masses, electrons
    and charge) depends neither on the cell voltage nor on the resistance,
    nor on the time of the call. *)
Theorem charge_independent_of_cell (now later : string)
        (mZn mMnO2 MZn MMnO2 n V V' : float) (R R' : option float) :
  let r := snd (calculate now (make mZn mMnO2 MZn MMnO2 n V R)) in
  let r' := snd (calculate later (make mZn mMnO2 MZn MMnO2 n V' R')) in
  molesZn r' = molesZn r
  /\ molesMnO2 r' = molesMnO2 r
  /\ limitingReagent r' = limitingReagent r
  /\ excessReagent r' = excessReagent r
  /\ molesReacting r' = molesReacting r
  /\ excessMoles r' = excessMoles r
  /\ massZnO r' = massZnO r
  /\ massMn2O3 r' = massMn2O3 r
  /\ totalElectrons r' = totalElectrons r
  /\ chargeQ r' = chargeQ r.
Proof.
  cbn zeta. unfold calculate, make; cbn [massZn massMnO2 molarMassZn molarMassMnO2
    electronsPerReaction cellVoltage resistance].
  destruct (_ <? _); destruct (hasLoad R); destruct (hasLoad R');
    cbn; repeat split; reflexivity.
Qed.

End WithFormat.

Lemma constructed_moles_are_numbers_witness :
  let r := snd (@calculate blankFormat EmptyString
                  (constructor (CHEMISTRY_PRESETS.options CHEMISTRY_PRESETS.A))) in
  is_nan (molesZn r) = false /\ is_nan (molesMnO2 r) = false.
Proof.
  apply (@constructed_moles_are_numbers blankFormat EmptyString
           (CHEMISTRY_PRESETS.options CHEMISTRY_PRESETS.A)).
  - intros m [= <-]. reflexivity.
  - intros m [= <-]. reflexivity.
Defined.

End ChemistryEngine.

Module LinkFacts.
Import Binary64 Float64 Float64Facts HostFacts.

Lemma SFcompare_Eq_eq (x y : spec_float) :
  SFcompare x y = Some Eq -> SFfinite y = false \/ (exists s m e, y = S754_finite s m e) ->
  x = y.
Proof.
  intros He Hy.
  destruct x as [s1|s1| |s1 m1 e1], y as [s2|s2| |s2 m2 e2]; cbn in He;
    try discriminate;
    try (destruct Hy as [Hy|(? & ? & ? & Hy)]; discriminate);
    try (destruct s1; discriminate); try (destruct s2; discriminate).
  - destruct s1, s2; try discriminate; reflexivity.
  - destruct s1, s2; try discriminate;
      destruct (Z.compare_spec e1 e2); try discriminate; subst;
      injection He as He.
    + apply (f_equal CompOpp) in He. rewrite CompOpp_involutive in He. cbn in He.
      apply Pcompare_Eq_eq in He. now subst.
    + apply Pcompare_Eq_eq in He. now subst.
Qed.

(** [x === d] for a [d] that is neither zero nor [NaN] means that [x] is
    [d]. *)
Lemma eqb_truthy_eq (x d : float) :
  (x =? d) = true -> JS.truthy d = true -> x = d.
Proof.
  rewrite FloatAxioms.eqb_spec. intros He Hd. apply truthy_spec in Hd.
  apply Prim2SF_inj. unfold SFeqb in He.
  destruct (SFcompare (Prim2SF x) (Prim2SF d)) as [[| |]|] eqn:C; try discriminate.
  apply SFcompare_Eq_eq; [exact C|].
  destruct Hd as [[sd Hd]|(sd & md & ed & Hd)]; rewrite Hd; [now left|right; eauto].
Qed.

Lemma parseFloat_missing {prs : NumberParse} : parseFloat None = nan.
Proof. reflexivity. Qed.

(** ** Query strings and the objects made from them *)

Lemma get_absent (k : string) (q : URLSearchParams.t) :
  ~ In k (map fst q) -> URLSearchParams.get k q = None.
Proof.
  induction q as [|[k1 v1] rest IH]; cbn; [reflexivity|].
  intros H. destruct (String.eqb_spec k1 k) as [->|Hne].
  - exfalso. apply H. now left.
  - apply IH. intros Hin. apply H. now right.
Qed.

Lemma get_present (k : string) (q : URLSearchParams.t) :
  In k (map fst q) -> exists v, URLSearchParams.get k q = Some v.
Proof.
  induction q as [|[k1 v1] rest IH]; cbn; [contradiction|].
  intros [->|Hin].
  - rewrite String.eqb_refl. eauto.
  - destruct (String.eqb k1 k); eauto.
Qed.

Lemma prop_assign (k name value : string) (object : JSObject.t) :
  JSObject.prop k (JSObject.assign name value object)
  = if String.eqb name k then Some value else JSObject.prop k object.
Proof.
  induction object as [|[k1 v1] rest IH]; cbn.
  - reflexivity.
  - destruct (String.eqb_spec k1 name) as [->|Hne]; cbn.
    + destruct (String.eqb name k); reflexivity.
    + destruct (String.eqb_spec k1 k) as [->|Hk].
      * destruct (String.eqb_spec name k) as [->|_]; [congruence|reflexivity].
      * exact IH.
Qed.

Lemma prop_fold_assign (k : string) (q : URLSearchParams.t) (object : JSObject.t) :
  NoDup (map fst q) ->
  JSObject.prop k
    (fold_left (fun o kv => JSObject.assign (fst kv) (snd kv) o) q object)
  = match URLSearchParams.get k q with
    | Some v => Some v
    | None => JSObject.prop k object
    end.
Proof.
  revert object. induction q as [|[k1 v1] rest IH]; intros object Hnd.
  - reflexivity.
  - cbn in Hnd. inversion Hnd as [|? ? Hnot Hrest]; subst.
    cbn [fold_left URLSearchParams.get fst snd]. rewrite IH by assumption.
    rewrite prop_assign.
    destruct (String.eqb_spec k1 k) as [->|Hne].
    + now rewrite get_absent.
    + reflexivity.
Qed.

(** In a query string without a repeated name, the object made from it
    has the values [get] finds. *)
Lemma prop_fromEntries (k : string) (q : URLSearchParams.t) :
  NoDup (map fst q) ->
  JSObject.prop k (JSObject.fromEntries q) = URLSearchParams.get k q.
Proof.
  intros Hnd. unfold JSObject.fromEntries. rewrite prop_fold_assign by assumption.
  now destruct (URLSearchParams.get k q).
Qed.

Lemma delete_keys (name k : string) (q : URLSearchParams.t) :
  In k (map fst (URLSearchParams.delete name q)) <-> In k (map fst q) /\ k <> name.
Proof.
  unfold URLSearchParams.delete. induction q as [|[k1 v1] rest IH]; cbn.
  - tauto.
  - destruct (String.eqb_spec k1 name) as [->|Hne]; cbn; rewrite IH.
    + split; [tauto|]. intros [[<-|H] Hk]; [congruence|tauto].
    + split; [intros [<-|H]; tauto|tauto].
Qed.

Lemma delete_nodup (name : string) (q : URLSearchParams.t) :
  NoDup (map fst q) -> NoDup (map fst (URLSearchParams.delete name q)).
Proof.
  unfold URLSearchParams.delete. induction q as [|[k1 v1] rest IH]; cbn; intros Hnd.
  - constructor.
  - inversion Hnd as [|? ? Hnot Hrest]; subst.
    destruct (String.eqb k1 name); cbn; [now apply IH|].
    constructor; [|now apply IH].
    intros Hin. apply Hnot. now apply (delete_keys name k1 rest).
Qed.

Lemma set_keys (name value k : string) (q : URLSearchParams.t) :
  In k (map fst (URLSearchParams.set name value q)) <-> In k (map fst q) \/ k = name.
Proof.
  induction q as [|[k1 v1] rest IH]; cbn.
  - split; [intros [<-|[]]; now right|intros [[]| ->]; now left].
  - destruct (String.eqb_spec k1 name) as [->|Hne]; cbn.
    + rewrite delete_keys. split.
      * intros [<-|[H _]]; tauto.
      * intros [[<-|H]| ->]; try tauto.
        destruct (String.eqb_spec k name) as [->|Hk]; tauto.
    + rewrite IH. tauto.
Qed.

(** [set] keeps a query string free of repeated names. *)
Lemma set_nodup (name value : string) (q : URLSearchParams.t) :
  NoDup (map fst q) -> NoDup (map fst (URLSearchParams.set name value q)).
Proof.
  induction q as [|[k1 v1] rest IH]; cbn; intros Hnd.
  - constructor; [intros []|constructor].
  - inversion Hnd as [|? ? Hnot Hrest]; subst.
    destruct (String.eqb_spec k1 name) as [->|Hne]; cbn.
    + constructor; [|now apply delete_nodup].
      rewrite delete_keys. tauto.
    + constructor; [|now apply IH].
      rewrite set_keys. intros [H|H]; [tauto|congruence].
Qed.



End LinkFacts.

Module ChemistryLinkProps.
Import Binary64 Float64 Float64Facts HostFacts LinkFacts.
Import ChemistryCalculator ChemistrySpec ChemistryLinks.

Section WithHost.
Context {fmt : NumberFormat} {prs : NumberParse}.

(** X1.  However a calculator gets its parameters (from the constructor's
    options, from the parameters of a link, from the input elements of the
    page), the [||] guards leave them usable: molar masses, electrons and
    voltage are neither zero nor [NaN], a mass is [0] or neither zero nor
    [NaN], the resistance is [null] or neither zero nor [NaN]; a new
    calculator has no result and no work step. *)
Theorem chem_parameters_always_guarded :
  (forall options : Options.t,
     guarded (constructor options)
     /\ results (constructor options) = None
     /\ workSteps (constructor options) = [])
  /\ (forall params : JSObject.t,
        guarded (fromURLParams params)
        /\ results (fromURLParams params) = None
        /\ workSteps (fromURLParams params) = [])
  /\ (forall (inputs : ChemistryCalculatorUI.InputValues.t) (calculator : t),
        guarded (ChemistryCalculatorUI.readInputs inputs calculator)).
Proof.
  split; [|split].
  - intros options. split; [apply ChemistryEngine.constructor_guarded|].
    split; reflexivity.
  - intros params. unfold fromURLParams.
    split; [apply ChemistryEngine.constructor_guarded|]. split; reflexivity.
  - intros inputs calculator.
    unfold guarded, ChemistryCalculatorUI.readInputs;
      cbn [molarMassZn molarMassMnO2 electronsPerReaction cellVoltage massZn
           massMnO2 resistance].
    repeat split; try (apply or_else_truthy; reflexivity); try apply or_else_zero.
    match goal with |- match JS.or_null ?x with _ => _ end =>
      destruct (or_null_truthy x) as [->|(r & -> & Hr)]; [exact I|exact Hr] end.
Qed.

(** The pairs [toURLParams] writes. *)
Lemma chem_toURLParams_get (this : t) :
  let q := toURLParams this in
  URLSearchParams.get "massZn" q = Some (toString (massZn this))
  /\ URLSearchParams.get "massMnO2" q = Some (toString (massMnO2 this))
  /\ URLSearchParams.get "molarMassZn" q
     = (if molarMassZn this =? CHEMISTRY_CONSTANTS.MOLAR_MASS_ZN then None
        else Some (toString (molarMassZn this)))
  /\ URLSearchParams.get "molarMassMnO2" q
     = (if molarMassMnO2 this =? CHEMISTRY_CONSTANTS.MOLAR_MASS_MNO2 then None
        else Some (toString (molarMassMnO2 this)))
  /\ URLSearchParams.get "voltage" q
     = (if cellVoltage this =? CHEMISTRY_CONSTANTS.DEFAULT_VOLTAGE then None
        else Some (toString (cellVoltage this)))
  /\ URLSearchParams.get "electrons" q
     = (if electronsPerReaction this =? CHEMISTRY_CONSTANTS.DEFAULT_ELECTRONS then None
        else Some (toString (electronsPerReaction this)))
  /\ URLSearchParams.get "resistance" q
     = match resistance this with
       | Some r => if JS.truthy r then Some (toString r) else None
       | None => None
       end.
Proof.
  cbn zeta. unfold toURLParams.
  destruct (molarMassZn this =? _); destruct (molarMassMnO2 this =? _);
    destruct (cellVoltage this =? _); destruct (electronsPerReaction this =? _);
    destruct (resistance this) as [r|]; try destruct (JS.truthy r);
    repeat split; vm_compute; reflexivity.
Qed.

Lemma chem_toURLParams_nodup (this : t) : NoDup (map fst (toURLParams this)).
Proof.
  unfold toURLParams.
  destruct (negb _); destruct (negb _); destruct (negb _); destruct (negb _);
    destruct (resistance this) as [r|]; try destruct (JS.truthy r);
    repeat apply set_nodup; constructor.
Qed.

Lemma mass_read_back (m : float) :
  m = 0 \/ JS.truthy m = true -> parseFloatText (toString m) = m ->
  JS.or_else (Some (JS.or_else (Some (parseFloat (Some (toString m)))) 0)) 0 = m.
Proof.
  intros Hm Hp. rewrite or_else_again. cbn [parseFloat]. rewrite Hp.
  destruct Hm as [->|Hm]; [reflexivity|now apply or_else_keeps].
Qed.

Lemma setting_read_back (parsed x d : float) :
  JS.truthy x = true -> JS.truthy d = true -> parsed = x ->
  JS.or_else
    (Some (JS.or_else (Some (if x =? d then nan else parsed)) d)) d = x.
Proof.
  intros Hx Hd ->. rewrite or_else_again.
  destruct (x =? d) eqn:E.
  - apply eqb_truthy_eq in E; [|assumption]. subst x.
    cbn. reflexivity.
  - now apply or_else_keeps.
Qed.

Lemma parseFloat_if (c : bool) (s : string) :
  parseFloat (if c then None else Some s) = if c then nan else parseFloatText s.
Proof. now destruct c. Qed.

Lemma parseInt_if (c : bool) (s : string) :
  parseInt (if c then None else Some s) = if c then nan else parseIntText s.
Proof. now destruct c. Qed.

(** A [params] object with the texts [toURLParams] writes is read back
    as the calculator. *)
Lemma chem_link_read_back (this : t) (params : JSObject.t) :
  guarded this -> readsBack this ->
  (forall k, In k names ->
     JSObject.prop k params = URLSearchParams.get k (toURLParams this)) ->
  fromURLParams params = fresh this.
Proof.
  intros (TZ & TM & TE & TV & MZ & MM & TR) (PZ & PM & PMZ & PMM & PV & PE & PR) Hp.
  destruct (chem_toURLParams_get this) as (G1 & G2 & G3 & G4 & G5 & G6 & G7).
  unfold fromURLParams. rewrite !Hp by (cbn; auto 8).
  rewrite G1, G2, G3, G4, G5, G6, G7. rewrite !parseFloat_if, parseInt_if.
  unfold constructor, fresh, make; cbn [Options.massZn Options.massMnO2
    Options.molarMassZn Options.molarMassMnO2 Options.cellVoltage
    Options.electronsPerReaction Options.resistance].
  f_equal; try (now apply setting_read_back); try (now apply mass_read_back).
  rewrite or_null_again. destruct (resistance this) as [r|]; [|reflexivity].
  rewrite TR. cbn [parseFloat]. rewrite PR. now apply or_null_keeps.
Qed.

(** X5.  A link is read back as the calculator it was made from:
    [fromURLParams] on the parameters [toURLParams] wrote gives a new
    calculator with the same seven parameters, for every calculator with
    guarded parameters, on a host that reads back the numbers it prints
    ([parseInt] for the electrons). *)
Theorem chem_link_round_trip (this : t) :
  guarded this -> readsBack this ->
  fromURLParams (JSObject.fromEntries (toURLParams this)) = fresh this.
Proof.
  intros G R. apply chem_link_read_back; try assumption.
  intros k _. apply prop_fromEntries, chem_toURLParams_nodup.
Qed.

End WithHost.
End ChemistryLinkProps.

Module ChemistryLinkWitnesses.
Import ChemistryCalculator ChemistrySpec ChemistryLinks ChemistryLinkProps.

Lemma chem_link_round_trip_witness :
  @fromURLParams Numerals.parse
    (JSObject.fromEntries (@toURLParams Numerals.format ChemistryExamples.loaded))
  = fresh ChemistryExamples.loaded.
Proof.
  apply (@chem_link_round_trip Numerals.format Numerals.parse ChemistryExamples.loaded).
  - unfold guarded. cbn. repeat split; try reflexivity. right; reflexivity.
    right; reflexivity.
  - unfold readsBack. cbn. repeat split; reflexivity.
Defined.
End ChemistryLinkWitnesses.

Module FieldEngine.
Import HostFacts LinkFacts.
Import MagneticFieldCalculator FieldSpec FieldProps FieldLinks.

Lemma str_or_else_nonempty (x : option string) (d : string) :
  d <> EmptyString -> JS.str_or_else x d <> EmptyString.
Proof.
  intros Hd. destruct x as [[|c s]|]; cbn; try assumption. discriminate.
Qed.

Lemma str_or_else_keeps (s d : string) :
  s <> EmptyString -> JS.str_or_else (Some s) d = s.
Proof. destruct s; [congruence|reflexivity]. Qed.

Lemma str_or_else_again (x : option string) (d : string) :
  JS.str_or_else (Some (JS.str_or_else x d)) d = JS.str_or_else x d.
Proof.
  destruct x as [[|c s]|]; cbn; try reflexivity; now destruct d.
Qed.

Lemma field_constructor_guarded (options : Options.t) :
  guarded (constructor options).
Proof.
  unfold guarded, constructor; cbn.
  repeat split; try (apply or_else_truthy; reflexivity);
    apply str_or_else_nonempty; discriminate.
Qed.

Section WithFormat.
Context {fmt : NumberFormat}.

(** X12.  [getWorkSteps()] after [calculate()] has two steps for a
    straight wire, two for a single loop and three (the last one the turns
    density) for a solenoid or any other conductor type. *)
Theorem field_work_step_titles (now : string) (this : t) :
  map title (getWorkSteps (fst (calculate now this)))
  = if String.eqb (conductorType this) "straight-wire" then
      [ "Apply Biot-Savart law for straight wire"; "Direction (Right-Hand Rule)" ]%string
    else if String.eqb (conductorType this) "single-loop" then
      [ "Calculate field at center of circular coil";
        "Direction (Right-Hand Rule for Loops)" ]%string
    else
      [ "Apply solenoid formula"; "Solenoid field properties";
        "Turns density (n)" ]%string.
Proof.
  unfold getWorkSteps, calculate. cbn [setWorkSteps conductorType].
  destruct (String.eqb (conductorType this) "straight-wire");
    [reflexivity|].
  destruct (String.eqb (conductorType this) "single-loop"); reflexivity.
Qed.

(** ** [calculateAtDistances] *)

Lemma setDistance_fields (d : float) (this : t) :
  conductorType (setDistance d this) = conductorType this
  /\ current (setDistance d this) = current this
  /\ turns (setDistance d this) = turns this
  /\ radius (setDistance d this) = radius this
  /\ length (setDistance d this) = length this
  /\ distance (setDistance d this) = d
  /\ material (setDistance d this) = material this.
Proof. repeat split. Qed.

Lemma calculateAtDistancesFrom_cons (clock : nat -> string) (i : nat)
      (d : float) (rest : list float) (this : t) :
  calculateAtDistancesFrom clock i (d :: rest) this
  = let this2 := fst (calculate (clock i) (setDistance d this)) in
    let result := snd (calculate (clock i) (setDistance d this)) in
    (fst (calculateAtDistancesFrom clock (S i) rest this2),
     {| Sample.distance := d; Sample.B := Result.B result |}
       :: snd (calculateAtDistancesFrom clock (S i) rest this2)).
Proof.
  cbn [calculateAtDistancesFrom].
  destruct (calculate (clock i) (setDistance d this)) as [this2 result].
  cbn [fst snd].
  now destruct (calculateAtDistancesFrom clock (S i) rest this2).
Qed.

Lemma last_cons (d x : float) (rest : list float) :
  last (d :: rest) x = last rest d.
Proof.
  revert d x. induction rest as [|e rest IH]; intros d x; [reflexivity|].
  change (last (d :: e :: rest) x) with (last (e :: rest) x).
  now rewrite !IH.
Qed.

Lemma calculateAtDistancesFrom_shape (clock : nat -> string)
      (distances : list float) :
  forall (i : nat) (this : t),
    let this' := fst (calculateAtDistancesFrom clock i distances this) in
    let samples := snd (calculateAtDistancesFrom clock i distances this) in
    map Sample.distance samples = distances
    /\ distance this' = last distances (distance this)
    /\ conductorType this' = conductorType this
    /\ current this' = current this
    /\ turns this' = turns this
    /\ radius this' = radius this
    /\ length this' = length this
    /\ material this' = material this.
Proof.
  induction distances as [|d rest IH]; intros i this.
  - cbn. repeat split.
  - rewrite calculateAtDistancesFrom_cons. cbn zeta. cbn [fst snd map].
    specialize (IH (S i) (fst (calculate (clock i) (setDistance d this)))).
    cbn zeta in IH.
    destruct IH as (E0 & E1 & E2 & E3 & E4 & E5 & E6 & E7).
    destruct (field_calculate_fields (clock i) (setDistance d this))
      as (F1 & F2 & F3 & F4 & F5 & F6 & F7 & _).
    rewrite E0, E1, E2, E3, E4, E5, E6, E7, F1, F2, F3, F4, F5, F6, F7.
    cbn [setDistance conductorType current turns radius length distance material].
    rewrite last_cons. repeat split.
Qed.

(** X13.  [calculateAtDistances] returns one entry per distance, in
    order and with the distance it was given; it leaves the calculator at
    the last distance of the list (unchanged for an empty list) and changes
    no other parameter. *)
Theorem calculateAtDistances_shape (clock : nat -> string)
        (distances : list float) (this : t) :
  let this' := fst (calculateAtDistances clock distances this) in
  let samples := snd (calculateAtDistances clock distances this) in
  map Sample.distance samples = distances
  /\ distance this' = last distances (distance this)
  /\ conductorType this' = conductorType this
  /\ current this' = current this
  /\ turns this' = turns this
  /\ radius this' = radius this
  /\ length this' = length this
  /\ material this' = material this.
Proof. apply calculateAtDistancesFrom_shape. Qed.

Lemma calculateAtDistancesFrom_B (clock : nat -> string) (now : string)
      (distances : list float) :
  forall (i : nat) (this : t),
    map Sample.B (snd (calculateAtDistancesFrom clock i distances this))
    = map (fun d => Result.B (snd (calculate now (setDistance d this))))
          distances.
Proof.
  induction distances as [|d rest IH]; intros i this; [reflexivity|].
  rewrite calculateAtDistancesFrom_cons. cbn zeta. cbn [fst snd map].
  rewrite IH. f_equal.
  - destruct (field_calculate_clock now (clock i) (setDistance d this))
      as [-> _]. reflexivity.
  - apply map_ext. intros d'.
    destruct (field_calculate_fields (clock i) (setDistance d this))
      as (F1 & F2 & F3 & F4 & F5 & F6 & F7 & _).
    apply (f_equal Result.B).
    refine (proj1 (field_calculate_reads now _ _ _ _ _ _ _ _ _));
      cbn [setDistance conductorType current turns radius length distance
           material]; try assumption; reflexivity.
Qed.

(** X14.  For a straight wire, the entry for the distance [d] holds
    [B = mu_0 * I / (2 * pi * d)], whatever the time of the calls. *)
Theorem calculateAtDistances_straight_wire (clock : nat -> string)
        (distances : list float) (this : t) :
  conductorType this = "straight-wire"%string ->
  snd (calculateAtDistances clock distances this)
  = map (fun d =>
           {| Sample.distance := d;
              Sample.B := (PHYSICS_CONSTANTS.MU_0 * current this) / (2 * JS.PI * d) |})
        distances.
Proof.
  intros Hty.
  assert (H : forall (l : list Sample.t) (ds : list float) (f : float -> float),
             map Sample.distance l = ds -> map Sample.B l = map f ds ->
             l = map (fun d => {| Sample.distance := d; Sample.B := f d |}) ds).
  { induction l as [|[d0 b0] l IH]; intros [|d ds] f Hd Hb; try discriminate.
    - reflexivity.
    - cbn in Hd, Hb |- *. injection Hd as -> Hd. injection Hb as -> Hb.
      f_equal. now apply IH. }
  apply H.
  - apply calculateAtDistancesFrom_shape.
  - unfold calculateAtDistances.
    rewrite (calculateAtDistancesFrom_B clock EmptyString).
    apply map_ext. intros d.
    now rewrite calculate_straight_wire.
Qed.

Lemma distance_unused (now : string) (d : float) (this : t) :
  conductorType this <> "straight-wire"%string ->
  Result.B (snd (calculate now (setDistance d this)))
  = Result.B (snd (calculate now this)).
Proof.
  intros Hty.
  destruct (String.eqb_spec (conductorType this) "single-loop") as [Hl|Hl].
  - rewrite !calculate_single_loop by assumption. reflexivity.
  - rewrite !calculate_solenoid_B by assumption. reflexivity.
Qed.

(** X15.  For every other conductor type the distance is not used: all
    entries hold the [B] that [calculate()] gives for the calculator as it
    is. *)
Theorem calculateAtDistances_flat (clock : nat -> string) (now : string)
        (distances : list float) (this : t) :
  conductorType this <> "straight-wire"%string ->
  map Sample.B (snd (calculateAtDistances clock distances this))
  = map (fun _ => Result.B (snd (calculate now this))) distances.
Proof.
  intros Hty. unfold calculateAtDistances.
  rewrite (calculateAtDistancesFrom_B clock now).
  apply map_ext. intros d. now apply distance_unused.
Qed.

End WithFormat.
End FieldEngine.

Module FieldLinkProps.
Import HostFacts LinkFacts FieldEngine.
Import MagneticFieldCalculator FieldSpec FieldLinks.

Section WithHost.
Context {fmt : NumberFormat} {prs : NumberParse}.

(** X11.  The parameters of a calculator made by the constructor or by
    [fromURLParams] are guarded: conductor type and material are not
    empty, and the five numbers are neither zero nor [NaN]; a new
    calculator has no result and no work step. *)
Theorem field_parameters_always_guarded :
  (forall options : Options.t,
     guarded (constructor options)
     /\ results (constructor options) = None
     /\ workSteps (constructor options) = [])
  /\ (forall params : JSObject.t,
        guarded (fromURLParams params)
        /\ results (fromURLParams params) = None
        /\ workSteps (fromURLParams params) = []).
Proof.
  split.
  - intros options. split; [apply field_constructor_guarded|]. split; reflexivity.
  - intros params. unfold fromURLParams.
    split; [apply field_constructor_guarded|]. split; reflexivity.
Qed.

Lemma field_toURLParams_eq (this : t) :
  toURLParams this
  = [ ("type"%string, conductorType this);
      ("current"%string, toString (current this));
      ("turns"%string, toString (turns this));
      ("radius"%string, toString (radius this));
      ("length"%string, toString (length this));
      ("distance"%string, toString (distance this));
      ("material"%string, material this) ].
Proof. reflexivity. Qed.

(** A [params] object with the texts [toURLParams] writes is read back
    as the calculator. *)
Lemma field_link_read_back (this : t) (params : JSObject.t) :
  guarded this -> readsBack this ->
  (forall k, In k names ->
     JSObject.prop k params = URLSearchParams.get k (toURLParams this)) ->
  fromURLParams params = fresh this.
Proof.
  intros (Ty & Mt & TI & TN & Tr & TL & Td) (PI & PN & Pr & PL & Pd) Hp.
  unfold fromURLParams. rewrite !Hp by (cbn; auto 8).
  rewrite field_toURLParams_eq. unfold constructor, fresh, make.
  cbn -[JS.or_else JS.str_or_else parseFloatText parseIntText].
  rewrite PI, PN, Pr, PL, Pd, !or_else_again, !str_or_else_again.
  rewrite !or_else_keeps, !str_or_else_keeps by assumption.
  reflexivity.
Qed.

(** X16.  A link is read back as the calculator it was made from, for
    every calculator with guarded parameters, on a host that reads back
    the numbers it prints ([parseInt] for the turns). *)
Theorem field_link_round_trip (this : t) :
  guarded this -> readsBack this ->
  fromURLParams (JSObject.fromEntries (toURLParams this)) = fresh this.
Proof.
  intros G R. apply field_link_read_back; try assumption.
  intros k _. apply prop_fromEntries. rewrite field_toURLParams_eq. cbn.
  repeat constructor; cbn; intuition discriminate.
Qed.

End WithHost.
End FieldLinkProps.

Module FieldWitnesses.
Import MagneticFieldCalculator FieldSpec FieldLinks FieldEngine FieldLinkProps.

Lemma calculateAtDistances_straight_wire_witness :
  snd (@calculateAtDistances blankFormat (fun _ => EmptyString)
         [0.005; 0.01; 0.02] FieldExamples.wireDemo)
  = map (fun d =>
           {| Sample.distance := d;
              Sample.B := (PHYSICS_CONSTANTS.MU_0 * 2) / (2 * JS.PI * d) |})
        [0.005; 0.01; 0.02].
Proof.
  apply (@calculateAtDistances_straight_wire blankFormat (fun _ => EmptyString)
           [0.005; 0.01; 0.02] FieldExamples.wireDemo).
  reflexivity.
Defined.

Lemma calculateAtDistances_flat_witness :
  map Sample.B
      (snd (@calculateAtDistances blankFormat (fun _ => EmptyString)
              [0.005; 0.01; 0.02] FieldExamples.solenoidDemo))
  = map (fun _ =>
           Result.B (snd (@calculate blankFormat EmptyString FieldExamples.solenoidDemo)))
        [0.005; 0.01; 0.02].
Proof.
  apply (@calculateAtDistances_flat blankFormat (fun _ => EmptyString) EmptyString
           [0.005; 0.01; 0.02] FieldExamples.solenoidDemo).
  discriminate.
Defined.

Lemma field_link_round_trip_witness :
  @fromURLParams Numerals.parse
    (JSObject.fromEntries (@toURLParams Numerals.format FieldExamples.coilDemo))
  = fresh FieldExamples.coilDemo.
Proof.
  apply (@field_link_round_trip Numerals.format Numerals.parse FieldExamples.coilDemo).
  - unfold guarded. cbn. repeat split; try reflexivity; discriminate.
  - unfold readsBack. cbn. repeat split; reflexivity.
Defined.
End FieldWitnesses.

(* ================================================================== *)
(** * The labs and the calculators *)
(* ================================================================== *)

Module LabProps.
Import ChemistryProps FieldProps.

Section WithFormat.
Context {fmt : NumberFormat}.


(** X20.  The amounts the lab shows are those of the calculator: the mole
    counts, the zinc used (the moles reacting) and the leftover of the
    excess reagent; the leftover of the other reagent is [0]. *)
Theorem lab_amounts_match_calculator (now : string) (lab : LimitingReagentLab.t)
        (n V : float) (R : option float) :
  let shown := LimitingReagentLab.update lab in
  let r := snd (ChemistryCalculator.calculate now
                  (ChemistrySpec.make (LimitingReagentLab.massZn lab)
                     (LimitingReagentLab.massMnO2 lab)
                     (LimitingReagentLab.molarMassZn lab)
                     (LimitingReagentLab.molarMassMnO2 lab) n V R)) in
  LimitingReagentLab.molesZn shown = ChemistryCalculator.molesZn r
  /\ LimitingReagentLab.molesMnO2 shown = ChemistryCalculator.molesMnO2 r
  /\ LimitingReagentLab.znUsed shown = ChemistryCalculator.molesReacting r
  /\ match ChemistryCalculator.excessReagent r with
     | Zn => LimitingReagentLab.znLeftover shown = ChemistryCalculator.excessMoles r
             /\ LimitingReagentLab.mno2Leftover shown = 0
     | MnO2 => LimitingReagentLab.mno2Leftover shown
               = ChemistryCalculator.excessMoles r
               /\ LimitingReagentLab.znLeftover shown = 0
     end.
Proof.
  cbn zeta.
  pose proof (limiting_branch now
                (ChemistrySpec.make (LimitingReagentLab.massZn lab)
                   (LimitingReagentLab.massMnO2 lab)
                   (LimitingReagentLab.molarMassZn lab)
                   (LimitingReagentLab.molarMassMnO2 lab) n V R)) as Hb.
  cbn zeta in Hb. rewrite molesZn_eq, molesMnO2_eq.
  cbn [ChemistrySpec.make ChemistryCalculator.massZn ChemistryCalculator.massMnO2
       ChemistryCalculator.molarMassZn ChemistryCalculator.molarMassMnO2] in Hb |- *.
  unfold LimitingReagentLab.update.
  destruct (_ <? _); destruct Hb as (_ & -> & -> & ->); cbn;
    repeat split; reflexivity.
Qed.

(** X21.  The field at the centre that the field-mapping lab computes is
    the [B] of [MagneticFieldCalculator.calculate] for a solenoid in air
    with the same current, turns and length. *)
Theorem field_lab_matches_calculator (now : string) (lab : FieldMappingLab.t)
        (r d : float) :
  FieldMappingLab.bCenter (FieldMappingLab.calculateFieldMap lab)
  = Some (MagneticFieldCalculator.Result.B
            (snd (MagneticFieldCalculator.calculate now
                    (FieldSpec.make "solenoid" (FieldMappingLab.current lab)
                       (FieldMappingLab.turns lab) r (FieldMappingLab.length lab)
                       d "air")))).
Proof.
  rewrite calculate_solenoid_B by discriminate.
  unfold FieldMappingLab.calculateFieldMap; cbn [FieldMappingLab.bCenter].
  change (MagneticFieldCalculator.getMu_r _) with 1.
  replace (PHYSICS_CONSTANTS.MU_0 * 1) with (4 * JS.PI * 1e-7)
    by (vm_compute; reflexivity).
  reflexivity.
Qed.

End WithFormat.
End LabProps.

(* ================================================================== *)
(** * The storage and the calculator pages *)
(* ================================================================== *)

Module StorageFacts.
Import JSON.

(** Induction on a JSON value and on the values inside it. *)
Lemma json_induction (P : JSON.t -> Prop) :
  P JNull -> (forall b, P (JBool b)) -> (forall x, P (JNumber x)) ->
  (forall s, P (JString s)) ->
  (forall items, Forall P items -> P (JArray items)) ->
  (forall fields, Forall (fun kv => P (snd kv)) fields -> P (JObject fields)) ->
  forall v, P v.
Proof.
  intros HN HB HX HS HA HO. fix IH 1. intros [|b|x|s|items|fields].
  - exact HN.
  - apply HB.
  - apply HX.
  - apply HS.
  - apply HA. induction items as [|i items IHi]; constructor; [apply IH|exact IHi].
  - apply HO. induction fields as [|[k x] fields IHf]; constructor;
      [apply IH|exact IHf].
Qed.

(** What has been through [JSON.stringify] and [JSON.parse] once comes
    back unchanged from a second passage. *)
Lemma reparse_idempotent (v : JSON.t) : reparse (reparse v) = reparse v.
Proof.
  induction v as [| b | x | s | items IH | fields IH] using json_induction;
    cbn [reparse]; try reflexivity.
  - destruct (is_finite x) eqn:F; [|reflexivity].
    destruct (is_zero x) eqn:Z; cbn [reparse]; [reflexivity|].
    now rewrite F, Z.
  - f_equal. rewrite map_map. apply map_ext_Forall. exact IH.
  - f_equal. rewrite map_map. apply map_ext_Forall.
    revert IH. apply Forall_impl. intros [k x] H. cbn in H |- *. now rewrite H.
Qed.

Lemma append_injective (p a b : string) : (p ++ a = p ++ b)%string -> a = b.
Proof.
  induction p as [|c p IH]; cbn; [easy|]. intros [= H]. now apply IH.
Qed.

Lemma getItem_setItem (key other : string) (value : JSON.t)
      (items : list (string * JSON.t)) :
  LocalStorage.getItem other (LocalStorage.setItem key value items)
  = if String.eqb key other then Some value else LocalStorage.getItem other items.
Proof.
  induction items as [|[k v] rest IH]; cbn.
  - now destruct (String.eqb key other).
  - destruct (String.eqb_spec k key) as [->|Hne]; cbn.
    + now destruct (String.eqb key other).
    + rewrite IH. destruct (String.eqb_spec k other) as [->|Hk]; [|reflexivity].
      destruct (String.eqb_spec key other) as [->|_]; [congruence|reflexivity].
Qed.

Lemma load_save (key : string) (value : JSON.t) (items : list (string * JSON.t)) :
  AppState.load key (AppState.save key value (Some items)) = reparse value.
Proof.
  unfold AppState.load, AppState.save. rewrite getItem_setItem.
  now rewrite String.eqb_refl.
Qed.

Lemma load_save_other (key other : string) (value : JSON.t)
      (storage : LocalStorage.t) :
  other <> key ->
  AppState.load other (AppState.save key value storage) = AppState.load other storage.
Proof.
  intros Hne. destruct storage as [items|]; [|reflexivity].
  unfold AppState.load, AppState.save. rewrite getItem_setItem.
  destruct (String.eqb_spec (CONFIG.STORAGE_PREFIX ++ key)
                            (CONFIG.STORAGE_PREFIX ++ other)) as [E|_];
    [|reflexivity].
  apply append_injective in E. congruence.
Qed.

End StorageFacts.

Module StorageProps.
Import JSON StorageFacts.

(** X26.  [load] after [save] under the same key gives the value as
    [JSON] returns it (a number that is not finite as [null], the negative
    zero as [0]); other keys are not touched; saving what was loaded
    changes nothing; without a usable storage [save] does nothing and
    [load] gives [null]. *)
Theorem saved_value_is_loaded_reparsed (key : string) (value : JSON.t)
        (items : list (string * JSON.t)) :
  let storage := AppState.save key value (Some items) in
  AppState.load key storage = reparse value
  /\ (forall other, other <> key ->
        AppState.load other storage = AppState.load other (Some items))
  /\ AppState.load key (AppState.save key (AppState.load key storage) storage)
     = AppState.load key storage
  /\ AppState.save key value None = None
  /\ AppState.load key None = JNull.
Proof.
  cbn zeta. repeat split.
  - apply load_save.
  - intros other Hne. now apply load_save_other.
  - rewrite load_save. change (AppState.save key value (Some items))
      with (Some (LocalStorage.setItem (CONFIG.STORAGE_PREFIX ++ key)
                    (reparse value) items)).
    rewrite load_save. apply reparse_idempotent.
Qed.

End StorageProps.

Module FalsyFacts.
Import Binary64 Float64 Binary64Facts Float64Facts HostFacts.

(** A number is falsy when it is a zero or [NaN]. *)
Lemma falsy_spec (x : float) :
  JS.truthy x = false <->
  (exists s, Prim2SF x = S754_zero s) \/ Prim2SF x = S754_nan.
Proof.
  split.
  - intros H. destruct (Prim2SF x) as [s|s| |s m e] eqn:E; eauto.
    + assert (JS.truthy x = true) by (apply truthy_spec; eauto). congruence.
    + assert (JS.truthy x = true) by (apply truthy_spec; eauto 6). congruence.
  - intros H. destruct (JS.truthy x) eqn:T; [|reflexivity].
    apply truthy_spec in T.
    destruct H as [[s H]|H], T as [[s' T]|(s' & m & e & T)]; congruence.
Qed.

Lemma falsy_div (z y : float) : JS.truthy z = false -> JS.truthy (z / y) = false.
Proof.
  rewrite !falsy_spec, div_spec. intros [[s H]| H]; rewrite H.
  - destruct (Prim2SF y) as [sy|sy| |sy my ey]; cbn; eauto.
  - now right.
Qed.

Lemma falsy_mul_r (x z : float) : JS.truthy z = false -> JS.truthy (x * z) = false.
Proof.
  rewrite !falsy_spec, mul_spec. intros [[s H]| H]; rewrite H.
  - destruct (Prim2SF x) as [sx|sx| |sx mx ex]; cbn; eauto.
  - destruct (Prim2SF x) as [sx|sx| |sx mx ex]; cbn; eauto.
Qed.

Lemma falsy_mul_l (z y : float) : JS.truthy z = false -> JS.truthy (z * y) = false.
Proof.
  rewrite !falsy_spec, mul_spec. intros [[s H]| H]; rewrite H.
  - destruct (Prim2SF y) as [sy|sy| |sy my ey]; cbn; eauto.
  - now right.
Qed.

(** Nothing that is not below zero is below a falsy number. *)
Lemma not_below_falsy (m z : float) :
  JS.truthy z = false -> (m <? 0) = false -> (m <? z) = false.
Proof.
  rewrite falsy_spec, !FloatAxioms.ltb_spec, Prim2SF_zero. unfold SFltb.
  intros [[s H]| H]; rewrite H.
  - destruct (Prim2SF m) as [sm|sm| |sm mm em]; cbn; auto.
  - destruct (Prim2SF m) as [sm|sm| |sm mm em]; cbn; auto.
Qed.

Lemma or_else_falsy (x d : float) :
  JS.truthy x = false -> JS.or_else (Some x) d = d.
Proof. intros H. cbn. now rewrite H. Qed.

End FalsyFacts.

Module ChemistryPageProps.
Import HostFacts FalsyFacts StorageFacts.
Import ChemistryCalculator ChemistrySpec ChemistryProps ChemistryLinks.
Import ChemistryCalculatorUI.

Section WithHost.
Context {fmt : NumberFormat} {prs : NumberParse}.

Lemma page_calculate_eq (now : string) (inputs : InputValues.t) (calculator : t)
      (storage : LocalStorage.t) :
  ChemistryCalculatorUI.calculate now inputs calculator storage
  = (fst (ChemistryCalculator.calculate now (readInputs inputs calculator)),
     storeForPhysics
       (Some (snd (ChemistryCalculator.calculate now (readInputs inputs calculator))))
       storage,
     snd (ChemistryCalculator.calculate now (readInputs inputs calculator))).
Proof.
  unfold ChemistryCalculatorUI.calculate.
  now destruct (ChemistryCalculator.calculate now (readInputs inputs calculator)).
Qed.

Lemma calculate_timestamp (now : string) (this : t) :
  timestamp (snd (ChemistryCalculator.calculate now this)) = now.
Proof.
  unfold ChemistryCalculator.calculate.
  destruct (_ <? _); destruct (hasLoad (resistance this)); reflexivity.
Qed.

(** Without zinc there is no charge. *)
Lemma no_zinc_no_charge (now : string) (this : t) :
  JS.truthy (massZn this) = false ->
  (massMnO2 this / molarMassMnO2 this <? 0) = false ->
  JS.truthy (chargeQ (snd (ChemistryCalculator.calculate now this))) = false.
Proof.
  intros Hz Hm.
  destruct (energy_chain now this) as (Ht & Hq & _). rewrite Hq, Ht.
  pose proof (limiting_branch now this) as Hb. cbn zeta in Hb.
  assert (Hmoles : JS.truthy (massZn this / molarMassZn this) = false)
    by now apply falsy_div.
  rewrite not_below_falsy in Hb; [| now apply falsy_mul_l | assumption].
  destruct Hb as (_ & _ & -> & _).
  now apply falsy_mul_l, falsy_mul_r.
Qed.

(** X9.  When the zinc mass typed in is missing, unparsable or zero (and
    the MnO₂ mole count is not negative), the charge is zero or [NaN] and
    [calculate()] of the page stores nothing: the record an earlier
    calculation left for the physics page stays as it was. *)
Theorem no_zinc_stores_nothing (now : string) (inputs : InputValues.t)
        (calculator : t) (storage : LocalStorage.t) :
  let ready := readInputs inputs calculator in
  JS.truthy (parseFloat (InputValues.massZn inputs)) = false ->
  (massMnO2 ready / molarMassMnO2 ready <? 0) = false ->
  snd (fst (ChemistryCalculatorUI.calculate now inputs calculator storage)) = storage.
Proof.
  intros ready Hz Hm. rewrite page_calculate_eq. cbn [fst snd].
  unfold storeForPhysics. rewrite no_zinc_no_charge; [reflexivity| |exact Hm].
  unfold readInputs; cbn [massZn]. now rewrite or_else_falsy.
Qed.

(** X10.  When the charge is neither zero nor [NaN], the record stored
    for the physics page holds the charge, the energy in Wh, the current
    ([null] when the resistance is not a load) and the timestamp, numbers
    as [JSON] returns them. *)
Theorem stored_record_for_physics (now : string) (inputs : InputValues.t)
        (calculator : t) (items : list (string * JSON.t)) :
  let ready := readInputs inputs calculator in
  let results := snd (ChemistryCalculator.calculate now ready) in
  let storage :=
    snd (fst (ChemistryCalculatorUI.calculate now inputs calculator (Some items))) in
  JS.truthy (chargeQ results) = true ->
  AppState.load "chemistry_results" storage
  = JSON.JObject
      [ ("chargeQ"%string, JSON.reparse (JSON.JNumber (chargeQ results)));
        ("energyWh"%string, JSON.reparse (JSON.JNumber (energyWh results)));
        ("current"%string,
         match hasLoad (resistance ready) with
         | Some R => JSON.reparse (JSON.JNumber (cellVoltage ready / R))
         | None => JSON.JNull
         end);
        ("timestamp"%string, JSON.JString now) ].
Proof.
  intros ready results storage Hq. subst storage.
  rewrite page_calculate_eq. cbn [fst snd]. unfold storeForPhysics.
  fold ready. fold results. rewrite Hq, load_save.
  unfold physicsRecord. cbn [JSON.reparse map].
  replace (timestamp results) with now
    by (symmetry; apply calculate_timestamp).
  pose proof (runtime_fields now ready) as Hr. cbn zeta in Hr. fold results in Hr.
  destruct (hasLoad (resistance ready)) as [R|].
  - destruct Hr as (-> & _). reflexivity.
  - destruct Hr as (-> & _). reflexivity.
Qed.

(** X8.  The page and a link agree: input elements holding the texts of
    the parameters of a link give the calculator the parameters that
    [fromURLParams] gives for the link. *)
Theorem form_and_link_agree (inputs : InputValues.t) (calculator : t)
        (params : JSObject.t) :
  JSObject.prop "massZn" params = InputValues.massZn inputs ->
  JSObject.prop "massMnO2" params = InputValues.massMnO2 inputs ->
  JSObject.prop "molarMassZn" params = InputValues.molarMassZn inputs ->
  JSObject.prop "molarMassMnO2" params = InputValues.molarMassMnO2 inputs ->
  JSObject.prop "voltage" params = InputValues.voltage inputs ->
  JSObject.prop "electrons" params = InputValues.electrons inputs ->
  JSObject.prop "resistance" params = InputValues.resistance inputs ->
  fresh (readInputs inputs calculator) = fromURLParams params.
Proof.
  intros H1 H2 H3 H4 H5 H6 H7.
  unfold fromURLParams. rewrite H1, H2, H3, H4, H5, H6, H7.
  unfold fresh, make, readInputs, constructor;
    cbn [massZn massMnO2 molarMassZn molarMassMnO2 cellVoltage
         electronsPerReaction resistance Options.massZn Options.massMnO2
         Options.molarMassZn Options.molarMassMnO2 Options.cellVoltage
         Options.electronsPerReaction Options.resistance].
  now rewrite !or_else_again, or_null_again.
Qed.

End WithHost.
End ChemistryPageProps.

Module PhysicsPageProps.
Import HostFacts FalsyFacts FieldEngine.
Import MagneticFieldCalculator FieldSpec FieldLinks PhysicsCalculatorUI.

Section WithHost.
Context {prs : NumberParse}.

(** X18.  With every input element missing, empty, unparsable or zero,
    the page gives the calculator the parameters of
    [new MagneticFieldCalculator()]: the defaults of the page in
    centimetres (1, 5, 1), divided by 100, are the defaults of the
    constructor in metres (0.01, 0.05, 0.01). *)
Theorem blank_form_is_default_calculator (inputs : InputValues.t) (calculator : t) :
  JS.str_or_else (InputValues.conductorType inputs) "solenoid" = "solenoid"%string ->
  JS.truthy (parseFloat (InputValues.current inputs)) = false ->
  JS.truthy (parseInt (InputValues.turns inputs)) = false ->
  JS.truthy (parseFloat (InputValues.radius inputs)) = false ->
  JS.truthy (parseFloat (InputValues.length inputs)) = false ->
  JS.truthy (parseFloat (InputValues.distance inputs)) = false ->
  JS.str_or_else (InputValues.material inputs) "air" = "air"%string ->
  fresh (readInputs inputs calculator)
  = constructor
      {| Options.conductorType := None; Options.current := None;
         Options.turns := None; Options.radius := None; Options.length := None;
         Options.distance := None; Options.material := None |}.
Proof.
  intros Hty HI HN Hr HL Hd Hm.
  unfold fresh, make, readInputs, constructor;
    cbn [conductorType current turns radius length distance material
         Options.conductorType Options.current Options.turns Options.radius
         Options.length Options.distance Options.material].
  rewrite Hty, Hm, !or_else_falsy by assumption.
  f_equal; vm_compute; reflexivity.
Qed.

End WithHost.
End PhysicsPageProps.

Module UtilsProps.
Import Binary64 Float64 Float64Facts HostFacts FalsyFacts.

Section WithFormat.
Context {fmt : NumberFormat}.

Lemma abs_zero_small (x : float) : is_zero x = true -> (abs x <? 0.0001) = true.
Proof.
  intros Hz. apply is_zero_spec in Hz as [s Hz].
  rewrite FloatAxioms.ltb_spec, abs_spec, Hz. reflexivity.
Qed.

Lemma abs_infinite_large (x : float) :
  is_infinity x = true -> (1e6 <=? abs x) = true.
Proof.
  unfold is_infinity. rewrite FloatAxioms.eqb_spec, FloatAxioms.leb_spec, abs_spec.
  change (Prim2SF infinity) with (S754_infinity false).
  destruct (Prim2SF x) as [s|s| |s m e]; cbn; try discriminate. reflexivity.
Qed.

(** X30.  [formatNumber] prints [NaN] as a dash, and both zeros and both
    infinities in scientific notation ([toExponential]), with the unit
    appended after a space when there is one. *)
Theorem formatNumber_edges (value : float) (decimals : nat) (unit : string) :
  (is_nan value = true -> Utils.formatNumber value decimals unit = "—"%string)
  /\ (is_zero value = true \/ is_infinity value = true ->
      Utils.formatNumber value decimals unit
      = (toExponential value decimals
           ++ match unit with EmptyString => "" | _ => " " ++ unit end)%string).
Proof.
  unfold Utils.formatNumber. split.
  - intros ->. reflexivity.
  - intros H.
    assert (Hn : is_nan value = false).
    { destruct (is_nan value) eqn:En; [|reflexivity].
      apply is_nan_spec in En.
      destruct H as [H|H].
      - apply is_zero_spec in H as [s H]. congruence.
      - unfold is_infinity in H. rewrite FloatAxioms.eqb_spec, abs_spec, En in H.
        discriminate. }
    rewrite Hn. destruct H as [H|H].
    + now rewrite abs_zero_small.
    + rewrite (abs_infinite_large _ H). now rewrite orb_true_r.
Qed.

End WithFormat.
End UtilsProps.

(* ================================================================== *)
(** * Saved scenarios *)
(* ================================================================== *)

Module ScenarioProps.
Import JSON StorageFacts ScenarioManager.
Local Open Scope nat_scope.







Lemma skipn_last_length (A : Type) (l : list A) (n : nat) :
  List.length (skipn (List.length l - n) l) = Nat.min n (List.length l).
Proof. rewrite length_skipn. lia. Qed.



(** X25.  The manager and the lab write the same key.  A scenario the
    lab has stored after the manager was constructed is dropped by the
    next [saveScenario] of the manager: the storage then holds the list the
    manager had loaded, followed by the manager's new scenario. *)
Theorem manager_save_drops_lab_scenario (timestamp : string)
        (lab : LimitingReagentLab.t) (items : list (string * JSON.t))
        (stored : LocalStorage.t) (labScenario : JSON.t)
        (name data : JSON.t) (id later : string) :
  LimitingReagentLab.saveScenario timestamp lab (Some items)
  = Some (stored, labScenario) ->
  exists old this' storage' created,
    scenarios (constructor (Some items)) = JArray old
    /\ saveScenario name data id later (constructor (Some items)) stored
       = Some (this', storage', created)
    /\ AppState.load "saved_scenarios" storage'
       = reparse (JArray (old ++ [scenario name data id later])).
Proof.
  unfold LimitingReagentLab.saveScenario, saveScenario, constructor, loadScenarios.
  cbn [scenarios].
  destruct (or_else _ _) as [| | | |saved|]; try discriminate.
  intros [= <- <-].
  exists saved. do 3 eexists. split; [reflexivity|]. split; [reflexivity|].
  unfold AppState.load. cbn [scenarios AppState.save].
  rewrite getItem_setItem. reflexivity.
Qed.

End ScenarioProps.

(* ================================================================== *)
(** * Theme, text size and mode *)
(* ================================================================== *)

Module AppStateProps.
Import JSON StorageFacts LinkFacts AppState AppStateSpec.
Local Open Scope string_scope.

Lemma oneOf_string (v : JSON.t) (choices : list string) :
  oneOf v choices = true -> exists s, v = JString s /\ In s choices.
Proof.
  destruct v as [| | |s| |]; cbn; try discriminate.
  intros H. apply existsb_exists in H as (c & Hin & Hc).
  apply String.eqb_eq in Hc. subst c. eauto.
Qed.

Lemma oneOf_listed (s : string) (choices : list string) :
  existsb (String.eqb s) choices = true -> oneOf (JString s) choices = true.
Proof. trivial. Qed.

(** A choice [CONFIG] lists is a non-empty string: it is truthy and comes
    back from the storage as it went in. *)
Lemma choice_truthy (v : JSON.t) (choices : list string) :
  ~ In EmptyString choices -> oneOf v choices = true ->
  truthy v = true /\ reparse v = v.
Proof.
  intros Hne H. apply oneOf_string in H as (s & -> & Hin).
  split; [|reflexivity]. destruct s; [contradiction|reflexivity].
Qed.

Lemma themes_nonempty : ~ In EmptyString CONFIG.THEMES.
Proof. cbn. intuition discriminate. Qed.

Lemma sizes_nonempty : ~ In EmptyString CONFIG.TEXT_SIZES.
Proof. cbn. intuition discriminate. Qed.

Lemma modes_nonempty : ~ In EmptyString CONFIG.MODES.
Proof. cbn. intuition discriminate. Qed.

Lemma or_else_stored (key : string) (choices : list string) (d : string)
      (storage : LocalStorage.t) :
  ~ In EmptyString choices -> In d choices ->
  storedChoice key choices storage ->
  oneOf (or_else (load key storage) (JString d)) choices = true.
Proof.
  intros Hne Hd [H|H]; unfold or_else.
  - rewrite H. cbn. apply existsb_exists. exists d. split; [assumption|].
    apply String.eqb_refl.
  - destruct (choice_truthy _ _ Hne H) as [-> _]. exact H.
Qed.

Lemma storedChoice_save (key : string) (choices : list string) (v : JSON.t)
      (storage : LocalStorage.t) :
  ~ In EmptyString choices -> oneOf v choices = true ->
  storedChoice key choices (save key v storage).
Proof.
  intros Hne H. destruct storage as [items|]; [|now left].
  right. rewrite load_save. now destruct (choice_truthy _ _ Hne H) as [_ ->].
Qed.

Lemma storedChoice_save_other (key other : string) (choices : list string)
      (v : JSON.t) (storage : LocalStorage.t) :
  key <> other -> storedChoice key choices storage ->
  storedChoice key choices (save other v storage).
Proof.
  intros Hne H. unfold storedChoice. now rewrite load_save_other.
Qed.

Lemma save_available (key : string) (v : JSON.t) (storage : LocalStorage.t) :
  (exists items, storage = Some items) ->
  exists items, save key v storage = Some items.
Proof. intros [items ->]. cbn. eauto. Qed.

Lemma load_save_available (key : string) (v : JSON.t) (storage : LocalStorage.t) :
  (exists items, storage = Some items) ->
  load key (save key v storage) = reparse v.
Proof. intros [items ->]. apply load_save. Qed.

Section WithFormat.
Context {fmt : NumberFormat}.

Lemma init_settled (this : t) (page : Page) :
  storedValid (storage page) -> settled (init this page).
Proof.
  intros (ST & SS & SM). unfold init.
  set (theme0 := or_else (load "theme" (storage page)) _).
  set (size0 := or_else (load "text_size" (storage page)) _).
  set (mode0 := or_else (load "mode" (storage page)) _).
  assert (V0 : oneOf theme0 CONFIG.THEMES = true)
    by (apply or_else_stored; [apply themes_nonempty|cbn; auto|assumption]).
  assert (VS : oneOf size0 CONFIG.TEXT_SIZES = true)
    by (apply or_else_stored; [apply sizes_nonempty|cbn; auto|assumption]).
  assert (VM0 : oneOf mode0 CONFIG.MODES = true)
    by (apply or_else_stored; [apply modes_nonempty|cbn; auto|assumption]).
  set (mode1 := match URLSearchParams.get "mode" _ with Some _ => _ | None => _ end).
  set (theme1 := match URLSearchParams.get "theme" _ with Some _ => _ | None => _ end).
  assert (VM : oneOf mode1 CONFIG.MODES = true).
  { subst mode1. destruct (URLSearchParams.get "mode" _) as [m|]; [|assumption].
    destruct (existsb (String.eqb m) CONFIG.MODES) eqn:E; assumption. }
  assert (VT : oneOf theme1 CONFIG.THEMES = true).
  { subst theme1. destruct (URLSearchParams.get "theme" _) as [m|]; [|assumption].
    destruct (existsb (String.eqb m) CONFIG.THEMES) eqn:E; assumption. }
  clearbody theme1 mode1 size0. clear theme0 mode0 V0 VM0.
  unfold settled, valid, storedValid, shown, kept, applyMode, updateURL,
    applyTextSize, applyTheme; cbn [fst snd theme textSize mode storage
    dataTheme dataTextSize dataMode].
  repeat split; try assumption.
  - apply storedChoice_save_other; [discriminate|].
    apply storedChoice_save_other; [discriminate|].
    now apply storedChoice_save; [apply themes_nonempty|].
  - apply storedChoice_save_other; [discriminate|].
    now apply storedChoice_save; [apply sizes_nonempty|].
  - now apply storedChoice_save; [apply modes_nonempty|].
  - destruct H as [items H]. destruct (storage page) as [stored|]; [|discriminate].
    rewrite !load_save_other by discriminate. rewrite load_save.
    now destruct (choice_truthy _ _ themes_nonempty VT) as [_ ->].
  - destruct H as [items H]. destruct (storage page) as [stored|]; [|discriminate].
    rewrite load_save_other by discriminate.
    rewrite load_save_available by (apply save_available; eauto).
    now destruct (choice_truthy _ _ sizes_nonempty VS) as [_ ->].
  - destruct H as [items H]. destruct (storage page) as [stored|]; [|discriminate].
    rewrite load_save_available by (do 2 apply save_available; eauto).
    now destruct (choice_truthy _ _ modes_nonempty VM) as [_ ->].
Qed.

Lemma kept_available (this : t) (page : Page) (key : string) (v : JSON.t) :
  (exists items, save key v (storage page) = Some items) ->
  exists items, storage page = Some items.
Proof. destruct (storage page); cbn; [eauto|intros [? ?]; discriminate]. Qed.

Lemma setTheme_settled (value : JSON.t) (state : t * Page) :
  settled state -> settled (setTheme value (fst state) (snd state)).
Proof.
  destruct state as [this page]. cbn [fst snd].
  intros ((VT & VS & VM) & (ST & SS & SM) & (DT & DS & DM) & K).
  unfold setTheme. destruct (oneOf value CONFIG.THEMES) eqn:E.
  - unfold settled, valid, storedValid, shown, kept, applyTheme;
      cbn [fst snd theme textSize mode storage dataTheme dataTextSize dataMode].
    repeat split; try assumption.
    + now apply storedChoice_save; [apply themes_nonempty|].
    + now apply storedChoice_save_other; [discriminate|].
    + now apply storedChoice_save_other; [discriminate|].
    + destruct H as [items H]. destruct (storage page) as [stored|]; [|discriminate].
      rewrite load_save.
      now destruct (choice_truthy _ _ themes_nonempty E) as [_ ->].
    + rewrite load_save_other by discriminate.
      apply K. now apply (kept_available this page "theme" value).
    + rewrite load_save_other by discriminate.
      apply K. now apply (kept_available this page "theme" value).
  - repeat split; try assumption; now apply K.
Qed.

Lemma setTextSize_settled (value : JSON.t) (state : t * Page) :
  settled state -> settled (setTextSize value (fst state) (snd state)).
Proof.
  destruct state as [this page]. cbn [fst snd].
  intros ((VT & VS & VM) & (ST & SS & SM) & (DT & DS & DM) & K).
  unfold setTextSize. destruct (oneOf value CONFIG.TEXT_SIZES) eqn:E.
  - unfold settled, valid, storedValid, shown, kept, applyTextSize;
      cbn [fst snd theme textSize mode storage dataTheme dataTextSize dataMode].
    repeat split; try assumption.
    + now apply storedChoice_save_other; [discriminate|].
    + now apply storedChoice_save; [apply sizes_nonempty|].
    + now apply storedChoice_save_other; [discriminate|].
    + rewrite load_save_other by discriminate.
      apply K. now apply (kept_available this page "text_size" value).
    + destruct H as [items H]. destruct (storage page) as [stored|]; [|discriminate].
      rewrite load_save.
      now destruct (choice_truthy _ _ sizes_nonempty E) as [_ ->].
    + rewrite load_save_other by discriminate.
      apply K. now apply (kept_available this page "text_size" value).
  - repeat split; try assumption; now apply K.
Qed.

Lemma setMode_settled (value : JSON.t) (state : t * Page) :
  settled state -> settled (setMode value (fst state) (snd state)).
Proof.
  destruct state as [this page]. cbn [fst snd].
  intros ((VT & VS & VM) & (ST & SS & SM) & (DT & DS & DM) & K).
  unfold setMode. destruct (oneOf value CONFIG.MODES) eqn:E.
  - unfold settled, valid, storedValid, shown, kept, applyMode, updateURL;
      cbn [fst snd theme textSize mode storage dataTheme dataTextSize dataMode].
    repeat split; try assumption.
    + now apply storedChoice_save_other; [discriminate|].
    + now apply storedChoice_save_other; [discriminate|].
    + now apply storedChoice_save; [apply modes_nonempty|].
    + rewrite load_save_other by discriminate.
      apply K. now apply (kept_available this page "mode" value).
    + rewrite load_save_other by discriminate.
      apply K. now apply (kept_available this page "mode" value).
    + destruct H as [items H]. destruct (storage page) as [stored|]; [|discriminate].
      rewrite load_save.
      now destruct (choice_truthy _ _ modes_nonempty E) as [_ ->].
  - repeat split; try assumption; now apply K.
Qed.

Lemma run_settled (action : Action) (state : t * Page) :
  settled state -> settled (run action state).
Proof.
  destruct action; cbn [run].
  - apply setTheme_settled.
  - apply setTextSize_settled.
  - unfold toggleTextSize. apply setTextSize_settled.
  - apply setMode_settled.
Qed.

Lemma session_settled (actions : list Action) (page : Page) :
  storedValid (storage page) -> settled (session actions page).
Proof.
  intros H. unfold session.
  assert (S0 : settled (init initial page)) by now apply init_settled.
  revert S0. generalize (init initial page).
  induction actions as [|a rest IH]; intros state S0; [exact S0|].
  cbn [fold_left]. apply IH. now apply run_settled.
Qed.

(** X27.  From a storage that holds no unlisted choice, [init] followed
    by any sequence of [setTheme], [setTextSize], [toggleTextSize] and
    [setMode], with any arguments, leaves the theme, the text size and the
    mode among the values [CONFIG] lists, the storage without an unlisted
    choice, and the document showing the choices of the state. *)
Theorem session_keeps_choices_valid (actions : list Action) (page : Page) :
  storedValid (storage page) ->
  let state := session actions page in
  valid (fst state) /\ storedValid (storage (snd state))
  /\ shown (fst state) (snd state).
Proof.
  intros H. destruct (session_settled actions page H) as (V & S & D & _).
  cbn zeta. auto.
Qed.



(** ** What a later visit finds *)

















End WithFormat.
End AppStateProps.

(* ================================================================== *)
(** * Shared links *)
(* ================================================================== *)

Module ShareFacts.
Import HostFacts LinkFacts LinkSpec.

Lemma values_cons (k k1 v1 : string) (q : URLSearchParams.t) :
  values k ((k1, v1) :: q)
  = if String.eqb k1 k then v1 :: values k q else values k q.
Proof. unfold values. cbn. now destruct (String.eqb k1 k). Qed.

Lemma get_values (k : string) (q : URLSearchParams.t) :
  URLSearchParams.get k q = hd_error (values k q).
Proof.
  induction q as [|[k1 v1] rest IH]; [reflexivity|].
  rewrite values_cons. cbn [URLSearchParams.get].
  destruct (String.eqb k1 k); [reflexivity|exact IH].
Qed.

Lemma values_delete (name k : string) (q : URLSearchParams.t) :
  values k (URLSearchParams.delete name q)
  = if String.eqb name k then [] else values k q.
Proof.
  unfold URLSearchParams.delete.
  induction q as [|[k1 v1] rest IH]; cbn [filter fst].
  - now destruct (String.eqb name k).
  - destruct (String.eqb_spec k1 name) as [->|Hne]; cbn [negb].
    + rewrite IH, values_cons. now destruct (String.eqb name k).
    + rewrite !values_cons, IH.
      destruct (String.eqb_spec k1 k) as [->|Hk]; [|reflexivity].
      destruct (String.eqb_spec name k) as [->|_]; [congruence|reflexivity].
Qed.

Lemma values_set (name value k : string) (q : URLSearchParams.t) :
  values k (URLSearchParams.set name value q)
  = if String.eqb name k then [value] else values k q.
Proof.
  induction q as [|[k1 v1] rest IH]; cbn [URLSearchParams.set].
  - rewrite values_cons. now destruct (String.eqb name k).
  - destruct (String.eqb_spec k1 name) as [->|Hne].
    + rewrite !values_cons, values_delete. now destruct (String.eqb name k).
    + rewrite !values_cons, IH.
      destruct (String.eqb_spec k1 k) as [->|Hk]; [|reflexivity].
      destruct (String.eqb_spec name k) as [->|_]; [congruence|reflexivity].
Qed.

Lemma prop_app (k : string) (o more : JSObject.t) :
  JSObject.prop k (o ++ more)
  = match JSObject.prop k o with
    | Some v => Some v
    | None => JSObject.prop k more
    end.
Proof.
  induction o as [|[k1 v1] rest IH]; cbn; [reflexivity|].
  destruct (String.eqb k1 k); [reflexivity|exact IH].
Qed.

(** The object made from a query string has, for each name, the last of
    its values. *)
Lemma prop_fold_values (k : string) (q : URLSearchParams.t) (object : JSObject.t) :
  JSObject.prop k
    (fold_left (fun o kv => JSObject.assign (fst kv) (snd kv) o) q object)
  = match hd_error (rev (values k q)) with
    | Some v => Some v
    | None => JSObject.prop k object
    end.
Proof.
  revert object. induction q as [|[k1 v1] rest IH]; intros object.
  - reflexivity.
  - cbn [fold_left fst snd]. rewrite IH, prop_assign, values_cons.
    destruct (String.eqb k1 k); [|reflexivity].
    cbn [rev]. destruct (rev (values k rest)) as [|v l]; reflexivity.
Qed.

Lemma prop_fromEntries_values (k : string) (q : URLSearchParams.t) :
  JSObject.prop k (JSObject.fromEntries q) = hd_error (rev (values k q)).
Proof.
  unfold JSObject.fromEntries. rewrite prop_fold_values.
  now destruct (hd_error (rev (values k q))).
Qed.

(** A query string without a repeated name makes an object with the same
    pairs in the same order. *)
Lemma assign_fresh (k v : string) (o : JSObject.t) :
  ~ In k (map fst o) -> JSObject.assign k v o = o ++ [(k, v)].
Proof.
  induction o as [|[k1 v1] rest IH]; cbn; [reflexivity|].
  intros H. destruct (String.eqb_spec k1 k) as [->|Hne]; [tauto|].
  rewrite IH; [reflexivity|tauto].
Qed.

Lemma fold_assign_nodup (q : URLSearchParams.t) (o : JSObject.t) :
  NoDup (map fst (o ++ q)) ->
  fold_left (fun o kv => JSObject.assign (fst kv) (snd kv) o) q o = o ++ q.
Proof.
  revert o. induction q as [|[k1 v1] rest IH]; intros o Hnd; cbn [fold_left fst snd].
  - now rewrite app_nil_r.
  - rewrite assign_fresh.
    + rewrite IH; rewrite <- app_assoc; [reflexivity|exact Hnd].
    + rewrite map_app in Hnd. apply NoDup_remove_2 in Hnd.
      intros Hin. apply Hnd. apply in_or_app. now left.
Qed.

Lemma fromEntries_nodup (q : URLSearchParams.t) :
  NoDup (map fst q) -> JSObject.fromEntries q = q.
Proof. intros H. unfold JSObject.fromEntries. now rewrite fold_assign_nodup. Qed.

Section WithFormat.
Context {fmt : NumberFormat}.

(** [generateURL] on string parameters without a repeated name: a name
    with a non-empty text has that text as its only value; every other
    name has the values of the address. *)
Lemma values_generateURL (k : string) (params : URLSearchParams.t) :
  forall href : URL.t,
    NoDup (map fst params) ->
    values k (URL.searchParams
                (DeepLinking.generateURL href
                   (map (fun kv => (fst kv, JSON.JString (snd kv))) params)))
    = match URLSearchParams.get k params with
      | Some EmptyString | None => values k (URL.searchParams href)
      | Some v => [v]
      end.
Proof.
  unfold DeepLinking.generateURL.
  induction params as [|[k1 v1] rest IH]; intros href Hnd; [reflexivity|].
  cbn [map fold_left fst snd URLSearchParams.get].
  cbn in Hnd. inversion Hnd as [|? ? Hnot Hrest]; subst.
  rewrite IH by assumption.
  destruct (String.eqb_spec k1 k) as [->|Hne].
  - rewrite get_absent by assumption.
    destruct v1 as [|c v1]; [reflexivity|].
    cbn [URL.searchParams JSON.toText]. rewrite values_set.
    now rewrite String.eqb_refl.
  - destruct (URLSearchParams.get k rest) as [[|c v]|]; try reflexivity.
    + destruct v1 as [|c1 v1]; [reflexivity|].
      cbn [URL.searchParams JSON.toText]. rewrite values_set.
      destruct (String.eqb_spec k1 k); [congruence|reflexivity].
    + destruct v1 as [|c1 v1]; [reflexivity|].
      cbn [URL.searchParams JSON.toText]. rewrite values_set.
      destruct (String.eqb_spec k1 k); [congruence|reflexivity].
Qed.

End WithFormat.
End ShareFacts.

Module ShareProps.
Import HostFacts LinkFacts LinkSpec ShareFacts.

Section WithHost.
Context {fmt : NumberFormat} {prs : NumberParse}.

Lemma values_none (k : string) (q : URLSearchParams.t) :
  URLSearchParams.get k q = None -> values k q = [].
Proof. rewrite get_values. now destruct (values k q). Qed.

(** The values of the link for a name [toURLParams] writes with a
    non-empty text, and for one it leaves out. *)
Lemma shared_value (k : string) (href : URL.t) (q : URLSearchParams.t) :
  NoDup (map fst q) ->
  (forall v, URLSearchParams.get k q = Some v -> v <> EmptyString) ->
  (URLSearchParams.get k q = None ->
   URLSearchParams.get k (URL.searchParams href) = None) ->
  JSObject.prop k
    (JSObject.fromEntries
       (URL.searchParams (DeepLinking.generateURL href (shared q))))
  = URLSearchParams.get k q.
Proof.
  intros Hnd Hne Hnone. unfold shared.
  rewrite prop_fromEntries_values, fromEntries_nodup by assumption.
  rewrite values_generateURL by assumption.
  destruct (URLSearchParams.get k q) as [[|c v]|] eqn:E.
  - now contradiction (Hne EmptyString).
  - reflexivity.
  - now rewrite values_none by auto.
Qed.

(** X6.  The link [shareLink] copies is read back as the calculator,
    provided the address of the page carries none of the five parameters
    that [toURLParams] leaves out at their default value. *)
Theorem chem_share_link_round_trip (href : URL.t) (this : ChemistryCalculator.t) :
  ChemistryLinks.guarded this -> ChemistryLinks.readsBack this -> printsText ->
  (forall k, In k ChemistryLinks.optionalNames ->
     URLSearchParams.get k (URL.searchParams href) = None) ->
  ChemistryCalculator.fromURLParams
    (JSObject.fromEntries
       (URL.searchParams (ChemistryCalculatorUI.shareLink href this)))
  = ChemistryLinks.fresh this.
Proof.
  intros G R Hp Hh. apply ChemistryLinkProps.chem_link_read_back; try assumption.
  intros k Hk. unfold ChemistryCalculatorUI.shareLink.
  pose proof (ChemistryLinkProps.chem_toURLParams_get this) as Hg. cbn zeta in Hg.
  destruct Hg as (G1 & G2 & G3 & G4 & G5 & G6 & G7).
  apply (shared_value k href (ChemistryCalculator.toURLParams this)).
  - apply ChemistryLinkProps.chem_toURLParams_nodup.
  - intros v Hv. cbn in Hk.
    destruct Hk as [<-|[<-|[<-|[<-|[<-|[<-|[<-|[]]]]]]]];
      rewrite ?G1, ?G2, ?G3, ?G4, ?G5, ?G6, ?G7 in Hv.
    + injection Hv as <-. apply Hp.
    + injection Hv as <-. apply Hp.
    + match type of Hv with context [if ?c then _ else _] => destruct c end;
        [discriminate|]. injection Hv as <-. apply Hp.
    + match type of Hv with context [if ?c then _ else _] => destruct c end;
        [discriminate|]. injection Hv as <-. apply Hp.
    + match type of Hv with context [if ?c then _ else _] => destruct c end;
        [discriminate|]. injection Hv as <-. apply Hp.
    + match type of Hv with context [if ?c then _ else _] => destruct c end;
        [discriminate|]. injection Hv as <-. apply Hp.
    + destruct (ChemistryCalculator.resistance this) as [r|]; [|discriminate].
      destruct (JS.truthy r); [|discriminate]. injection Hv as <-. apply Hp.
  - intros Hn. cbn in Hk.
    destruct Hk as [<-|[<-|[<-|[<-|[<-|[<-|[<-|[]]]]]]]];
      try (apply Hh; cbn; auto 8).
    + rewrite G1 in Hn. discriminate.
    + rewrite G2 in Hn. discriminate.
Qed.

(** X7.  [generateURL] starts from the address of the page.  When a
    setting of the calculator has its default value, [toURLParams] leaves
    it out, and a value of that setting in the address stays in the shared
    link: the link gives the setting of the address, not the default the
    calculator has. *)
Theorem share_link_keeps_address_setting (href : URL.t)
        (this : ChemistryCalculator.t) (setting : ChemistryLinks.Setting)
        (text : string) :
  (ChemistryLinks.settingOf setting this
   =? ChemistryLinks.settingDefault setting)%float = true ->
  values (ChemistryLinks.settingName setting) (URL.searchParams href) = [text] ->
  ChemistryLinks.settingOf setting
    (ChemistryCalculator.fromURLParams
       (JSObject.fromEntries
          (URL.searchParams (ChemistryCalculatorUI.shareLink href this))))
  = JS.or_else (Some (ChemistryLinks.settingRead setting text))
               (ChemistryLinks.settingDefault setting).
Proof.
  intros Hd Hv.
  pose proof (ChemistryLinkProps.chem_toURLParams_get this) as Hg. cbn zeta in Hg.
  destruct Hg as (_ & _ & G3 & G4 & G5 & G6 & _).
  assert (Hprop :
    JSObject.prop (ChemistryLinks.settingName setting)
      (JSObject.fromEntries
         (URL.searchParams (ChemistryCalculatorUI.shareLink href this)))
    = Some text).
  { unfold ChemistryCalculatorUI.shareLink.
    rewrite prop_fromEntries_values,
      fromEntries_nodup by apply ChemistryLinkProps.chem_toURLParams_nodup.
    rewrite values_generateURL by apply ChemistryLinkProps.chem_toURLParams_nodup.
    destruct setting; cbn [ChemistryLinks.settingName ChemistryLinks.settingOf
      ChemistryLinks.settingDefault] in Hd, Hv |- *;
      rewrite ?G3, ?G4, ?G5, ?G6, Hd, Hv; reflexivity. }
  unfold ChemistryCalculator.fromURLParams, ChemistryCalculator.constructor.
  destruct setting; cbn [ChemistryLinks.settingName ChemistryLinks.settingOf
    ChemistryLinks.settingDefault ChemistryLinks.settingRead] in Hprop |- *;
    cbn [ChemistryCalculator.molarMassZn ChemistryCalculator.molarMassMnO2
         ChemistryCalculator.cellVoltage ChemistryCalculator.electronsPerReaction
         ChemistryCalculator.Options.molarMassZn
         ChemistryCalculator.Options.molarMassMnO2
         ChemistryCalculator.Options.cellVoltage
         ChemistryCalculator.Options.electronsPerReaction];
    rewrite Hprop, or_else_again; reflexivity.
Qed.

(** X17.  The link [shareLink] of the physics page copies is read back
    as the calculator, whatever the address of the page carries:
    [toURLParams] writes all seven parameters. *)
Theorem field_share_link_round_trip (href : URL.t)
        (this : MagneticFieldCalculator.t) :
  FieldLinks.guarded this -> FieldLinks.readsBack this -> printsText ->
  MagneticFieldCalculator.fromURLParams
    (JSObject.fromEntries
       (URL.searchParams (PhysicsCalculatorUI.shareLink href this)))
  = FieldLinks.fresh this.
Proof.
  intros G R Hp. apply FieldLinkProps.field_link_read_back; try assumption.
  intros k Hk. unfold PhysicsCalculatorUI.shareLink.
  destruct G as (Ty & Mt & _).
  apply (shared_value k href (MagneticFieldCalculator.toURLParams this)).
  - rewrite FieldLinkProps.field_toURLParams_eq. cbn.
    repeat constructor; cbn; intuition discriminate.
  - intros v Hv. rewrite FieldLinkProps.field_toURLParams_eq in Hv. cbn in Hk.
    destruct Hk as [<-|[<-|[<-|[<-|[<-|[<-|[<-|[]]]]]]]]; cbn in Hv;
      injection Hv as <-; try apply Hp; assumption.
  - intros Hn. rewrite FieldLinkProps.field_toURLParams_eq in Hn. cbn in Hk.
    destruct Hk as [<-|[<-|[<-|[<-|[<-|[<-|[<-|[]]]]]]]]; discriminate.
Qed.

End WithHost.
End ShareProps.

(* ================================================================== *)
(** * The properties at work on examples *)
(* ================================================================== *)

Module PageWitnesses.
Import LinkSpec PageExamples.
Local Open Scope string_scope.

Lemma numerals_print_text : @printsText Numerals.format.
Proof.
  intros x. cbn. unfold Numerals.table.
  repeat (cbn [Numerals.print]; destruct (x =? _)%float; [discriminate|]).
  discriminate.
Qed.

Lemma no_zinc_stores_nothing_witness :
  snd (fst (@ChemistryCalculatorUI.calculate blankFormat Numerals.parse "now"
              blankForm
              (ChemistryCalculator.constructor
                 (CHEMISTRY_PRESETS.options CHEMISTRY_PRESETS.A))
              (Some [])))
  = Some [].
Proof.
  apply (@ChemistryPageProps.no_zinc_stores_nothing blankFormat Numerals.parse "now"
           blankForm
           (ChemistryCalculator.constructor
              (CHEMISTRY_PRESETS.options CHEMISTRY_PRESETS.A))
           (Some [])).
  - reflexivity.
  - reflexivity.
Defined.

Lemma stored_record_for_physics_witness :
  AppState.load "chemistry_results"
    (snd (fst (@ChemistryCalculatorUI.calculate blankFormat Numerals.parse "now"
                 loadedForm (ChemistryCalculator.constructor
                               (CHEMISTRY_PRESETS.options CHEMISTRY_PRESETS.B))
                 (Some []))))
  = JSON.JObject
      [ ("chargeQ", JSON.JNumber 2219.678844207233);
        ("energyWh", JSON.JNumber 0.9248661850863471);
        ("current", JSON.JNumber 0.15);
        ("timestamp", JSON.JString "now") ].
Proof.
  pose proof (@ChemistryPageProps.stored_record_for_physics blankFormat
                Numerals.parse "now" loadedForm
                (ChemistryCalculator.constructor
                   (CHEMISTRY_PRESETS.options CHEMISTRY_PRESETS.B)) []) as H.
  cbn zeta in H. rewrite H by reflexivity. vm_compute. reflexivity.
Defined.

Lemma form_and_link_agree_witness :
  ChemistryLinks.fresh
    (@ChemistryCalculatorUI.readInputs Numerals.parse loadedForm
       (ChemistryCalculator.constructor
          (CHEMISTRY_PRESETS.options CHEMISTRY_PRESETS.B)))
  = @ChemistryCalculator.fromURLParams Numerals.parse loadedParams.
Proof.
  apply (@ChemistryPageProps.form_and_link_agree Numerals.parse loadedForm
           (ChemistryCalculator.constructor
              (CHEMISTRY_PRESETS.options CHEMISTRY_PRESETS.B)) loadedParams);
    reflexivity.
Defined.

Lemma blank_form_is_default_calculator_witness :
  FieldLinks.fresh
    (@PhysicsCalculatorUI.readInputs Numerals.parse blankFieldForm
       FieldExamples.coilDemo)
  = MagneticFieldCalculator.constructor
      {| MagneticFieldCalculator.Options.conductorType := None;
         MagneticFieldCalculator.Options.current := None;
         MagneticFieldCalculator.Options.turns := None;
         MagneticFieldCalculator.Options.radius := None;
         MagneticFieldCalculator.Options.length := None;
         MagneticFieldCalculator.Options.distance := None;
         MagneticFieldCalculator.Options.material := None |}.
Proof.
  apply (@PhysicsPageProps.blank_form_is_default_calculator Numerals.parse
           blankFieldForm FieldExamples.coilDemo); reflexivity.
Defined.

Lemma chem_share_link_round_trip_witness :
  @ChemistryCalculator.fromURLParams Numerals.parse
    (JSObject.fromEntries
       (URL.searchParams
          (@ChemistryCalculatorUI.shareLink Numerals.format physicsAddress
             ChemistryExamples.loaded)))
  = ChemistryLinks.fresh ChemistryExamples.loaded.
Proof.
  apply (@ShareProps.chem_share_link_round_trip Numerals.format Numerals.parse
           physicsAddress ChemistryExamples.loaded).
  - unfold ChemistryLinks.guarded. cbn. repeat split; try reflexivity.
    right; reflexivity. right; reflexivity.
  - unfold ChemistryLinks.readsBack. cbn. repeat split; reflexivity.
  - apply numerals_print_text.
  - intros k Hk. cbn in Hk.
    destruct Hk as [<-|[<-|[<-|[<-|[<-|[]]]]]]; reflexivity.
Defined.

Lemma share_link_keeps_address_setting_witness :
  ChemistryCalculator.molarMassZn
    (@ChemistryCalculator.fromURLParams Numerals.parse
       (JSObject.fromEntries
          (URL.searchParams
             (@ChemistryCalculatorUI.shareLink Numerals.format heavyZincAddress
                ChemistryExamples.loaded))))
  = 70%float.
Proof.
  apply (@ShareProps.share_link_keeps_address_setting Numerals.format
           Numerals.parse heavyZincAddress ChemistryExamples.loaded
           ChemistryLinks.MolarMassZn "70"); reflexivity.
Defined.

Lemma field_share_link_round_trip_witness :
  @MagneticFieldCalculator.fromURLParams Numerals.parse
    (JSObject.fromEntries
       (URL.searchParams
          (@PhysicsCalculatorUI.shareLink Numerals.format heavyZincAddress
             FieldExamples.coilDemo)))
  = FieldLinks.fresh FieldExamples.coilDemo.
Proof.
  apply (@ShareProps.field_share_link_round_trip Numerals.format Numerals.parse
           heavyZincAddress FieldExamples.coilDemo).
  - unfold FieldLinks.guarded. cbn. repeat split; try reflexivity; discriminate.
  - unfold FieldLinks.readsBack. cbn. repeat split; reflexivity.
  - apply numerals_print_text.
Defined.

End PageWitnesses.

Module ScenarioWitnesses.
Import JSON ScenarioManager PageExamples.
Local Open Scope string_scope.




Lemma manager_save_drops_lab_scenario_witness :
  exists old this' storage' created,
    scenarios (constructor (Some tenScenarios)) = JArray old
    /\ saveScenario (JString "mine") JNull "lx9" "t9"
         (constructor (Some tenScenarios))
         (AppState.save "saved_scenarios"
            (JArray
               (skipn 1
                  (repeat (LimitingReagentLab.scenario "t0"
                             LimitingReagentLab.constructor) 10
                   ++ [ LimitingReagentLab.scenario "t1"
                          LimitingReagentLab.constructor ])))
            (Some tenScenarios))
       = Some (this', storage', created)
    /\ AppState.load "saved_scenarios" storage'
       = reparse (JArray (old ++ [ scenario (JString "mine") JNull "lx9" "t9" ])).
Proof.
  apply (ScenarioProps.manager_save_drops_lab_scenario "t1"
           LimitingReagentLab.constructor tenScenarios _
           (LimitingReagentLab.scenario "t1" LimitingReagentLab.constructor)
           (JString "mine") JNull "lx9" "t9").
  reflexivity.
Defined.

End ScenarioWitnesses.

Module AppStateWitnesses.
Import JSON AppState AppStateSpec PageExamples.
Local Open Scope string_scope.

Lemma first_visit_stored_valid (href : URL.t) :
  storedValid (storage (firstVisit href)).
Proof. repeat split; left; reflexivity. Qed.

Lemma session_keeps_choices_valid_witness :
  let state :=
    @session blankFormat
      [ SetTheme (JString "light"); SetTheme (JString "sepia"); ToggleTextSize;
        SetMode (JNumber 1) ] (firstVisit plainAddress) in
  valid (fst state) /\ storedValid (storage (snd state))
  /\ @shown blankFormat (fst state) (snd state).
Proof.
  apply (@AppStateProps.session_keeps_choices_valid blankFormat
           [ SetTheme (JString "light"); SetTheme (JString "sepia"); ToggleTextSize;
             SetMode (JNumber 1) ] (firstVisit plainAddress)).
  repeat split; left; reflexivity.
Defined.



End AppStateWitnesses.
